(** * The CSV-to-MySQL loader of [src/store_data.py]

    A shallow embedding of the loader script: the logging set-up
    ([configure_logging] of [logs/log_config.py]), file discovery
    ([get_files]), the database manager ([MySQLDatabaseManager]) and the
    table loader ([CSVToMySQLLoader]), followed by the properties of the
    specification that concern them.

    Python strings are [string]; exceptions are values of [exn] carried by
    an outcome type; the file system, the MySQL server and the log are an
    explicit environment threaded through a small state/exception/writer
    monad. *)

From Stdlib Require Import String Ascii List Bool Arith ZArith Lia.
From Stdlib Require Import Permutation DecimalString.
Import ListNotations.

Local Open Scope string_scope.
Local Open Scope list_scope.

(* ===================================================================== *)
(** ** Python strings *)
(* ===================================================================== *)

Module PyStr.

(** The double quote character, written inside the f-strings of the
    source. *)
Definition dq : string := String (ascii_of_nat 34) EmptyString.

(** [s[:n]] for [0 <= n]. *)
Fixpoint take (n : nat) (s : string) : string :=
  match n, s with
  | S n', String c s' => String c (take n' s')
  | _, _ => EmptyString
  end.

(** [s[n:]] for [0 <= n]. *)
Fixpoint drop (n : nat) (s : string) : string :=
  match n, s with
  | S n', String _ s' => drop n' s'
  | _, _ => s
  end.

(** [s[:-k]] for a literal [k > 0]: Python clamps the start of the removed
    part at 0, so a string of [k] characters or fewer gives the empty
    string. *)
Definition slice_to_neg (k : nat) (s : string) : string :=
  take (String.length s - k) s.

(** [s.endswith(suffix)]. *)
Definition endswith (s suffix : string) : bool :=
  Nat.leb (String.length suffix) (String.length s)
  && String.eqb (drop (String.length s - String.length suffix) s) suffix.

(** [s.startswith(prefix)]. *)
Definition startswith (s pre : string) : bool := String.prefix pre s.

(** [sep.join(parts)]. *)
Definition join (sep : string) (parts : list string) : string :=
  String.concat sep parts.

(** [s.split(sep)] for a one-character separator: the fields between the
    separators, empty fields included. *)
Fixpoint split (sep : ascii) (s : string) : list string :=
  match s with
  | EmptyString => [EmptyString]
  | String c s' =>
      if Ascii.eqb c sep then EmptyString :: split sep s'
      else match split sep s' with
           | [] => [String c EmptyString]
           | f :: fs => String c f :: fs
           end
  end.

(** [s.rfind(c)]: the index of the last occurrence of [c], [None] for
    Python's [-1]. *)
Fixpoint rfind (c : ascii) (s : string) : option nat :=
  match s with
  | EmptyString => None
  | String a s' =>
      match rfind c s' with
      | Some i => Some (S i)
      | None => if Ascii.eqb a c then Some 0 else None
      end
  end.

(** [str(n)] for a natural number. *)
Definition of_nat (n : nat) : string := NilZero.string_of_uint (Nat.to_uint n).

(** [str(z)] for an integer. *)
Definition of_Z (z : Z) : string := NilZero.string_of_int (Z.to_int z).

(** [[x] * n]. *)
Definition repeat_list {A} (x : A) (n : nat) : list A := List.repeat x n.

End PyStr.

(* ===================================================================== *)
(** ** [pathlib] and [os.path] (POSIX flavour) *)
(* ===================================================================== *)

Module PyPath.

Definition slash : ascii := "/"%char.
Definition dot : ascii := "."%char.

(** The parts of a path after the root: [pathlib] drops empty components
    and single dots when it parses a path. *)
Definition parts (p : string) : list string :=
  filter (fun c => negb (String.eqb c EmptyString || String.eqb c "."))
         (PyStr.split slash p).

(** [PurePath.name]: the final component, the empty string when there is
    none. *)
Definition name (p : string) : string := List.last (parts p) EmptyString.

(** [PurePath.stem]:
    [i = name.rfind('.'); name[:i] if 0 < i < len(name) - 1 else name]. *)
Definition stem (p : string) : string :=
  let n := name p in
  match PyStr.rfind dot n with
  | Some i =>
      if Nat.ltb 0 i && Nat.ltb i (String.length n - 1)
      then PyStr.take i n else n
  | None => n
  end.

(** [os.path.join(a, b)] of [posixpath]. *)
Definition join (a b : string) : string :=
  if PyStr.startswith b "/" then b
  else if String.eqb a EmptyString || PyStr.endswith a "/" then a ++ b
  else a ++ "/" ++ b.

End PyPath.

(** [Path(csv_file).stem[:-8]], the table name of
    [CSVToMySQLLoader.load_csv_to_db]. *)
Definition suffix_length : nat := 8.

Definition table_name (csv_file : string) : string :=
  PyStr.slice_to_neg suffix_length (PyPath.stem csv_file).

(* ===================================================================== *)
(** ** Exceptions *)
(* ===================================================================== *)

Module Exn.

(** The exception classes the script can meet: the built-in ones, those of
    pandas ([EmptyDataError] and [ParserError] derive from [ValueError])
    and those of [mysql.connector] ([MySQLError] is
    [mysql.connector.Error]).  Asynchronous [BaseException]s
    ([KeyboardInterrupt], [SystemExit]) are outside the model. *)
Inductive cls : Set :=
| Exception
| OSError | FileNotFoundError | FileExistsError | PermissionError
| IsADirectoryError | NotADirectoryError
| ValueError | UnicodeDecodeError | EmptyDataError | ParserError
| AttributeError | TypeError
| MySQLError | InterfaceError | DatabaseError
| OperationalError | ProgrammingError | DataError.

Definition eqb (c d : cls) : bool :=
  match c, d with
  | Exception, Exception | OSError, OSError
  | FileNotFoundError, FileNotFoundError | FileExistsError, FileExistsError
  | PermissionError, PermissionError
  | IsADirectoryError, IsADirectoryError
  | NotADirectoryError, NotADirectoryError
  | ValueError, ValueError | UnicodeDecodeError, UnicodeDecodeError
  | EmptyDataError, EmptyDataError | ParserError, ParserError
  | AttributeError, AttributeError | TypeError, TypeError
  | MySQLError, MySQLError | InterfaceError, InterfaceError
  | DatabaseError, DatabaseError | OperationalError, OperationalError
  | ProgrammingError, ProgrammingError | DataError, DataError => true
  | _, _ => false
  end.

(** The direct base class. *)
Definition base (c : cls) : option cls :=
  match c with
  | Exception => None
  | OSError | ValueError | AttributeError | TypeError | MySQLError =>
      Some Exception
  | FileNotFoundError | FileExistsError | PermissionError
  | IsADirectoryError | NotADirectoryError => Some OSError
  | UnicodeDecodeError | EmptyDataError | ParserError => Some ValueError
  | InterfaceError | DatabaseError => Some MySQLError
  | OperationalError | ProgrammingError | DataError => Some DatabaseError
  end.

Fixpoint is_a (fuel : nat) (c d : cls) : bool :=
  eqb c d
  || match fuel, base c with
     | S fuel', Some b => is_a fuel' b d
     | _, _ => false
     end.

(** [issubclass(c, d)]; the hierarchy is four levels deep. *)
Definition issubclass (c d : cls) : bool := is_a 4 c d.

Record t : Type := Build { class : cls; message : string }.

(** [isinstance(e, d)], the test of an [except d] clause. *)
Definition isinstance (e : t) (d : cls) : bool := issubclass (class e) d.

End Exn.

Definition exn : Type := Exn.t.

(** The outcome of a Python call: a value, or a raised exception. *)
Inductive outcome (A : Type) : Type :=
| Ret (a : A)
| Raise (e : exn).
Arguments Ret {A} a.
Arguments Raise {A} e.

(** The exception an outcome carries, if any. *)
Definition failure {A} (o : outcome A) : option exn :=
  match o with Raise e => Some e | Ret _ => None end.

(* ===================================================================== *)
(** ** The log *)
(* ===================================================================== *)

Inductive level : Set := INFO | WARNING | ERROR.

Record log_entry : Type := Log { log_level : level; log_message : string }.

(* ===================================================================== *)
(** ** Tabular data *)
(* ===================================================================== *)

(** The scalars a [DataFrame] read from a CSV file holds: [int64],
    [float64] (kept as the decimal [mantissa * 10 ^ (- scale)], without
    trailing zeros; binary rounding is not modelled), strings, and the
    missing value [nan]. *)
Inductive scalar : Set :=
| SInt (z : Z)
| SFloat (mantissa : Z) (scale : nat)
| SStr (s : string)
| SNaN.

(** A [pd.DataFrame], as far as the script looks at it: [df.columns], and
    the tuples [tuple(row)] that [df.iterrows()] yields, in order. *)
Record DataFrame : Type := {
  columns : list string;
  iterrows : list (list scalar)
}.

(* ===================================================================== *)
(** ** The MySQL server and its driver *)
(* ===================================================================== *)

(** A model of the two systems the script drives, the driver
    [mysql.connector] and the server behind it: the calls the script
    makes, kept in a journal with their outcome, and what the server does
    with the two statements the script sends.  Any call can also fail for
    a reason of its own, which the environment plans ([faults]). *)
Module MySQL.

(** The two statements the script sends. *)
Inductive statement : Type :=
| CreateTableIfNotExists (table columns : string)
| InsertValues (table placeholders : string).

(** The text of a statement, as the f-strings of [create_table] and
    [insert_data] build it. *)
Definition sql (s : statement) : string :=
  match s with
  | CreateTableIfNotExists table columns =>
      "CREATE TABLE IF NOT EXISTS " ++ table ++ " (" ++ columns ++ ");"
  | InsertValues table placeholders =>
      "INSERT INTO " ++ table ++ " VALUES (" ++ placeholders ++ ")"
  end.

(** The calls made on the driver. *)
Inductive call : Type :=
| Connect
| Cursor
| Execute (query : string) (params : list scalar)
| Commit
| CursorClose
| Close.

(** A call, with the exception it raised, if any. *)
Definition event : Type := call * option exn.

(** A call that returned. *)
Definition ok (c : call) : event := (c, None).

(** A table: its columns with their types, the committed rows, and the
    rows inserted in the open transaction. *)
Record table : Type := {
  t_columns : list (string * string);
  t_rows : list (list string);
  t_staged : list (list string)
}.

(** The server as the script's single connection sees it.  [journal]
    holds the calls made on the driver, in the order they were made.
    [faults k] is the error, if any, met by the [k]-th call on the driver
    (lost connection, denied permission, ...), whatever the statement. *)
Record server : Type := {
  connected : bool;
  tables : list (string * table);
  journal : list event;
  faults : nat -> option exn
}.

Definition record (ev : event) (sv : server) : server :=
  {| connected := connected sv; tables := tables sv;
     journal := journal sv ++ [ev]; faults := faults sv |}.

Definition with_tables (ts : list (string * table)) (sv : server) : server :=
  {| connected := connected sv; tables := ts;
     journal := journal sv; faults := faults sv |}.

Definition with_connected (b : bool) (sv : server) : server :=
  {| connected := b; tables := tables sv;
     journal := journal sv; faults := faults sv |}.

(** *** Identifiers *)

Definition between (lo n hi : nat) : bool := Nat.leb lo n && Nat.leb n hi.

Definition is_digit (c : ascii) : bool := between 48 (nat_of_ascii c) 57.

Definition ident_char (c : ascii) : bool :=
  let n := nat_of_ascii c in
  between 48 n 57 || between 65 n 90 || between 97 n 122
  || Nat.eqb n 95 || Nat.eqb n 36.

Definition lower_char (c : ascii) : ascii :=
  let n := nat_of_ascii c in
  if between 65 n 90 then ascii_of_nat (n + 32) else c.

Fixpoint lower (s : string) : string :=
  match s with
  | EmptyString => EmptyString
  | String c s' => String (lower_char c) (lower s')
  end.

Fixpoint all_chars (f : ascii -> bool) (s : string) : bool :=
  match s with
  | EmptyString => true
  | String c s' => f c && all_chars f s'
  end.

(** The reserved words of MySQL 8.0 (the words marked (R) in the list of
    keywords of the reference manual), in lower case. *)
Definition reserved : list string :=
  ["accessible"; "add"; "all"; "alter"; "analyze"; "and"; "as"; "asc";
   "asensitive"; "before"; "between"; "bigint"; "binary"; "blob"; "both";
   "by"; "call"; "cascade"; "case"; "change"; "char"; "character";
   "check"; "collate"; "column"; "condition"; "constraint"; "continue";
   "convert"; "create"; "cross"; "cube"; "cume_dist"; "current_date";
   "current_time"; "current_timestamp"; "current_user"; "cursor";
   "database"; "databases"; "day_hour"; "day_microsecond"; "day_minute";
   "day_second"; "dec"; "decimal"; "declare"; "default"; "delayed";
   "delete"; "dense_rank"; "desc"; "describe"; "deterministic";
   "distinct"; "distinctrow"; "div"; "double"; "drop"; "dual"; "each";
   "else"; "elseif"; "empty"; "enclosed"; "escaped"; "except"; "exists";
   "exit"; "explain"; "false"; "fetch"; "first_value"; "float"; "float4";
   "float8"; "for"; "force"; "foreign"; "from"; "fulltext"; "function";
   "generated"; "get"; "grant"; "group"; "grouping"; "groups"; "having";
   "high_priority"; "hour_microsecond"; "hour_minute"; "hour_second";
   "if"; "ignore"; "in"; "index"; "infile"; "inner"; "inout";
   "insensitive"; "insert"; "int"; "int1"; "int2"; "int3"; "int4"; "int8";
   "integer"; "intersect"; "interval"; "into"; "io_after_gtids";
   "io_before_gtids"; "is"; "iterate"; "join"; "json_table"; "key";
   "keys"; "kill"; "lag"; "last_value"; "lateral"; "lead"; "leading";
   "leave"; "left"; "like"; "limit"; "linear"; "lines"; "load";
   "localtime"; "localtimestamp"; "lock"; "long"; "longblob"; "longtext";
   "loop"; "low_priority"; "master_bind";
   "master_ssl_verify_server_cert"; "match"; "maxvalue"; "mediumblob";
   "mediumint"; "mediumtext"; "middleint"; "minute_microsecond";
   "minute_second"; "mod"; "modifies"; "natural"; "not";
   "no_write_to_binlog"; "nth_value"; "ntile"; "null"; "numeric"; "of";
   "on"; "optimize"; "optimizer_costs"; "option"; "optionally"; "or";
   "order"; "out"; "outer"; "outfile"; "over"; "partition";
   "percent_rank"; "precision"; "primary"; "procedure"; "purge"; "range";
   "rank"; "read"; "reads"; "read_write"; "real"; "recursive";
   "references"; "regexp"; "release"; "rename"; "repeat"; "replace";
   "require"; "resignal"; "restrict"; "return"; "revoke"; "right";
   "rlike"; "row"; "rows"; "row_number"; "schema"; "schemas";
   "second_microsecond"; "select"; "sensitive"; "separator"; "set";
   "show"; "signal"; "smallint"; "spatial"; "specific"; "sql";
   "sqlexception"; "sqlstate"; "sqlwarning"; "sql_big_result";
   "sql_calc_found_rows"; "sql_small_result"; "ssl"; "starting";
   "stored"; "straight_join"; "system"; "table"; "terminated"; "then";
   "tinyblob"; "tinyint"; "tinytext"; "to"; "trailing"; "trigger"; "true";
   "undo"; "union"; "unique"; "unlock"; "unsigned"; "update"; "usage";
   "use"; "using"; "utc_date"; "utc_time"; "utc_timestamp"; "values";
   "varbinary"; "varchar"; "varcharacter"; "varying"; "virtual"; "when";
   "where"; "while"; "window"; "with"; "write"; "xor"; "year_month";
   "zerofill"].

Definition mem (s : string) (l : list string) : bool :=
  existsb (String.eqb s) l.

Definition is_hex (c : ascii) : bool :=
  let n := nat_of_ascii c in
  between 48 n 57 || between 65 n 70 || between 97 n 102.

Definition is_bit (c : ascii) : bool := Ascii.eqb c "0" || Ascii.eqb c "1".

Fixpoint skip_digits (s : string) : string :=
  match s with
  | String c r => if is_digit c then skip_digits r else s
  | EmptyString => EmptyString
  end.

(** A name the server reads as a number, or as a number followed by a
    name: digits only; [0x] and hexadecimal digits; [0b] and bits; digits,
    then [e] or [E] and a digit ([1e5]). *)
Definition numeral (s : string) : bool :=
  all_chars is_digit s
  || match s with
     | String "0" (String "x" r) =>
         negb (String.eqb r EmptyString) && all_chars is_hex r
     | String "0" (String "b" r) =>
         negb (String.eqb r EmptyString) && all_chars is_bit r
     | _ => false
     end
  || match s with
     | String c _ =>
         is_digit c
         && match skip_digits s with
            | String e (String d _) =>
                (Ascii.eqb e "e" || Ascii.eqb e "E") && is_digit d
            | _ => false
            end
     | EmptyString => false
     end.

(** An unquoted identifier: not empty, letters, digits, [_] and [$], not
    read as a number, not a reserved word in any case of its letters. *)
Definition identifier (s : string) : bool :=
  negb (String.eqb s EmptyString)
  && all_chars ident_char s
  && negb (numeral s)
  && negb (mem (lower s) reserved).

(** *** Column definitions *)

Definition space : ascii := " "%char.

Fixpoint lstrip (s : string) : string :=
  match s with
  | String c s' => if Ascii.eqb c space then lstrip s' else s
  | EmptyString => EmptyString
  end.

(** The text up to the first space, and the text after it. *)
Fixpoint break_space (s : string) : string * string :=
  match s with
  | EmptyString => (EmptyString, EmptyString)
  | String c s' =>
      if Ascii.eqb c space then (EmptyString, s')
      else let (a, b) := break_space s' in (String c a, b)
  end.

(** The column types the model knows. *)
Definition column_types : list string :=
  ["VARCHAR(255)"; "TEXT"; "INT"; "DOUBLE"; "DATE"].

(** One [name type] item of a column list. *)
Definition read_column (item : string) : option (string * string) :=
  let (name, ty) := break_space (lstrip item) in
  if identifier name && mem ty column_types then Some (name, ty) else None.

Fixpoint read_all (items : list string) : option (list (string * string)) :=
  match items with
  | [] => Some []
  | i :: rest =>
      match read_column i, read_all rest with
      | Some c, Some cs => Some (c :: cs)
      | _, _ => None
      end
  end.

(** The columns a column list declares, as the server reads it: items
    separated by commas, each a name followed by a type. *)
Definition read_columns (columns : string) : option (list (string * string)) :=
  if String.eqb columns EmptyString then Some []
  else read_all (PyStr.split ","%char columns).

(** No name comes twice; the server compares column names without regard
    to the case of their letters. *)
Fixpoint no_dup (l : list string) : bool :=
  match l with
  | [] => true
  | x :: r => negb (mem (lower x) (map lower r)) && no_dup r
  end.

(** *** Parameters *)

(** [str(x)] of a float [m * 10 ^ (- e)] in positional notation (Python
    switches to the exponent notation outside [1e-4, 1e16), which the
    model leaves out). *)
Definition float_text (m : Z) (e : nat) : string :=
  let a := Z.abs m in
  let p := (10 ^ Z.of_nat e)%Z in
  let frac := PyStr.of_Z (a mod p) in
  ((if (m <? 0)%Z then "-" else EmptyString)
   ++ PyStr.of_Z (a / p) ++ "."
   ++ (if Nat.eqb e 0 then "0"
       else PyStr.join EmptyString
              (List.repeat "0" (e - String.length frac)) ++ frac))%string.

(** The text the server stores for a parameter in a text column; [nan] is
    no SQL literal. *)
Definition literal (v : scalar) : option string :=
  match v with
  | SInt z => Some (PyStr.of_Z z)
  | SFloat m e => Some (float_text m e)
  | SStr s => Some s
  | SNaN => None
  end.

Fixpoint literals (vs : list scalar) : option (list string) :=
  match vs with
  | [] => Some []
  | v :: rest =>
      match literal v, literals rest with
      | Some t, Some ts => Some (t :: ts)
      | _, _ => None
      end
  end.

(** The number of [%s] markers of a statement. *)
Fixpoint count_placeholders (s : string) : nat :=
  match s with
  | String "%" ((String "s" _) as s') => S (count_placeholders s')
  | String _ s' => count_placeholders s'
  | EmptyString => 0
  end.

(** *** Statements *)

Fixpoint lookup (name : string) (ts : list (string * table)) : option table :=
  match ts with
  | [] => None
  | (n, t) :: rest => if String.eqb n name then Some t else lookup name rest
  end.

Fixpoint update (name : string) (t : table) (ts : list (string * table))
  : list (string * table) :=
  match ts with
  | [] => []
  | (n, t') :: rest =>
      if String.eqb n name then (n, t) :: rest
      else (n, t') :: update name t rest
  end.

Definition commit_table (nt : string * table) : string * table :=
  (fst nt, {| t_columns := t_columns (snd nt);
              t_rows := t_rows (snd nt) ++ t_staged (snd nt);
              t_staged := [] |}).

Definition rollback_table (nt : string * table) : string * table :=
  (fst nt, {| t_columns := t_columns (snd nt);
              t_rows := t_rows (snd nt);
              t_staged := [] |}).

Definition stage (row : list string) (t : table) : table :=
  {| t_columns := t_columns t; t_rows := t_rows t;
     t_staged := t_staged t ++ [row] |}.

Definition error {A} (c : Exn.cls) (m : string) : outcome A :=
  Raise (Exn.Build c m).

Definition too_long (column : string * string) (text : string) : bool :=
  String.eqb (snd column) "VARCHAR(255)" && Nat.ltb 255 (String.length text).

Fixpoint any_too_long (cols : list (string * string)) (texts : list string)
  : bool :=
  match cols, texts with
  | c :: cs, t :: ts => too_long c t || any_too_long cs ts
  | _, _ => false
  end.

(** What the server does with the two statements, for a table name and a
    column list it reads as such: a name that is no identifier, or a
    column list that is no list of columns, is answered with a syntax
    error.  The script writes both into the text without quoting them, so
    a name or a header with other characters (spaces, parentheses,
    comment marks) can spell another statement, which this model does not
    follow: the properties that depend on what the server stores are
    stated for names made of identifier characters.  A data-definition
    statement commits the open transaction. *)
Definition execute_statement (s : statement) (params : list scalar)
    (sv : server) : outcome unit * server :=
  match s with
  | CreateTableIfNotExists name columns =>
      if negb (identifier name) then
        (error Exn.ProgrammingError
           "1064 (42000): You have an error in your SQL syntax", sv)
      else
        match read_columns columns with
        | None =>
            (error Exn.ProgrammingError
               "1064 (42000): You have an error in your SQL syntax", sv)
        | Some [] =>
            (error Exn.ProgrammingError
               "1064 (42000): You have an error in your SQL syntax", sv)
        | Some cols =>
            if negb (no_dup (map fst cols)) then
              (error Exn.ProgrammingError
                 "1060 (42S21): Duplicate column name", sv)
            else
              let committed := map commit_table (tables sv) in
              match lookup name (tables sv) with
              | Some _ => (Ret tt, with_tables committed sv)
              | None =>
                  (Ret tt,
                   with_tables
                     (committed ++
                      [(name, {| t_columns := cols; t_rows := [];
                                 t_staged := [] |})]) sv)
              end
        end
  | InsertValues name placeholders =>
      if negb (Nat.eqb (count_placeholders placeholders) (List.length params))
      then
        (error Exn.ProgrammingError
           "Not all parameters were used in the SQL statement", sv)
      else if negb (identifier name) then
        (error Exn.ProgrammingError
           "1064 (42000): You have an error in your SQL syntax", sv)
      else
        match lookup name (tables sv) with
        | None =>
            (error Exn.ProgrammingError
               "1146 (42S02): Table doesn't exist", sv)
        | Some t =>
            if negb (Nat.eqb (List.length params) (List.length (t_columns t)))
            then
              (error Exn.DataError
                 "1136 (21S01): Column count doesn't match value count", sv)
            else
              match literals params with
              | None =>
                  (error Exn.ProgrammingError
                     "1054 (42S22): Unknown column 'nan' in 'field list'", sv)
              | Some texts =>
                  if any_too_long (t_columns t) texts then
                    (error Exn.DataError
                       "1406 (22001): Data too long for column", sv)
                  else
                    (Ret tt,
                     with_tables (update name (stage texts t) (tables sv)) sv)
              end
        end
  end.

(** *** The calls of the driver *)

(** A call meets the fault planned for it, or does its work; either way
    it is recorded with what it raised. *)
Definition driver_call {A} (c : call)
    (work : server -> outcome A * server) (sv : server)
  : outcome A * server :=
  match faults sv (List.length (journal sv)) with
  | Some e => (Raise e, record (c, Some e) sv)
  | None =>
      let (r, sv') := work sv in
      (r, record (c, failure r) sv')
  end.

Definition not_available {A} : outcome A :=
  error Exn.OperationalError "MySQL Connection not available.".

(** [mysql.connector.connect(...)]. *)
Definition connect : server -> outcome unit * server :=
  driver_call Connect (fun sv => (Ret tt, with_connected true sv)).

(** [connection.cursor()]. *)
Definition cursor : server -> outcome unit * server :=
  driver_call Cursor
    (fun sv => if connected sv then (Ret tt, sv) else (not_available, sv)).

(** [cursor.execute(query, params)]. *)
Definition execute (s : statement) (params : list scalar)
  : server -> outcome unit * server :=
  driver_call (Execute (sql s) params)
    (fun sv => if connected sv then execute_statement s params sv
               else (not_available, sv)).

(** [connection.commit()]. *)
Definition commit : server -> outcome unit * server :=
  driver_call Commit
    (fun sv => if connected sv
               then (Ret tt, with_tables (map commit_table (tables sv)) sv)
               else (not_available, sv)).

(** [cursor.close()]. *)
Definition cursor_close : server -> outcome unit * server :=
  driver_call CursorClose (fun sv => (Ret tt, sv)).

(** [connection.is_connected()]. *)
Definition is_connected (sv : server) : bool := connected sv.

(** [connection.close()]: the open transaction is rolled back. *)
Definition close : server -> outcome unit * server :=
  driver_call Close
    (fun sv =>
       (Ret tt,
        with_connected false
          (with_tables (map rollback_table (tables sv)) sv))).

End MySQL.

(* ===================================================================== *)
(** ** The environment and the monad of the script *)
(* ===================================================================== *)

(** The file system, as the script meets it: what it answers when the
    script looks for a folder, lists it and reads a file, and what comes
    of the two steps of the logging set-up, which the script takes first. *)
Record filesystem : Type := {
  path_exists : string -> bool;                  (* os.path.exists *)
  listdir : string -> outcome (list string);     (* os.listdir *)
  read_csv : string -> outcome DataFrame;        (* pd.read_csv *)
  mkdir : string -> outcome unit;
                          (* Path.mkdir(parents=True, exist_ok=True) *)
  add_sink : string -> outcome unit              (* logger.add(path, ...) *)
}.

Record env : Type := {
  fs : filesystem;
  mysql : MySQL.server
}.

(** A computation returns or raises, changes the environment and writes
    log entries. *)
Definition M (A : Type) : Type := env -> outcome A * env * list log_entry.

Definition ret {A} (a : A) : M A := fun s => (Ret a, s, []).

Definition bind {A B} (m : M A) (k : A -> M B) : M B :=
  fun s =>
    match m s with
    | (Ret a, s', lg) =>
        match k a s' with
        | (r, s'', lg') => (r, s'', lg ++ lg')
        end
    | (Raise e, s', lg) => (Raise e, s', lg)
    end.

Declare Scope py_scope.
Delimit Scope py_scope with py.
Notation "x <- m ;; k" := (bind m (fun x => k))
  (at level 61, m at next level, right associativity) : py_scope.
Notation "m ;; k" := (bind m (fun _ => k))
  (at level 61, right associativity) : py_scope.
Local Open Scope py_scope.

Definition raise {A} (e : exn) : M A := fun s => (Raise e, s, []).

(** [logger.info], [logger.warning], [logger.error]. *)
Definition logger (l : level) (message : string) : M unit :=
  fun s => (Ret tt, s, [Log l message]).

(** A call on the driver. *)
Definition driver {A} (f : MySQL.server -> outcome A * MySQL.server) : M A :=
  fun s =>
    let (r, sv) := f (mysql s) in
    (r, {| fs := fs s; mysql := sv |}, []).

(** A look at the file system. *)
Definition os {A} (f : filesystem -> A) : M A :=
  fun s => (Ret (f (fs s)), s, []).

(** The handler of the first [except] clause that matches. *)
Fixpoint handler_for {A} (e : exn) (clauses : list (Exn.cls * (exn -> M A)))
  : option (M A) :=
  match clauses with
  | [] => None
  | (c, h) :: rest =>
      if Exn.isinstance e c then Some (h e) else handler_for e rest
  end.

(** [try: body except c1 as e: h1 except c2 as e: h2 ...]. *)
Definition try_except {A} (body : M A)
    (clauses : list (Exn.cls * (exn -> M A))) : M A :=
  fun s =>
    match body s with
    | (Raise e, s', lg) =>
        match handler_for e clauses with
        | Some h =>
            match h s' with
            | (r, s'', lg') => (r, s'', lg ++ lg')
            end
        | None => (Raise e, s', lg)
        end
    | done => done
    end.

(** [for x in xs: body(x)]. *)
Fixpoint for_each {A} (xs : list A) (body : A -> M unit) : M unit :=
  match xs with
  | [] => ret tt
  | x :: rest => body x ;; for_each rest body
  end.

Definition result {A} (r : outcome A * env * list log_entry) : outcome A :=
  fst (fst r).
Definition final {A} (r : outcome A * env * list log_entry) : env :=
  snd (fst r).
Definition logged {A} (r : outcome A * env * list log_entry)
  : list log_entry := snd r.

(* ===================================================================== *)
(** ** [class MySQLDatabaseManager] *)
(* ===================================================================== *)

Module MySQLDatabaseManager.

(** The connection object of the driver. *)
Inductive MySQLConnection : Set := TheConnection.

(** [self.connection]: [None], or the connection. *)
Record t : Type := { connection : option MySQLConnection }.

(** A method call [self.connection.f(...)]: an [AttributeError] when
    [self.connection] is [None]. *)
Definition on_connection {A} (self : t) (method : string)
    (f : MySQL.server -> outcome A * MySQL.server) : M A :=
  match connection self with
  | Some _ => driver f
  | None =>
      raise (Exn.Build Exn.AttributeError
               ("'NoneType' object has no attribute '" ++ method ++ "'"))
  end.

(** [__init__]. *)
Definition init (host user password database : option string) : M t :=
  try_except
    (driver MySQL.connect ;;
     let self := {| connection := Some TheConnection |} in
     c <- on_connection self "is_connected"
            (fun sv => (Ret (MySQL.is_connected sv), sv)) ;;
     (if c : bool
      then logger INFO "Successfully connected to the database."
      else ret tt) ;;
     ret self)
    [(Exn.MySQLError,
      fun e =>
        logger ERROR ("Error connecting to MySQL: " ++ Exn.message e) ;;
        ret {| connection := None |})].

Definition create_table_query (table_name columns : string)
  : MySQL.statement := MySQL.CreateTableIfNotExists table_name columns.

(** [create_table]. *)
Definition create_table (self : t) (table_name columns : string) : M unit :=
  try_except
    (on_connection self "cursor" MySQL.cursor ;;
     driver (MySQL.execute (create_table_query table_name columns) []) ;;
     driver MySQL.cursor_close ;;
     logger INFO ("Table " ++ PyStr.dq ++ table_name ++ PyStr.dq
                  ++ " created or exists already."))
    [(Exn.MySQLError,
      fun e =>
        logger ERROR ("Error creating table " ++ table_name ++ ": "
                      ++ Exn.message e))].

Definition placeholders (data : DataFrame) : string :=
  PyStr.join ", " (PyStr.repeat_list "%s" (List.length (columns data))).

Definition insert_query (table_name : string) (data : DataFrame)
  : MySQL.statement := MySQL.InsertValues table_name (placeholders data).

(** [insert_data]. *)
Definition insert_data (self : t) (table_name : string) (data : DataFrame)
  : M unit :=
  try_except
    (on_connection self "cursor" MySQL.cursor ;;
     for_each (iterrows data)
       (fun row => driver (MySQL.execute (insert_query table_name data) row)) ;;
     on_connection self "commit" MySQL.commit ;;
     driver MySQL.cursor_close ;;
     logger INFO ("Data inserted into " ++ PyStr.dq ++ table_name ++ PyStr.dq
                  ++ "."))
    [(Exn.MySQLError,
      fun e =>
        logger ERROR ("Error inserting data into " ++ table_name ++ ": "
                      ++ Exn.message e))].

(** [close]. *)
Definition close (self : t) : M unit :=
  match connection self with
  | None => ret tt
  | Some _ =>
      c <- driver (fun sv => (Ret (MySQL.is_connected sv), sv)) ;;
      if c : bool then
        driver MySQL.close ;;
        logger INFO "Database connection closed."
      else ret tt
  end.

End MySQLDatabaseManager.

(* ===================================================================== *)
(** ** [class CSVToMySQLLoader] *)
(* ===================================================================== *)

Module CSVToMySQLLoader.

Record t : Type := {
  db_manager : MySQLDatabaseManager.t;
  csv_files : list string
}.

(** [pd.read_csv(file_path)]. *)
Definition pd_read_csv (file_path : string) : M DataFrame :=
  fun s => (read_csv (fs s) file_path, s, []).

(** [load_csv]: the [DataFrame], or [None]. *)
Definition load_csv (file_path : string) : M (option DataFrame) :=
  try_except
    (df <- pd_read_csv file_path ;;
     logger INFO ("Loaded data from " ++ PyStr.dq ++ file_path ++ PyStr.dq
                  ++ ".") ;;
     ret (Some df))
    [(Exn.FileNotFoundError,
      fun _ =>
        logger ERROR ("CSV file " ++ PyStr.dq ++ file_path ++ PyStr.dq
                      ++ " not found.") ;;
        ret None);
     (Exn.EmptyDataError,
      fun _ =>
        logger ERROR ("CSV file " ++ PyStr.dq ++ file_path ++ PyStr.dq
                      ++ " is empty.") ;;
        ret None);
     (Exn.ParserError,
      fun _ =>
        logger ERROR ("Error parsing CSV file " ++ PyStr.dq ++ file_path
                      ++ PyStr.dq ++ ".") ;;
        ret None)].

(** The text-storage type given to every column. *)
Definition text_type : string := "VARCHAR(255)".

(** [generate_columns_definition]. *)
Definition generate_columns_definition (df : DataFrame) : string :=
  PyStr.join ", "
    (map (fun col => (col ++ " " ++ text_type)%string) (columns df)).

(** The body of the loop of [load_csv_to_db]. *)
Definition load_one (manager : MySQLDatabaseManager.t) (csv_file : string)
  : M unit :=
  let table_name := table_name csv_file in
  df <- load_csv csv_file ;;
  match df with
  | Some df =>
      let columns := generate_columns_definition df in
      MySQLDatabaseManager.create_table manager table_name columns ;;
      MySQLDatabaseManager.insert_data manager table_name df
  | None => ret tt
  end.

(** [load_csv_to_db]. *)
Definition load_csv_to_db (self : t) : M unit :=
  for_each (csv_files self) (load_one (db_manager self)).

End CSVToMySQLLoader.

(* ===================================================================== *)
(** ** [get_files] and [main] *)
(* ===================================================================== *)

(** [get_files(folder_path, file_extension)]. *)
Definition get_files (folder_path file_extension : string) : M (list string) :=
  try_except
    (present <- os (fun f => path_exists f folder_path) ;;
     if negb present then
       logger ERROR ("Folder " ++ PyStr.dq ++ folder_path ++ PyStr.dq
                     ++ " does not exist.") ;;
       ret []
     else
       entries <- (fun s => (listdir (fs s) folder_path, s, [])) ;;
       let files :=
         filter (fun f => PyStr.endswith f file_extension) entries in
       let full_paths := map (PyPath.join folder_path) files in
       match full_paths with
       | [] =>
           logger WARNING
             ("No files with the extension " ++ PyStr.dq ++ file_extension
              ++ PyStr.dq ++ " found in this location " ++ PyStr.dq
              ++ folder_path ++ PyStr.dq)
       | _ :: _ =>
           logger INFO
             ("Found " ++ PyStr.of_nat (List.length full_paths) ++ " "
              ++ PyStr.dq ++ file_extension ++ PyStr.dq
              ++ " file(s) in this location " ++ PyStr.dq ++ folder_path
              ++ PyStr.dq ++ ".")
       end ;;
       ret full_paths)
    [(Exn.Exception,
      fun e =>
        logger ERROR ("Error retrieving file list: " ++ Exn.message e) ;;
        ret [])].

(** [logger.add(path, ...)] of loguru with a file path: the braces of the
    path are format fields ([{time}]), filled in before the file is
    opened; a path without brace names the file itself.  The file of a
    path with braces is outside the model. *)
Module Loguru.

Definition plain_char (c : ascii) : bool :=
  negb (Ascii.eqb c "{" || Ascii.eqb c "}").

Definition sink_file (path : string) : option string :=
  if MySQL.all_chars plain_char path then Some path else None.

End Loguru.

(** [configure_logging] of [logs/log_config.py]: it makes the folder of
    the log files and adds a file sink to the logger, named after the
    script.  Either step can raise; the entries written afterwards are
    the writer part of [M]. *)
Definition configure_logging (file : string) : M unit :=
  let logs_dir := "logs/logs_data" in
  (fun s => (mkdir (fs s) logs_dir, s, [])) ;;
  let file_name := PyPath.stem file in
  fun s =>
    (add_sink (fs s) (PyPath.join logs_dir (file_name ++ ".log")), s, []).

(** [main].  [__file__] is the path of the script, [EXTERNAL_DATA_DIR]
    comes from [src/config.py], the four connection settings from the
    process environment. *)
Definition main (__file__ EXTERNAL_DATA_DIR : string)
    (MYSQL_HOST MYSQL_USERNAME MYSQL_PASSWORD MYSQL_DATABASE : option string)
  : M unit :=
  configure_logging __file__ ;;
  let file_extension := "csv" in
  csv_files <- get_files EXTERNAL_DATA_DIR file_extension ;;
  db_manager <- MySQLDatabaseManager.init
                  MYSQL_HOST MYSQL_USERNAME MYSQL_PASSWORD MYSQL_DATABASE ;;
  match MySQLDatabaseManager.connection db_manager with
  | Some _ =>
      let loader :=
        {| CSVToMySQLLoader.db_manager := db_manager;
           CSVToMySQLLoader.csv_files := csv_files |} in
      CSVToMySQLLoader.load_csv_to_db loader ;;
      MySQLDatabaseManager.close db_manager
  | None => ret tt
  end.

(* ===================================================================== *)
(** ** A model of [pd.read_csv] on plain files *)
(* ===================================================================== *)

(** [pd.read_csv(path)] of pandas 2 with its default arguments, on files
    whose fields are separated by commas and hold no quotes.  The first
    non-blank line names the columns.  The first row of data may be longer
    than the header: its first fields are then an index, which the script
    does not look at; a later row longer than both is a [ParserError], a
    shorter one is filled with missing values.  A field among
    [na_values] is [nan]; a column whose fields are all integers is
    [int64], one whose fields are numbers or missing is [float64], any
    other holds the fields as strings.  Left out: the renaming of repeated
    or empty column names, columns of [True] and [False], infinities,
    integers beyond [int64], and the decoding of the bytes of the file. *)
Module Pandas.

Inductive dtype : Set := int64 | float64 | object.

(** The default [na_values]. *)
Definition na_values : list string :=
  EmptyString ::
  ["#N/A"; "#N/A N/A"; "#NA"; "-1.#IND"; "-1.#QNAN"; "-NaN"; "-nan";
   "1.#IND"; "1.#QNAN"; "<NA>"; "N/A"; "NA"; "NULL"; "NaN"; "None";
   "n/a"; "nan"; "null"].

Definition is_na (s : string) : bool := MySQL.mem s na_values.

(** The converters of numbers skip the blanks around a field. *)
Definition is_space (c : ascii) : bool :=
  let n := nat_of_ascii c in Nat.eqb n 32 || MySQL.between 9 n 13.

Fixpoint lstrip (l : list ascii) : list ascii :=
  match l with
  | c :: r => if is_space c then lstrip r else l
  | [] => []
  end.

Definition strip (s : string) : string :=
  string_of_list_ascii
    (List.rev (lstrip (List.rev (lstrip (list_ascii_of_string s))))).

Fixpoint digits (s : string) (acc : Z) : option Z :=
  match s with
  | EmptyString => Some acc
  | String c s' =>
      if MySQL.is_digit c
      then digits s' (acc * 10 + Z.of_nat (nat_of_ascii c - 48))%Z
      else None
  end.

Definition sign (s : string) : bool * string :=
  match s with
  | String "-" r => (true, r)
  | String "+" r => (false, r)
  | _ => (false, s)
  end.

Definition signed (negative : bool) (z : Z) : Z :=
  if negative then (- z)%Z else z.

(** A sign and digits. *)
Definition signed_digits (s : string) : option Z :=
  let (neg, r) := sign s in
  if String.eqb r EmptyString then None
  else option_map (signed neg) (digits r 0%Z).

(** An integer field. *)
Definition int_literal (s : string) : option Z := signed_digits (strip s).

(** The text before the exponent mark, and the exponent, if any. *)
Fixpoint break_exp (s : string) : string * option string :=
  match s with
  | EmptyString => (EmptyString, None)
  | String c r =>
      if Ascii.eqb c "e" || Ascii.eqb c "E" then (EmptyString, Some r)
      else let (m, x) := break_exp r in (String c m, x)
  end.

(** Digits with or without a decimal point, as mantissa and scale. *)
Definition decimal (s : string) : option (Z * nat) :=
  match PyStr.split "."%char s with
  | [i] =>
      if String.eqb i EmptyString then None
      else option_map (fun a => (a, 0)) (digits i 0%Z)
  | [i; f] =>
      if String.eqb i EmptyString && String.eqb f EmptyString then None
      else
        match digits i 0%Z, digits f 0%Z with
        | Some a, Some b =>
            Some ((a * 10 ^ Z.of_nat (String.length f) + b)%Z,
                  String.length f)
        | _, _ => None
        end
  | _ => None
  end.

(** [mantissa * 10 ^ (- scale)] without trailing zeros after the point. *)
Fixpoint normalize (scale : nat) (m : Z) : Z * nat :=
  match scale with
  | S k => if (m mod 10 =? 0)%Z then normalize k (m / 10)%Z else (m, scale)
  | O => (m, O)
  end.

(** A number, with or without decimal point and exponent. *)
Definition float_literal (s : string) : option (Z * nat) :=
  let (neg, r) := sign (strip s) in
  let (m, x) := break_exp r in
  match decimal m,
        match x with Some t => signed_digits t | None => Some 0%Z end with
  | Some (a, k), Some n =>
      let scale := (Z.of_nat k - n)%Z in
      Some (if Z.leb scale 0
            then ((signed neg a * 10 ^ (- scale))%Z, 0)
            else normalize (Z.to_nat scale) (signed neg a))
  | _, _ => None
  end.

Definition is_int (s : string) : bool :=
  match int_literal s with Some _ => true | None => false end.

Definition is_number (s : string) : bool :=
  is_na s || match float_literal s with Some _ => true | None => false end.

(** The type inferred for a column from its fields. *)
Definition infer (fields : list string) : dtype :=
  if forallb is_int fields then int64
  else if forallb is_number fields then float64
  else object.

(** The value of a field in a column of the given type. *)
Definition value (d : dtype) (s : string) : scalar :=
  if is_na s then SNaN
  else
    match d with
    | int64 =>
        match int_literal s with Some z => SInt z | None => SStr s end
    | float64 =>
        match float_literal s with
        | Some (m, e) => SFloat m e
        | None => SStr s
        end
    | object => SStr s
    end.

(** [iterrows] yields each row as one [Series]: when the columns are all
    numeric and not all [int64], the integers of the row become floats. *)
Definition upcast (types : list dtype) (v : scalar) : scalar :=
  let numeric d := match d with object => false | _ => true end in
  let all_int d := match d with int64 => true | _ => false end in
  if forallb numeric types && negb (forallb all_int types) then
    match v with SInt z => SFloat z 0 | _ => v end
  else v.

Definition strip_cr (s : string) : string :=
  if PyStr.endswith s (String (ascii_of_nat 13) EmptyString)
  then PyStr.take (String.length s - 1) s else s.

(** The non-blank lines of a file. *)
Definition lines (content : string) : list string :=
  filter (fun l => negb (String.eqb l EmptyString))
         (map strip_cr (PyStr.split (ascii_of_nat 10) content)).

(** A row, filled with empty fields to the given width. *)
Definition pad (width : nat) (row : list string) : list string :=
  row ++ List.repeat EmptyString (width - List.length row).

(** The [i]-th field of every row. *)
Definition column (rows : list (list string)) (i : nat) : list string :=
  map (fun r => nth i r EmptyString) rows.

Definition read_csv (content : string) : outcome DataFrame :=
  match lines content with
  | [] =>
      Raise (Exn.Build Exn.EmptyDataError "No columns to parse from file")
  | header :: data =>
      let names := PyStr.split ","%char header in
      let rows := map (PyStr.split ","%char) data in
      let width :=
        match rows with
        | first :: _ => Nat.max (List.length names) (List.length first)
        | [] => List.length names
        end in
      if existsb (fun r => Nat.ltb width (List.length r)) rows then
        Raise (Exn.Build Exn.ParserError "Error tokenizing data. C error")
      else
        let index_cols := width - List.length names in
        let rows := map (fun r => skipn index_cols (pad width r)) rows in
        let types :=
          map (fun i => infer (column rows i)) (seq 0 (List.length names)) in
        Ret {| columns := names;
               iterrows :=
                 map (fun r =>
                        map (fun dv => upcast types (value (fst dv) (snd dv)))
                            (combine types r))
                     rows |}
  end.

End Pandas.

(** A working directory that holds the folder [dir] with the given files
    (name and content), as the script sees it when it looks into [dir];
    [dir] is a folder outside [logs], which the logging set-up makes
    beside it and which the answers on other paths leave out.  The folder
    of the log files can be made unless one of the files is in its way,
    and the log file can be opened unless it is the folder or one of the
    files is in its way (for a path without braces, see [Loguru]). *)
Definition directory (dir : string) (files : list (string * string))
  : filesystem :=
  let path_of nc := PyPath.join dir (fst nc) in
  let find p := List.find (fun nc => String.eqb (path_of nc) p) files in
  let is_file p := match find p with Some _ => true | None => false end in
  let below_file p :=
    existsb (fun nc => PyStr.startswith p (path_of nc ++ "/")) files in
  let is_dir p := String.eqb p dir || PyStr.startswith dir (p ++ "/") in
  {| path_exists p :=
       String.eqb p dir
       || match find p with Some _ => true | None => false end;
     listdir p :=
       if String.eqb p dir then Ret (map fst files)
       else
         match find p with
         | Some _ => Raise (Exn.Build Exn.NotADirectoryError "Not a directory")
         | None =>
             Raise (Exn.Build Exn.FileNotFoundError
                      "No such file or directory")
         end;
     read_csv p :=
       match find p with
       | Some nc => Pandas.read_csv (snd nc)
       | None =>
           if String.eqb p dir
           then Raise (Exn.Build Exn.IsADirectoryError "Is a directory")
           else Raise (Exn.Build Exn.FileNotFoundError
                         "No such file or directory")
       end;
     mkdir p :=
       if below_file p
       then Raise (Exn.Build Exn.NotADirectoryError "Not a directory")
       else if is_file p
       then Raise (Exn.Build Exn.FileExistsError "File exists")
       else Ret tt;
     add_sink p :=
       if below_file p
       then Raise (Exn.Build Exn.NotADirectoryError "Not a directory")
       else if is_dir p
       then Raise (Exn.Build Exn.IsADirectoryError "Is a directory")
       else Ret tt |}.

(** A server that knows no table, before the script connects, and on
    which no call fails unless the statement does. *)
Definition fresh_server : MySQL.server :=
  {| MySQL.connected := false; MySQL.tables := [];
     MySQL.journal := []; MySQL.faults := fun _ => None |}.

Definition nl : string := String (ascii_of_nat 10) EmptyString.

(** The files of the end-to-end scenario of the specification. *)
Definition orders_csv : string :=
  "id,amount" ++ nl ++ "1,10.50" ++ nl ++ "2,20.00" ++ nl.

Definition scenario : env :=
  {| fs := directory "data"
             [("orders_202401.csv", orders_csv);
              ("users_202401.csv", EmptyString)];
     mysql := fresh_server |}.

Definition scenario_run : outcome unit * env * list log_entry :=
  main "src/store_data.py" "data" None None None None scenario.

(* ===================================================================== *)
(** ** The vocabulary of the properties *)
(* ===================================================================== *)

(** *** Exceptions and runs *)

(** The errors the database reports: [mysql.connector.Error] and its
    subclasses. *)
Definition db_error (e : exn) : bool := Exn.isinstance e Exn.MySQLError.

(** The read failures [load_csv] recovers from. *)
Definition recoverable (e : exn) : bool :=
  Exn.isinstance e Exn.FileNotFoundError
  || Exn.isinstance e Exn.EmptyDataError
  || Exn.isinstance e Exn.ParserError.

(** The faults planned on a server are all errors the database reports. *)
Definition db_errors_only (sv : MySQL.server) : Prop :=
  forall k e, MySQL.faults sv k = Some e -> db_error e = true.

(** The exception a run ends with, if any. *)
Definition raised {A} (r : outcome A * env * list log_entry) : option exn :=
  failure (result r).

(** A computation that leaves the file system and the planned faults as
    they are, and raises nothing but database errors when the faults are
    database errors. *)
Definition tame {A} (m : M A) : Prop :=
  forall s,
    fs (final (m s)) = fs s
    /\ MySQL.faults (mysql (final (m s))) = MySQL.faults (mysql s)
    /\ (db_errors_only (mysql s) ->
        forall e, raised (m s) = Some e -> db_error e = true).

(** A computation that returns whenever the faults are database
    errors. *)
Definition returns {A} (m : M A) : Prop :=
  forall s, db_errors_only (mysql s) -> raised (m s) = None.

(** Work on the server that keeps the planned faults and the journal, and
    fails with database errors only. *)
Definition db_work {A} (work : MySQL.server -> outcome A * MySQL.server)
  : Prop :=
  forall sv,
    MySQL.faults (snd (work sv)) = MySQL.faults sv
    /\ MySQL.journal (snd (work sv)) = MySQL.journal sv
    /\ forall e, fst (work sv) = Raise e -> db_error e = true.

(** A run from [s] to [s'] that made the calls [c] on the driver, left the
    file system and the planned faults as they were, and raised nothing
    but a database error. *)
Record step {A} (c : list MySQL.event) (s : env)
    (r : outcome A) (s' : env) : Prop := {
  step_journal : MySQL.journal (mysql s') = MySQL.journal (mysql s) ++ c;
  step_fs : fs s' = fs s;
  step_faults : MySQL.faults (mysql s') = MySQL.faults (mysql s);
  step_errors : forall e, r = Raise e -> db_error e = true
}.

(** A manager whose construction failed to connect. *)
Definition never_connected : MySQLDatabaseManager.t :=
  {| MySQLDatabaseManager.connection := None |}.

(** The entries of the constructor and of [close]. *)
Definition connect_failed_entry (e : exn) : log_entry :=
  Log ERROR ("Error connecting to MySQL: " ++ Exn.message e).

Definition closed_entry : log_entry := Log INFO "Database connection closed.".

(** The fault, if any, the next call on the driver meets. *)
Definition next_fault (sv : MySQL.server) : option exn :=
  MySQL.faults sv (List.length (MySQL.journal sv)).

(** A server that is connected and on which no fault is planned. *)
Definition healthy (sv : MySQL.server) : Prop :=
  MySQL.connected sv = true /\ forall k, MySQL.faults sv k = None.

(** *** Log entries and statements *)

(** The entries [load_csv] writes. *)
Definition loaded_entry (file_path : string) : log_entry :=
  Log INFO ("Loaded data from " ++ PyStr.dq ++ file_path ++ PyStr.dq ++ ".").
Definition not_found_entry (file_path : string) : log_entry :=
  Log ERROR ("CSV file " ++ PyStr.dq ++ file_path ++ PyStr.dq ++ " not found.").
Definition empty_entry (file_path : string) : log_entry :=
  Log ERROR ("CSV file " ++ PyStr.dq ++ file_path ++ PyStr.dq ++ " is empty.").
Definition parse_error_entry (file_path : string) : log_entry :=
  Log ERROR
    ("Error parsing CSV file " ++ PyStr.dq ++ file_path ++ PyStr.dq ++ ".").

(** The entry that records the skip of a file whose read failed with
    [e]. *)
Definition skip_entry (file_path : string) (e : exn) : log_entry :=
  match Exn.class e with
  | Exn.FileNotFoundError => not_found_entry file_path
  | Exn.EmptyDataError => empty_entry file_path
  | _ => parse_error_entry file_path
  end.

(** A file whose read returns or fails in one of the three recoverable
    ways. *)
Definition loads (F : filesystem) (file_path : string) : Prop :=
  match read_csv F file_path with
  | Ret _ => True
  | Raise e => recoverable e = true
  end.

(** The text of the [INSERT] statement of [insert_data], and the calls
    that send the given rows with it. *)
Definition insert_text (table_name : string) (data : DataFrame) : string :=
  MySQL.sql (MySQLDatabaseManager.insert_query table_name data).

Definition insert_calls (table_name : string) (data : DataFrame)
    (rows : list (list scalar)) : list MySQL.call :=
  map (MySQL.Execute (insert_text table_name data)) rows.

(** The calls [insert_data] makes when none fails: the cursor, one
    statement for each row, the commit, the closing of the cursor. *)
Definition insert_sequence (table_name : string) (data : DataFrame)
  : list MySQL.call :=
  MySQL.Cursor
  :: insert_calls table_name data (iterrows data)
     ++ [MySQL.Commit; MySQL.CursorClose].

(** The journal of a sequence of calls cut short by the failure of its
    [k]-th call: the calls before it returned, the [k]-th raised [e], and
    none was made after it. *)
Definition cut_short (calls : list MySQL.call) (k : nat) (e : exn)
  : list MySQL.event :=
  map MySQL.ok (firstn k calls)
  ++ match nth_error calls k with
     | Some c => [(c, Some e)]
     | None => []
     end.

(** The entries [insert_data] and [create_table] write. *)
Definition inserted_entry (table_name : string) : log_entry :=
  Log INFO ("Data inserted into " ++ PyStr.dq ++ table_name ++ PyStr.dq ++ ".").

Definition insert_failed_entry (table_name : string) (e : exn) : log_entry :=
  Log ERROR ("Error inserting data into " ++ table_name ++ ": "
             ++ Exn.message e).

Definition created_entry (table_name : string) : log_entry :=
  Log INFO ("Table " ++ PyStr.dq ++ table_name ++ PyStr.dq
            ++ " created or exists already.").

Definition create_failed_entry (table_name : string) (e : exn) : log_entry :=
  Log ERROR ("Error creating table " ++ table_name ++ ": " ++ Exn.message e).

Definition create_text (table_name columns : string) : string :=
  MySQL.sql (MySQLDatabaseManager.create_table_query table_name columns).

(** A table name and a column list the server accepts. *)
Definition valid_table (table_name columns : string) : bool :=
  MySQL.identifier table_name
  && match MySQL.read_columns columns with
     | Some (c :: cs) => MySQL.no_dup (map fst (c :: cs))
     | _ => false
     end.

(** The tables after [CREATE TABLE IF NOT EXISTS] was accepted. *)
Definition create_effect (table_name columns : string)
    (ts : list (string * MySQL.table)) : list (string * MySQL.table) :=
  let committed := map MySQL.commit_table ts in
  match MySQL.lookup table_name ts, MySQL.read_columns columns with
  | None, Some cols =>
      committed ++ [(table_name,
                     {| MySQL.t_columns := cols; MySQL.t_rows := [];
                        MySQL.t_staged := [] |})]
  | _, _ => committed
  end.

(** The server after a [create_table] whose three calls returned. *)
Definition after_create (table_name columns : string) (sv : MySQL.server)
  : MySQL.server :=
  MySQL.record (MySQL.ok MySQL.CursorClose)
    (MySQL.record (MySQL.ok (MySQL.Execute (create_text table_name columns) []))
       (MySQL.with_tables (create_effect table_name columns (MySQL.tables sv))
          (MySQL.record (MySQL.ok MySQL.Cursor) sv))).

(** *** File discovery and column lists *)

(** The paths [get_files] builds from the entries of a folder. *)
Definition matching (folder_path file_extension : string)
    (entries : list string) : list string :=
  map (PyPath.join folder_path)
      (filter (fun f => PyStr.endswith f file_extension) entries).

(** What [get_files] returns, from what the file system answers. *)
Definition found (F : filesystem) (folder_path file_extension : string)
  : list string :=
  if path_exists F folder_path then
    match listdir F folder_path with
    | Ret entries => matching folder_path file_extension entries
    | Raise _ => []
    end
  else [].

(** A string without the character [x]. *)
Definition free_of (x : ascii) (s : string) : bool :=
  MySQL.all_chars (fun c => negb (Ascii.eqb c x)) s.

(** The item the definition holds for a column. *)
Definition item (col : string) : string :=
  col ++ " " ++ CSVToMySQLLoader.text_type.

(** *** Concrete environments *)

(** A folder with an entry whose name ends with [csv] but not with
    [.csv]. *)
Definition listing : env :=
  {| fs := directory "data"
             [("report.csv", ("a,b" ++ nl ++ "1,2" ++ nl)%string);
              ("notescsv", "plain text");
              ("readme.txt", "plain text")];
     mysql := fresh_server |}.

(** The outcome the specification gives for the scenario. *)
Definition scenario_claim (r : outcome unit * env * list log_entry) : Prop :=
  (exists t,
     MySQL.lookup "orders" (MySQL.tables (mysql (final r))) = Some t
     /\ MySQL.t_columns t = [("id", "VARCHAR(255)"); ("amount", "VARCHAR(255)")]
     /\ MySQL.t_rows t = [["1"; "10.50"]; ["2"; "20.00"]])
  /\ MySQL.lookup "users" (MySQL.tables (mysql (final r))) = None
  /\ In (empty_entry "data/users_202401.csv") (logged r).

(** The statements sent for [orders_202401.csv]. *)
Definition orders_create_text : string :=
  "CREATE TABLE IF NOT EXISTS order (id VARCHAR(255), amount VARCHAR(255));".

Definition orders_insert_text : string := "INSERT INTO order VALUES (%s, %s)".

(** The error of the server on a statement it cannot parse. *)
Definition syntax_error : exn :=
  Exn.Build Exn.ProgrammingError
    "1064 (42000): You have an error in your SQL syntax".

(** The two files of the scenario under names that end with 8 characters
    after the table name. *)
Definition scenario_long_names : env :=
  {| fs := directory "data"
             [("orders__202401.csv", orders_csv);
              ("users__202401.csv", EmptyString)];
     mysql := fresh_server |}.

(** A manager that holds a connection. *)
Definition open_manager : MySQLDatabaseManager.t :=
  {| MySQLDatabaseManager.connection :=
       Some MySQLDatabaseManager.TheConnection |}.

(** A server the script is connected to, without table and without
    fault. *)
Definition connected_server : MySQL.server :=
  {| MySQL.connected := true; MySQL.tables := [];
     MySQL.journal := [MySQL.ok MySQL.Connect];
     MySQL.faults := fun _ => None |}.

(** A server that refuses the connection. *)
Definition refusing_server : MySQL.server :=
  {| MySQL.connected := false; MySQL.tables := [];
     MySQL.journal := [];
     MySQL.faults :=
       fun k =>
         if Nat.eqb k 0
         then Some (Exn.Build Exn.InterfaceError
                      "2003: Can't connect to MySQL server")
         else None |}.

(** A file whose second row is longer than its first, and its header. *)
Definition ragged_csv : string :=
  "a,b" ++ nl ++ "1,2" ++ nl ++ "3,4,5" ++ nl.

(** A folder with two files that are read, a malformed one, and one with
    a short name. *)
Definition batch_files : list (string * string) :=
  [("orders__202401.csv", orders_csv);
   ("broken__202401.csv", ragged_csv);
   ("users__202401.csv", ("name" ++ nl ++ "ann" ++ nl)%string);
   ("a.csv", ("x" ++ nl ++ "1" ++ nl)%string)].

Definition batch_env : env :=
  {| fs := directory "data" batch_files; mysql := connected_server |}.

(** The data [pd.read_csv] gives for [orders_csv]. *)
Definition orders_df : DataFrame :=
  {| columns := ["id"; "amount"];
     iterrows := [[SFloat 1 0; SFloat 105 1]; [SFloat 2 0; SFloat 20 0]] |}.

(** *** Further vocabulary: paths *)

(** The folder and the path [configure_logging] hands to [logger.add]:
    [logs_dir / f'{file_name}.log']. *)
Definition logs_dir : string := "logs/logs_data".

Definition log_file (file : string) : string :=
  PyPath.join logs_dir (PyPath.stem file ++ ".log").

(** What [main] does once the logging is set up. *)
Definition after_logging (EXTERNAL_DATA_DIR : string)
    (MYSQL_HOST MYSQL_USERNAME MYSQL_PASSWORD MYSQL_DATABASE : option string)
  : M unit :=
  (csv_files <- get_files EXTERNAL_DATA_DIR "csv" ;;
   db_manager <- MySQLDatabaseManager.init
                   MYSQL_HOST MYSQL_USERNAME MYSQL_PASSWORD MYSQL_DATABASE ;;
   match MySQLDatabaseManager.connection db_manager with
   | Some _ =>
       CSVToMySQLLoader.load_csv_to_db
         {| CSVToMySQLLoader.db_manager := db_manager;
            CSVToMySQLLoader.csv_files := csv_files |} ;;
       MySQLDatabaseManager.close db_manager
   | None => ret tt
   end)%py.

(** What comes of the logging set-up of a script: of the making of the
    folder, then of the adding of the sink. *)
Definition logging (F : filesystem) (file : string) : outcome unit :=
  match mkdir F logs_dir with
  | Ret _ => add_sink F (log_file file)
  | Raise e => Raise e
  end.

(** The name of a directory entry, as [os.listdir] gives them: not empty,
    not the single dot, without slash. *)
Definition entry_name (f : string) : bool :=
  negb (String.eqb f EmptyString) && negb (String.eqb f ".")
  && free_of "/"%char f.

(** *** Further vocabulary: calls and tables *)

(** The calls [create_table] makes when none fails. *)
Definition create_sequence (table_name columns : string) : list MySQL.call :=
  [MySQL.Cursor; MySQL.Execute (create_text table_name columns) [];
   MySQL.CursorClose].

(** The exception of a method call on [None]. *)
Definition no_attribute (method : string) : exn :=
  Exn.Build Exn.AttributeError
    ("'NoneType' object has no attribute '" ++ method ++ "'").

(** A computation that leaves the file system as it is and takes the
    server to one related to the first by [R]. *)
Definition keeps (R : MySQL.server -> MySQL.server -> Prop) {A} (m : M A)
  : Prop :=
  forall s, fs (final (m s)) = fs s /\ R (mysql s) (mysql (final (m s))).

(** The calls of [create_table] and [insert_data]. *)
Definition table_call (ev : MySQL.event) : Prop :=
  match fst ev with
  | MySQL.Cursor | MySQL.Execute _ _ | MySQL.Commit | MySQL.CursorClose =>
      True
  | MySQL.Connect | MySQL.Close => False
  end.

(** From [sv] to [sv'] the connection was neither opened nor closed: the
    calls made in between are calls of [create_table] and
    [insert_data]. *)
Definition only_table_calls (sv sv' : MySQL.server) : Prop :=
  MySQL.connected sv' = MySQL.connected sv
  /\ MySQL.faults sv' = MySQL.faults sv
  /\ exists new,
       MySQL.journal sv' = MySQL.journal sv ++ new /\ Forall table_call new.

(** A name made of the characters of identifiers only (letters, digits,
    [_] and [$]), possibly none. *)
Definition word (s : string) : bool := MySQL.all_chars MySQL.ident_char s.

(** A file whose table name is a word and whose column names, when it is
    read, are words: what the script writes of it into its statements
    spells a name, and no other piece of a statement. *)
Definition plain_file (F : filesystem) (f : string) : bool :=
  word (table_name f)
  && match read_csv F f with
     | Ret df => forallb word (columns df)
     | Raise _ => true
     end.

(** A table that kept its columns and its committed rows, in order. *)
Definition kept (t t' : MySQL.table) : Prop :=
  MySQL.t_columns t' = MySQL.t_columns t
  /\ exists more, MySQL.t_rows t' = MySQL.t_rows t ++ more.

(** From [sv] to [sv'] no table was dropped or redefined and no committed
    row was deleted or changed. *)
Definition loses_nothing (sv sv' : MySQL.server) : Prop :=
  forall name t,
    MySQL.lookup name (MySQL.tables sv) = Some t ->
    exists t', MySQL.lookup name (MySQL.tables sv') = Some t' /\ kept t t'.

(** A row the server accepts for the given columns: one value for each
    column, each with a literal, none too long for its column. *)
Definition accepts (cols : list (string * string)) (row : list scalar)
  : bool :=
  Nat.eqb (List.length row) (List.length cols)
  && match MySQL.literals row with
     | Some texts => negb (MySQL.any_too_long cols texts)
     | None => false
     end.

(** The texts stored for rows. *)
Definition texts_of (rows : list (list scalar)) : list (list string) :=
  flat_map (fun row => match MySQL.literals row with
                       | Some texts => [texts]
                       | None => []
                       end) rows.

(** The columns [create_table] declares for a header. *)
Definition text_columns (header : list string) : list (string * string) :=
  map (fun c => (c, CSVToMySQLLoader.text_type)) header.

(** The rows a table holds for the connection, committed or not; none when
    the table does not exist. *)
Definition stored_rows (name : string) (sv : MySQL.server)
  : list (list string) :=
  match MySQL.lookup name (MySQL.tables sv) with
  | Some t => MySQL.t_rows t ++ MySQL.t_staged t
  | None => []
  end.

(** The table does not exist, or has the text columns of the header. *)
Definition fits (header : list string) (name : string) (sv : MySQL.server)
  : Prop :=
  match MySQL.lookup name (MySQL.tables sv) with
  | Some t => MySQL.t_columns t = text_columns header
  | None => True
  end.

(** A table name and a header the server takes in a [CREATE TABLE]: the
    name and the column names are identifiers, there is a column, and no
    column name comes twice. *)
Definition declarable (name : string) (header : list string) : bool :=
  MySQL.identifier name
  && negb (Nat.eqb (List.length header) 0)
  && forallb MySQL.identifier header
  && MySQL.no_dup header.

(** A header and rows the server takes into a table of that name: the
    table is declarable and every row is accepted. *)
Definition loadable (name : string) (df : DataFrame) : bool :=
  declarable name (columns df)
  && forallb (accepts (text_columns (columns df))) (iterrows df).

(** A folder with the files of two days, whose names differ only in
    their last 8 characters. *)
Definition daily_env : env :=
  {| fs := directory "data"
             [("orders_20240101.csv", orders_csv);
              ("orders_20240201.csv",
               ("id,amount" ++ nl ++ "3,5.00" ++ nl)%string)];
     mysql := connected_server |}.

Definition second_day_df : DataFrame :=
  {| columns := ["id"; "amount"];
     iterrows := [[SFloat 3 0; SFloat 5 0]] |}.

(** *** Further vocabulary: batches *)

(** The entries written for a file that is loaded without error. *)
Definition load_entries (f : string) : list log_entry :=
  [loaded_entry f; created_entry (table_name f);
   inserted_entry (table_name f)].

(** A table after a commit. *)
Definition committed (t : MySQL.table) : MySQL.table :=
  {| MySQL.t_columns := MySQL.t_columns t;
     MySQL.t_rows := MySQL.t_rows t ++ MySQL.t_staged t;
     MySQL.t_staged := [] |}.

(** From [sv] to [sv'] the tables of other names than [name] are as they
    were, up to a commit. *)
Definition others_kept (name : string) (sv sv' : MySQL.server) : Prop :=
  forall n, n <> name ->
    MySQL.lookup n (MySQL.tables sv') = MySQL.lookup n (MySQL.tables sv)
    \/ MySQL.lookup n (MySQL.tables sv')
       = option_map committed (MySQL.lookup n (MySQL.tables sv)).

(** The table a statement names. *)
Definition table_of (q : MySQL.statement) : string :=
  match q with
  | MySQL.CreateTableIfNotExists table _ => table
  | MySQL.InsertValues table _ => table
  end.

(** A file the server takes whole from the state [s]: it is read, it is
    loadable, and its table does not exist or has the columns of its
    header. *)
Definition good_file (s : env) (f : string) : Prop :=
  exists df,
    read_csv (fs s) f = Ret df
    /\ loadable (table_name f) df = true
    /\ fits (columns df) (table_name f) (mysql s).

(** The table of a file after the file was loaded whole from [s]: the
    columns of the header, the rows the table held, then the rows of the
    file. *)
Definition loaded_table (s : env) (f : string) (df : DataFrame)
  : MySQL.table :=
  {| MySQL.t_columns := text_columns (columns df);
     MySQL.t_rows :=
       stored_rows (table_name f) (mysql s) ++ texts_of (iterrows df);
     MySQL.t_staged := [] |}.

(** The answer of pandas to a file whose bytes are no UTF-8 text. *)
Definition undecodable : exn :=
  Exn.Build Exn.UnicodeDecodeError
    "'utf-8' codec can't decode byte 0xe9 in position 7".

(** The folder of the batch with one more file, written in another
    encoding, which pandas cannot decode. *)
Definition latin_env : env :=
  let F :=
    directory "data"
      (batch_files ++ [("latin__202401.csv", "name" ++ nl)%string]) in
  {| fs :=
       {| path_exists := path_exists F;
          listdir := listdir F;
          read_csv p :=
            if String.eqb p "data/latin__202401.csv"
            then Raise undecodable else read_csv F p;
          mkdir := mkdir F;
          add_sink := add_sink F |};
     mysql := connected_server |}.

(** A file with a cell that is missing in its second row. *)
Definition gap_csv : string :=
  "id,city" ++ nl ++ "1,Paris" ++ nl ++ "2," ++ nl ++ "3,Rome" ++ nl.

Definition gap_df : DataFrame :=
  {| columns := ["id"; "city"];
     iterrows := [[SInt 1; SStr "Paris"]; [SInt 2; SNaN];
                  [SInt 3; SStr "Rome"]] |}.

Definition gap_env : env :=
  {| fs := directory "data" [("cities__202401.csv", gap_csv)];
     mysql := connected_server |}.

(* ===================================================================== *)
(** * Properties *)
(* ===================================================================== *)

(** ** The model at a few inputs *)

Example table_name_olist :
  table_name "data/external/olist_orders_dataset.csv" = "olist_orders".
Proof. reflexivity. Qed.

Example table_name_short : table_name "a.csv" = EmptyString.
Proof. reflexivity. Qed.

Example join_ex : PyPath.join "data" "a.csv" = "data/a.csv".
Proof. reflexivity. Qed.

Example of_nat_ex : PyStr.of_nat 12 = "12".
Proof. reflexivity. Qed.

(** ** Strings *)

Section Strings.

Import PyStr.

Lemma take_drop (n : nat) (s : string) : (take n s ++ drop n s)%string = s.
Proof.
  revert n; induction s as [|c s IH]; intros [|n]; simpl; try reflexivity.
  now rewrite IH.
Qed.

Lemma length_drop (n : nat) (s : string) :
  String.length (drop n s) = String.length s - n.
Proof.
  revert n; induction s as [|c s IH]; intros [|n]; simpl; auto.
Qed.

Lemma length_take (n : nat) (s : string) :
  String.length (take n s) = Nat.min n (String.length s).
Proof.
  revert n; induction s as [|c s IH]; intros [|n]; simpl; auto.
Qed.

Lemma length_append (a b : string) :
  String.length (a ++ b) = String.length a + String.length b.
Proof. induction a as [|c a IH]; simpl; auto. Qed.

(** [s[:-k]] removes the last [k] characters, or all of them when there
    are fewer. *)
Lemma slice_to_neg_spec (k : nat) (s : string) :
  exists removed,
    s = (slice_to_neg k s ++ removed)%string
    /\ String.length removed = Nat.min k (String.length s).
Proof.
  exists (drop (String.length s - k) s). split.
  - unfold slice_to_neg. now rewrite take_drop.
  - rewrite length_drop. lia.
Qed.


(** [endswith] is the suffix relation. *)
Lemma endswith_iff (s suffix : string) :
  endswith s suffix = true <-> exists p, s = (p ++ suffix)%string.
Proof.
  unfold endswith. rewrite andb_true_iff, Nat.leb_le, String.eqb_eq. split.
  - intros [_ H]. exists (take (String.length s - String.length suffix) s).
    rewrite <- H at 2. now rewrite take_drop.
  - intros [p ->]. rewrite length_append. split; [lia|].
    replace (String.length p + String.length suffix - String.length suffix)
      with (String.length p) by lia.
    clear. induction p as [|c p IH]; simpl; [now destruct suffix | exact IH].
Qed.

End Strings.

(** ** Exceptions and the monad *)

(** Every class of the model is an [Exception]. *)
Lemma all_exceptions (e : exn) : Exn.isinstance e Exn.Exception = true.
Proof. destruct e as [[] m]; reflexivity. Qed.

(** The three classes have no subclass: a recoverable failure is an
    instance of exactly one of them. *)
Lemma recoverable_class (e : exn) :
  recoverable e = true <->
  Exn.class e = Exn.FileNotFoundError
  \/ Exn.class e = Exn.EmptyDataError
  \/ Exn.class e = Exn.ParserError.
Proof.
  destruct e as [k m]. unfold recoverable. simpl. split.
  - destruct k; simpl; intros H; try discriminate H; auto.
  - intros [-> | [-> | ->]]; reflexivity.
Qed.

Lemma db_errors_only_ext (sv sv' : MySQL.server) :
  MySQL.faults sv' = MySQL.faults sv -> db_errors_only sv -> db_errors_only sv'.
Proof. unfold db_errors_only. intros -> H. exact H. Qed.

Ltac run_of m s :=
  unfold raised, result, final in *;
  destruct (m s) as [[[?a|?e] ?s] ?lg]; simpl in *.

Lemma tame_ret {A} (a : A) : tame (ret a).
Proof. intros s. cbn. repeat split. discriminate. Qed.

Lemma tame_logger (l : level) (m : string) : tame (logger l m).
Proof. intros s. cbn. repeat split. discriminate. Qed.

Lemma tame_bind {A B} (m : M A) (k : A -> M B) :
  tame m -> (forall a, tame (k a)) -> tame (bind m k).
Proof.
  intros Hm Hk s. specialize (Hm s). unfold bind.
  run_of m s; [|exact Hm].
  specialize (Hk a s0). destruct Hm as (F1 & Q1 & _).
  run_of (k a) s0; destruct Hk as (F2 & Q2 & R2);
    (repeat split; try congruence);
    intros D; apply R2; eapply db_errors_only_ext; eauto.
Qed.

Lemma tame_for_each {A} (xs : list A) (body : A -> M unit) :
  (forall x, tame (body x)) -> tame (for_each xs body).
Proof.
  intros H. induction xs as [|x xs IH]; simpl.
  - apply tame_ret.
  - apply tame_bind; auto.
Qed.

Lemma tame_handler_for {A} (e : exn) (cl : list (Exn.cls * (exn -> M A))) h :
  Forall (fun c => forall e, tame (snd c e)) cl ->
  handler_for e cl = Some h -> tame h.
Proof.
  induction 1 as [|[c f] cl Hc _ IH]; simpl; [discriminate|].
  destruct (Exn.isinstance e c); [intros [= <-]; apply Hc | exact IH].
Qed.

Lemma tame_try_except {A} (body : M A) (cl : list (Exn.cls * (exn -> M A))) :
  tame body -> Forall (fun c => forall e, tame (snd c e)) cl ->
  tame (try_except body cl).
Proof.
  intros Hb Hc s. specialize (Hb s). unfold try_except.
  run_of body s; [exact Hb|].
  destruct (handler_for e cl) as [h|] eqn:Hh; [|exact Hb].
  pose proof (tame_handler_for _ _ _ Hc Hh s0) as Ht.
  destruct Hb as (F1 & Q1 & _).
  run_of h s0; destruct Ht as (F2 & Q2 & R2);
    (repeat split; try congruence);
    intros D; apply R2; eapply db_errors_only_ext; eauto.
Qed.

(** What a [try] with one [except Error] clause does to a tame body: the
    handler runs on every exception, and the statement returns when the
    handler does. *)
Lemma returns_try_db {A} (body : M A) (h : exn -> M A) :
  tame body -> (forall e, returns (h e)) ->
  returns (try_except body [(Exn.MySQLError, h)]).
Proof.
  intros Hb Hh s D. specialize (Hb s). unfold try_except.
  run_of body s; [reflexivity|].
  destruct Hb as (_ & Q & R). specialize (R D e eq_refl).
  unfold db_error in R. rewrite R.
  assert (D1 : db_errors_only (mysql s0)) by (eapply db_errors_only_ext; eauto).
  specialize (Hh e s0 D1). run_of (h e) s0; [reflexivity | discriminate].
Qed.

Lemma returns_bind {A B} (m : M A) (k : A -> M B) :
  tame m -> returns m -> (forall a, returns (k a)) -> returns (bind m k).
Proof.
  intros Tm Hm Hk s D. destruct (Tm s) as (_ & Q & _).
  specialize (Hm s D). unfold bind.
  run_of m s; [|discriminate].
  assert (D1 : db_errors_only (mysql s0)) by (eapply db_errors_only_ext; eauto).
  specialize (Hk a s0 D1). run_of (k a) s0; [reflexivity | discriminate].
Qed.

Lemma returns_ret {A} (a : A) : returns (ret a).
Proof. intros s _. reflexivity. Qed.

Lemma returns_logger (l : level) (m : string) : returns (logger l m).
Proof. intros s _. reflexivity. Qed.

Lemma returns_for_each {A} (xs : list A) (body : A -> M unit) :
  (forall x, tame (body x)) -> (forall x, returns (body x)) ->
  returns (for_each xs body).
Proof.
  intros T H. induction xs as [|x xs IH]; simpl.
  - apply returns_ret.
  - apply returns_bind; auto.
Qed.

(** ** The driver *)

Lemma tame_driver_call {A} (c : MySQL.call)
    (work : MySQL.server -> outcome A * MySQL.server) :
  db_work work -> tame (driver (MySQL.driver_call c work)).
Proof.
  intros W s. unfold driver, MySQL.driver_call, raised, result, final.
  destruct (MySQL.faults (mysql s) (List.length (MySQL.journal (mysql s))))
    as [e|] eqn:F; simpl.
  - repeat split. intros D e' [= <-]. exact (D _ _ F).
  - specialize (W (mysql s)).
    destruct (work (mysql s)) as [[a|e] sv]; simpl in *;
      destruct W as (Q & _ & R); repeat split; auto; try discriminate.
    intros _ e' [= <-]. auto.
Qed.

(** A call on the driver adds itself to the journal, with what it
    raised, and writes nothing to the log. *)
Lemma driver_call_journal {A} (c : MySQL.call)
    (work : MySQL.server -> outcome A * MySQL.server) (s : env) :
  db_work work ->
  let r := driver (MySQL.driver_call c work) s in
  MySQL.journal (mysql (final r))
  = MySQL.journal (mysql s) ++ [(c, raised r)]
  /\ logged r = [].
Proof.
  intros W. unfold driver, MySQL.driver_call, logged, final, raised, result.
  destruct (MySQL.faults (mysql s) (List.length (MySQL.journal (mysql s))));
    simpl; [auto|].
  specialize (W (mysql s)).
  destruct (work (mysql s)) as [r sv]; simpl in *.
  destruct W as (_ & J & _). now rewrite J.
Qed.

Lemma db_work_execute_statement (q : MySQL.statement) (params : list scalar) :
  db_work (MySQL.execute_statement q params).
Proof.
  intros sv. unfold MySQL.execute_statement.
  repeat match goal with
         | |- context [if ?b then _ else _] => destruct b
         | |- context [match ?x with _ => _ end] => destruct x
         end; simpl; repeat split; auto; try discriminate;
    intros e [= <-]; reflexivity.
Qed.

Lemma db_work_guarded {A} (work : MySQL.server -> outcome A * MySQL.server) :
  db_work work ->
  db_work (fun sv => if MySQL.connected sv then work sv
                     else (MySQL.not_available, sv)).
Proof.
  intros W sv. destruct (MySQL.connected sv); [apply W|].
  simpl. repeat split; auto. intros e [= <-]. reflexivity.
Qed.

Lemma db_work_pure {A} (f : MySQL.server -> A)
    (g : MySQL.server -> MySQL.server) :
  (forall sv, MySQL.faults (g sv) = MySQL.faults sv
              /\ MySQL.journal (g sv) = MySQL.journal sv) ->
  db_work (fun sv => (Ret (f sv), g sv)).
Proof.
  intros H sv. simpl. destruct (H sv). repeat split; auto; discriminate.
Qed.

Lemma db_work_connect :
  db_work (fun sv => (Ret tt, MySQL.with_connected true sv)).
Proof. now apply (db_work_pure (fun _ => tt)). Qed.

Lemma db_work_cursor :
  db_work (fun sv => if MySQL.connected sv then (Ret tt, sv)
                     else (MySQL.not_available, sv)).
Proof.
  apply (db_work_guarded (fun sv => (Ret tt, sv))).
  now apply (db_work_pure (fun _ => tt) (fun sv => sv)).
Qed.

Lemma db_work_execute (q : MySQL.statement) (params : list scalar) :
  db_work (fun sv => if MySQL.connected sv
                     then MySQL.execute_statement q params sv
                     else (MySQL.not_available, sv)).
Proof.
  apply (db_work_guarded (MySQL.execute_statement q params)).
  apply db_work_execute_statement.
Qed.

Lemma db_work_commit :
  db_work (fun sv => if MySQL.connected sv
                     then (Ret tt,
                           MySQL.with_tables
                             (map MySQL.commit_table (MySQL.tables sv)) sv)
                     else (MySQL.not_available, sv)).
Proof.
  apply (db_work_guarded
           (fun sv => (Ret tt,
                       MySQL.with_tables
                         (map MySQL.commit_table (MySQL.tables sv)) sv))).
  now apply (db_work_pure (fun _ => tt)).
Qed.

Lemma db_work_cursor_close : db_work (fun sv => (Ret tt, sv)).
Proof. now apply (db_work_pure (fun _ => tt) (fun sv => sv)). Qed.

Lemma db_work_close :
  db_work (fun sv =>
             (Ret tt,
              MySQL.with_connected false
                (MySQL.with_tables
                   (map MySQL.rollback_table (MySQL.tables sv)) sv))).
Proof. now apply (db_work_pure (fun _ => tt)). Qed.

Lemma tame_connect : tame (driver MySQL.connect).
Proof. apply tame_driver_call, db_work_connect. Qed.

Lemma tame_cursor : tame (driver MySQL.cursor).
Proof. apply tame_driver_call, db_work_cursor. Qed.

Lemma tame_execute (q : MySQL.statement) (params : list scalar) :
  tame (driver (MySQL.execute q params)).
Proof. apply tame_driver_call, db_work_execute. Qed.

Lemma tame_commit : tame (driver MySQL.commit).
Proof. apply tame_driver_call, db_work_commit. Qed.

Lemma tame_cursor_close : tame (driver MySQL.cursor_close).
Proof. apply tame_driver_call, db_work_cursor_close. Qed.

Lemma tame_close : tame (driver MySQL.close).
Proof. apply tame_driver_call, db_work_close. Qed.

Lemma tame_is_connected :
  tame (driver (fun sv => (Ret (MySQL.is_connected sv), sv))).
Proof.
  intros s. unfold driver, raised, result, final. simpl.
  repeat split. discriminate.
Qed.

(** [self.connection.f(...)] on a manager that holds a connection is the
    call on the driver. *)
Lemma on_connection_some {A} (self : MySQLDatabaseManager.t) (method : string)
    (f : MySQL.server -> outcome A * MySQL.server) :
  MySQLDatabaseManager.connection self <> None ->
  MySQLDatabaseManager.on_connection self method f = driver f.
Proof.
  unfold MySQLDatabaseManager.on_connection.
  destruct (MySQLDatabaseManager.connection self); [reflexivity|congruence].
Qed.

Create HintDb tame.
#[local] Hint Resolve tame_ret tame_logger tame_connect tame_cursor
  tame_execute tame_commit tame_cursor_close tame_close tame_is_connected
  returns_ret returns_logger : tame.
#[local] Hint Extern 2 (tame (bind _ _)) =>
  apply tame_bind; [|intros ?] : tame.
#[local] Hint Extern 2 (tame (for_each _ _)) =>
  apply tame_for_each; intros ? : tame.
#[local] Hint Extern 2 (returns (bind _ _)) =>
  apply returns_bind; [| |intros ?] : tame.

Ltac tame_clauses :=
  repeat (apply Forall_cons; [intros ?; simpl; auto 10 with tame|]);
  apply Forall_nil.

(** [create_table] and [insert_data] on a manager that holds a
    connection. *)
Lemma tame_create_table (self : MySQLDatabaseManager.t) (name cols : string) :
  MySQLDatabaseManager.connection self <> None ->
  tame (MySQLDatabaseManager.create_table self name cols).
Proof.
  intros C. unfold MySQLDatabaseManager.create_table.
  rewrite (on_connection_some self _ _ C).
  apply tame_try_except; [auto 10 with tame|].
  tame_clauses.
Qed.

Lemma returns_create_table (self : MySQLDatabaseManager.t)
    (name cols : string) :
  MySQLDatabaseManager.connection self <> None ->
  returns (MySQLDatabaseManager.create_table self name cols).
Proof.
  intros C. unfold MySQLDatabaseManager.create_table.
  rewrite (on_connection_some self _ _ C).
  apply returns_try_db; [auto 10 with tame|]. intros; auto with tame.
Qed.

Lemma tame_insert_data (self : MySQLDatabaseManager.t) (name : string)
    (df : DataFrame) :
  MySQLDatabaseManager.connection self <> None ->
  tame (MySQLDatabaseManager.insert_data self name df).
Proof.
  intros C. unfold MySQLDatabaseManager.insert_data.
  rewrite !(on_connection_some self _ _ C).
  apply tame_try_except; [auto 10 with tame|].
  tame_clauses.
Qed.

Lemma returns_insert_data (self : MySQLDatabaseManager.t) (name : string)
    (df : DataFrame) :
  MySQLDatabaseManager.connection self <> None ->
  returns (MySQLDatabaseManager.insert_data self name df).
Proof.
  intros C. unfold MySQLDatabaseManager.insert_data.
  rewrite !(on_connection_some self _ _ C).
  apply returns_try_db; [auto 10 with tame|]. intros; auto with tame.
Qed.

(** ** [load_csv] *)

Section LoadCsv.

Import CSVToMySQLLoader.

Lemma load_csv_read (file_path : string) (s : env) (df : DataFrame) :
  read_csv (fs s) file_path = Ret df ->
  load_csv file_path s = (Ret (Some df), s, [loaded_entry file_path]).
Proof.
  intros R. unfold load_csv, try_except, bind, pd_read_csv. now rewrite R.
Qed.

Lemma load_csv_recoverable (file_path : string) (s : env) (e : exn) :
  read_csv (fs s) file_path = Raise e -> recoverable e = true ->
  load_csv file_path s = (Ret None, s, [skip_entry file_path e]).
Proof.
  intros R H. unfold load_csv, try_except, bind, pd_read_csv. rewrite R.
  destruct e as [k m]. destruct k; try discriminate H; reflexivity.
Qed.

(** C5.  [load_csv] returns the parsed data when [pd.read_csv] returns
    it, logging the load.  It returns [None], with one error entry in the
    log and nothing raised, in exactly three cases: the read raised
    [FileNotFoundError], [EmptyDataError] or [ParserError].  The
    enumeration is closed: an exception of any other class leaves
    [load_csv] as it was raised, with nothing logged.  The environment is
    never changed. *)
Theorem load_csv_closed_enumeration (file_path : string) (s : env) :
  load_csv file_path s =
  match read_csv (fs s) file_path with
  | Ret df => (Ret (Some df), s, [loaded_entry file_path])
  | Raise e =>
      match Exn.class e with
      | Exn.FileNotFoundError => (Ret None, s, [not_found_entry file_path])
      | Exn.EmptyDataError => (Ret None, s, [empty_entry file_path])
      | Exn.ParserError => (Ret None, s, [parse_error_entry file_path])
      | _ => (Raise e, s, [])
      end
  end.
Proof.
  unfold load_csv, try_except, bind, pd_read_csv.
  destruct (read_csv (fs s) file_path) as [df|[k m]]; [reflexivity|].
  destruct k; reflexivity.
Qed.

End LoadCsv.

(** ** [load_csv_to_db] *)

Section LoadAll.

Import CSVToMySQLLoader.

Variable manager : MySQLDatabaseManager.t.
Hypothesis connected_manager : MySQLDatabaseManager.connection manager <> None.

Lemma for_each_app {A} (xs ys : list A) (body : A -> M unit) (s : env) :
  for_each (xs ++ ys) body s
  = bind (for_each xs body) (fun _ => for_each ys body) s.
Proof.
  revert s. induction xs as [|x xs IH]; intros s; simpl.
  - unfold bind, ret. now destruct (for_each ys body s) as [[r s'] lg].
  - unfold bind.
    destruct (body x s) as [[[[]|e] s1] lg1]; [|reflexivity].
    rewrite IH. unfold bind.
    destruct (for_each xs body s1) as [[[[]|e] s2] lg2]; [|reflexivity].
    destruct (for_each ys body s2) as [[r s3] lg3].
    now rewrite app_assoc.
Qed.

(** What the loop body does with a file that was read: the load is
    logged, then the table is created and filled. *)
Lemma load_one_read (csv_file : string) (df : DataFrame) (s : env) :
  read_csv (fs s) csv_file = Ret df ->
  load_one manager csv_file s
  = (logger INFO (log_message (loaded_entry csv_file)) ;;
     MySQLDatabaseManager.create_table manager (table_name csv_file)
       (generate_columns_definition df) ;;
     MySQLDatabaseManager.insert_data manager (table_name csv_file) df) s.
Proof.
  intros R. unfold load_one, bind at 1.
  rewrite (load_csv_read _ _ _ R). unfold bind at 2, logger. simpl.
  now destruct (bind _ _ s) as [[r s'] lg].
Qed.

(** What it does with a file whose read failed recoverably: one entry in
    the log, and nothing else. *)
Lemma load_one_skip (csv_file : string) (e : exn) (s : env) :
  read_csv (fs s) csv_file = Raise e -> recoverable e = true ->
  load_one manager csv_file s = (Ret tt, s, [skip_entry csv_file e]).
Proof.
  intros R H. unfold load_one, bind.
  now rewrite (load_csv_recoverable _ _ _ R H).
Qed.

Lemma load_one_ok (csv_file : string) (s : env) :
  db_errors_only (mysql s) -> loads (fs s) csv_file ->
  let r := load_one manager csv_file s in
  result r = Ret tt
  /\ fs (final r) = fs s
  /\ MySQL.faults (mysql (final r)) = MySQL.faults (mysql s).
Proof.
  intros D L. unfold loads in L.
  destruct (read_csv (fs s) csv_file) as [df|e] eqn:R.
  - rewrite (load_one_read _ _ _ R). simpl.
    set (m := bind _ _).
    assert (T : tame m).
    { subst m. auto 10 using tame_create_table, tame_insert_data with tame. }
    assert (Rt : returns m).
    { subst m. apply returns_bind; auto with tame. intros _.
      apply returns_bind; auto using tame_create_table, returns_create_table.
      intros _. now apply returns_insert_data. }
    specialize (Rt s D). destruct (T s) as (F & Q & _).
    unfold raised, result, final in *.
    destruct (m s) as [[[[]|e] s'] lg]; simpl in *; [auto | discriminate].
  - rewrite (load_one_skip _ _ _ R L). simpl. auto.
Qed.

Lemma load_all_ok (files : list string) (s : env) :
  db_errors_only (mysql s) ->
  (forall f, In f files -> loads (fs s) f) ->
  let r := for_each files (load_one manager) s in
  result r = Ret tt
  /\ fs (final r) = fs s
  /\ MySQL.faults (mysql (final r)) = MySQL.faults (mysql s).
Proof.
  revert s. induction files as [|f files IH]; intros s D L; simpl.
  - auto.
  - destruct (load_one_ok f s D) as (R1 & F1 & Q1); [apply L; now left|].
    unfold bind, result, final in *.
    destruct (load_one manager f s) as [[r1 s1] lg1]; simpl in *. subst r1.
    destruct (IH s1) as (R2 & F2 & Q2).
    + eapply db_errors_only_ext; eauto.
    + intros g G. rewrite F1. apply L. now right.
    + unfold result, final in *.
      destruct (for_each files (load_one manager) s1) as [[r2 s2] lg2];
        simpl in *.
      repeat split; congruence.
Qed.

End LoadAll.

(** ** One call, step by step *)

Lemma driver_step {A} (c : MySQL.call)
    (work : MySQL.server -> outcome A * MySQL.server) (s : env) :
  db_work work -> db_errors_only (mysql s) ->
  exists r s',
    driver (MySQL.driver_call c work) s = (r, s', [])
    /\ step [(c, failure r)] s r s'.
Proof.
  intros W D.
  destruct (tame_driver_call c work W s) as (F & Q & R).
  destruct (driver_call_journal c work s W) as (J & L).
  specialize (R D). unfold raised, result, final, logged in *.
  destruct (driver (MySQL.driver_call c work) s) as [[r s'] lg]; simpl in *.
  subst lg. exists r, s'. split; [reflexivity|]. split; auto.
  intros e ->. auto.
Qed.

Lemma step_db_errors {A} c s (r : outcome A) s' :
  step c s r s' -> db_errors_only (mysql s) -> db_errors_only (mysql s').
Proof. intros [_ _ Q _]. now apply db_errors_only_ext. Qed.

(** A [try] with the single clause [except Error]. *)
Lemma try_except_db {A} (body : M A) (h : exn -> M A) (s : env) :
  try_except body [(Exn.MySQLError, h)] s
  = match body s with
    | (Raise e, s', lg) =>
        if db_error e
        then match h e s' with (r, s'', lg') => (r, s'', lg ++ lg') end
        else (Raise e, s', lg)
    | done => done
    end.
Proof.
  unfold try_except. destruct (body s) as [[[a|e] s'] lg]; [reflexivity|].
  simpl. unfold db_error. now destruct (Exn.isinstance e Exn.MySQLError).
Qed.

(** ** [insert_data] *)

Section InsertData.

Import MySQLDatabaseManager.

Variable table_name : string.
Variable data : DataFrame.

Lemma cut_short_cons (c : MySQL.call) (calls : list MySQL.call)
    (k : nat) (e : exn) :
  cut_short (c :: calls) (S k) e = MySQL.ok c :: cut_short calls k e.
Proof. reflexivity. Qed.

Lemma cut_short_app_l (calls rest : list MySQL.call) (k : nat) (e : exn) :
  k < List.length calls ->
  cut_short (calls ++ rest) k e = cut_short calls k e.
Proof.
  revert k. induction calls as [|c calls IH]; intros k H; simpl in H; [lia|].
  destruct k as [|k]; [reflexivity|].
  simpl app. rewrite !cut_short_cons, IH; [reflexivity | lia].
Qed.

Lemma cut_short_app_r (calls rest : list MySQL.call) (k : nat) (e : exn) :
  cut_short (calls ++ rest) (List.length calls + k) e
  = map MySQL.ok calls ++ cut_short rest k e.
Proof.
  induction calls as [|c calls IH]; [reflexivity|].
  simpl. rewrite cut_short_cons, IH. reflexivity.
Qed.

(** The loop over the rows: the rows are sent in order, one statement
    each, up to the first that fails. *)
Lemma insert_rows (rows : list (list scalar)) (s : env) :
  db_errors_only (mysql s) ->
  exists r s',
    for_each rows
      (fun row => driver (MySQL.execute (insert_query table_name data) row)) s
    = (r, s', [])
    /\ fs s' = fs s
    /\ MySQL.faults (mysql s') = MySQL.faults (mysql s)
    /\ (r = Ret tt
        /\ MySQL.journal (mysql s')
           = MySQL.journal (mysql s)
             ++ map MySQL.ok (insert_calls table_name data rows)
        \/ exists k e,
             k < List.length rows /\ r = Raise e /\ db_error e = true
             /\ MySQL.journal (mysql s')
                = MySQL.journal (mysql s)
                  ++ cut_short (insert_calls table_name data rows) k e).
Proof.
  revert s. induction rows as [|row rows IH]; intros s D.
  - exists (Ret tt), s. simpl. repeat split; auto.
    left. split; [reflexivity|]. now rewrite app_nil_r.
  - simpl for_each. unfold bind.
    destruct (driver_step
                (MySQL.Execute (MySQL.sql (insert_query table_name data)) row)
                _ s (db_work_execute (insert_query table_name data) row) D)
      as (r1 & s1 & E1 & S1).
    unfold MySQL.execute. rewrite E1.
    destruct r1 as [[]|e].
    + destruct (IH s1 (step_db_errors _ _ _ _ S1 D))
        as (r2 & s2 & E2 & F2 & Q2 & H2).
      unfold MySQL.execute in E2. rewrite E2.
      exists r2, s2. simpl.
      split; [reflexivity|].
      split; [rewrite F2; apply S1|].
      split; [rewrite Q2; apply S1|].
      destruct H2 as [[-> J2] | (k & e & Hk & -> & De & J2)].
      * left. split; [reflexivity|].
        rewrite J2, (step_journal _ _ _ _ S1), <- app_assoc. reflexivity.
      * right. exists (S k), e. repeat split; auto; try lia.
        rewrite J2, (step_journal _ _ _ _ S1), <- app_assoc. reflexivity.
    + exists (Raise e), s1. simpl.
      split; [reflexivity|].
      split; [apply S1|]. split; [apply S1|].
      right. exists 0, e. repeat split; try lia.
      * exact (step_errors _ _ _ _ S1 e eq_refl).
      * exact (step_journal _ _ _ _ S1).
Qed.

End InsertData.

Lemma insert_data_run
    (self : MySQLDatabaseManager.t) (table_name : string) (data : DataFrame)
    (s : env) :
  MySQLDatabaseManager.connection self <> None ->
  db_errors_only (mysql s) ->
  exists s' lg,
    MySQLDatabaseManager.insert_data self table_name data s = (Ret tt, s', lg)
    /\ (MySQL.journal (mysql s')
        = MySQL.journal (mysql s)
          ++ map MySQL.ok (insert_sequence table_name data)
        /\ lg = [inserted_entry table_name]
        \/ exists k e,
             k < List.length (insert_sequence table_name data)
             /\ db_error e = true
             /\ MySQL.journal (mysql s')
                = MySQL.journal (mysql s)
                  ++ cut_short (insert_sequence table_name data) k e
             /\ lg = [insert_failed_entry table_name e]).
Proof.
  intros C D.
  assert (Len : List.length (insert_sequence table_name data)
                = S (List.length (iterrows data) + 2)).
  { unfold insert_sequence, insert_calls. simpl.
    now rewrite length_app, length_map. }
  assert (Lc : List.length (insert_calls table_name data (iterrows data))
               = List.length (iterrows data)).
  { unfold insert_calls. now rewrite length_map. }
  unfold MySQLDatabaseManager.insert_data.
  rewrite !(on_connection_some self _ _ C), try_except_db.
  unfold bind at 1.
  destruct (driver_step MySQL.Cursor _ s db_work_cursor D)
    as (r1 & s1 & E1 & S1).
  unfold MySQL.cursor at 1. rewrite E1.
  destruct r1 as [[]|e].
  2:{ rewrite (step_errors _ _ _ _ S1 e eq_refl).
      eexists _, _. split; [reflexivity|].
      right. exists 0, e.
      split; [rewrite Len; lia|].
      split; [exact (step_errors _ _ _ _ S1 e eq_refl)|].
      split; [exact (step_journal _ _ _ _ S1) | reflexivity]. }
  pose proof (step_db_errors _ _ _ _ S1 D) as D1.
  pose proof (step_journal _ _ _ _ S1) as J1. simpl in J1.
  unfold bind at 1.
  destruct (insert_rows table_name data (iterrows data) s1 D1)
    as (r2 & s2 & E2 & F2 & Q2 & H2).
  rewrite E2.
  destruct H2 as [[-> J2] | (k & e & Hk & -> & De & J2)].
  2:{ rewrite De. eexists _, _. split; [reflexivity|].
      right. exists (S k), e.
      split; [rewrite Len; lia|]. split; [exact De|].
      split; [|reflexivity].
      rewrite J2, J1, <- app_assoc. unfold insert_sequence.
      rewrite cut_short_cons, cut_short_app_l by lia. reflexivity. }
  assert (D2 : db_errors_only (mysql s2))
    by (eapply db_errors_only_ext; eauto).
  unfold bind at 1.
  destruct (driver_step MySQL.Commit _ s2 db_work_commit D2)
    as (r3 & s3 & E3 & S3).
  unfold MySQL.commit at 1. rewrite E3.
  pose proof (step_journal _ _ _ _ S3) as J3. simpl in J3.
  destruct r3 as [[]|e].
  2:{ rewrite (step_errors _ _ _ _ S3 e eq_refl).
      eexists _, _. split; [reflexivity|].
      right. exists (S (List.length (iterrows data) + 0)), e.
      split; [rewrite Len; lia|].
      split; [exact (step_errors _ _ _ _ S3 e eq_refl)|].
      split; [|reflexivity].
      rewrite J3, J2, J1, <- !app_assoc. unfold insert_sequence.
      rewrite cut_short_cons, <- Lc, cut_short_app_r. reflexivity. }
  pose proof (step_db_errors _ _ _ _ S3 D2) as D3.
  unfold bind at 1.
  destruct (driver_step MySQL.CursorClose _ s3 db_work_cursor_close D3)
    as (r4 & s4 & E4 & S4).
  unfold MySQL.cursor_close at 1. rewrite E4.
  pose proof (step_journal _ _ _ _ S4) as J4. simpl in J4.
  destruct r4 as [[]|e].
  - eexists _, _. split; [reflexivity|]. left. split; [|reflexivity].
    rewrite J4, J3, J2, J1, <- !app_assoc. unfold insert_sequence.
    simpl. rewrite map_app. reflexivity.
  - rewrite (step_errors _ _ _ _ S4 e eq_refl).
    eexists _, _. split; [reflexivity|].
    right. exists (S (List.length (iterrows data) + 1)), e.
    split; [rewrite Len; lia|].
    split; [exact (step_errors _ _ _ _ S4 e eq_refl)|].
    split; [|reflexivity].
    rewrite J4, J3, J2, J1, <- !app_assoc. unfold insert_sequence.
    rewrite cut_short_cons, <- Lc, cut_short_app_r. reflexivity.
Qed.

(** C8.  On a manager that holds a connection, [insert_data] makes its
    calls on the driver in one fixed order: the cursor, one [INSERT]
    statement for each row in the order of the data, then [commit], then
    the closing of the cursor.  When every call returns, the insert is
    logged as done.  When a call fails with a database error, the calls
    before it have all returned, no call is made after it (a row that
    fails is followed by no commit, and [commit] comes only after every
    row was sent without error), one error entry is logged for the table,
    and [insert_data] returns without raising. *)
Theorem insert_data_transaction
    (self : MySQLDatabaseManager.t) (table_name : string) (data : DataFrame)
    (s : env) :
  MySQLDatabaseManager.connection self <> None ->
  db_errors_only (mysql s) ->
  let r := MySQLDatabaseManager.insert_data self table_name data s in
  let calls := insert_sequence table_name data in
  result r = Ret tt
  /\ (MySQL.journal (mysql (final r))
      = MySQL.journal (mysql s) ++ map MySQL.ok calls
      /\ logged r = [inserted_entry table_name]
      \/ exists k e,
           k < List.length calls
           /\ db_error e = true
           /\ MySQL.journal (mysql (final r))
              = MySQL.journal (mysql s) ++ cut_short calls k e
           /\ logged r = [insert_failed_entry table_name e]).
Proof.
  intros C D.
  destruct (insert_data_run self table_name data s C D) as (s' & lg & E & H).
  cbv zeta. rewrite E. split; [reflexivity|]. exact H.
Qed.

(** ** [create_table] *)

Section CreateTable.

Import MySQLDatabaseManager.

Variable self : MySQLDatabaseManager.t.
Hypothesis has_connection : connection self <> None.
Variables table_name columns : string.

(** [create_table] returns, whatever the database reports, with one entry
    in the log. *)
Lemma create_table_run (s : env) :
  db_errors_only (mysql s) ->
  exists s' lg,
    create_table self table_name columns s = (Ret tt, s', lg)
    /\ (lg = [created_entry table_name]
        \/ exists e, db_error e = true
                     /\ lg = [create_failed_entry table_name e]).
Proof.
  intros D. unfold create_table.
  rewrite (on_connection_some self _ _ has_connection), try_except_db.
  unfold bind at 1.
  destruct (driver_step MySQL.Cursor _ s db_work_cursor D)
    as (r1 & s1 & E1 & S1).
  unfold MySQL.cursor at 1. rewrite E1.
  destruct r1 as [[]|e].
  2:{ rewrite (step_errors _ _ _ _ S1 e eq_refl). cbn.
      eexists _, _. split; [reflexivity|]. right. exists e.
      split; [exact (step_errors _ _ _ _ S1 e eq_refl)|reflexivity]. }
  pose proof (step_db_errors _ _ _ _ S1 D) as D1.
  unfold bind at 1.
  destruct (driver_step (MySQL.Execute (create_text table_name columns) []) _ s1
              (db_work_execute (create_table_query table_name columns) []) D1)
    as (r2 & s2 & E2 & S2).
  unfold MySQL.execute at 1. unfold create_text in E2. rewrite E2.
  destruct r2 as [[]|e].
  2:{ rewrite (step_errors _ _ _ _ S2 e eq_refl). cbn.
      eexists _, _. split; [reflexivity|]. right. exists e.
      split; [exact (step_errors _ _ _ _ S2 e eq_refl)|reflexivity]. }
  pose proof (step_db_errors _ _ _ _ S2 D1) as D2.
  unfold bind at 1.
  destruct (driver_step MySQL.CursorClose _ s2 db_work_cursor_close D2)
    as (r3 & s3 & E3 & S3).
  unfold MySQL.cursor_close at 1. rewrite E3.
  destruct r3 as [[]|e].
  - cbn. eexists _, _. split; [reflexivity|]. now left.
  - rewrite (step_errors _ _ _ _ S3 e eq_refl). cbn.
    eexists _, _. split; [reflexivity|]. right. exists e.
    split; [exact (step_errors _ _ _ _ S3 e eq_refl)|reflexivity].
Qed.

(** The calls of [create_table], and the entry that goes with them. *)
Lemma create_table_journal (s : env) :
  db_errors_only (mysql s) ->
  exists s' lg,
    create_table self table_name columns s = (Ret tt, s', lg)
    /\ db_errors_only (mysql s')
    /\ (MySQL.journal (mysql s')
        = MySQL.journal (mysql s)
          ++ map MySQL.ok (create_sequence table_name columns)
        /\ lg = [created_entry table_name]
        \/ exists k e,
             k < 3 /\ db_error e = true
             /\ MySQL.journal (mysql s')
                = MySQL.journal (mysql s)
                  ++ cut_short (create_sequence table_name columns) k e
             /\ lg = [create_failed_entry table_name e]).
Proof.
  intros D. unfold create_table.
  rewrite (on_connection_some self _ _ has_connection), try_except_db.
  unfold bind at 1.
  destruct (driver_step MySQL.Cursor _ s db_work_cursor D)
    as (r1 & s1 & E1 & S1).
  unfold MySQL.cursor at 1. rewrite E1.
  pose proof (step_journal _ _ _ _ S1) as J1. simpl in J1.
  pose proof (step_db_errors _ _ _ _ S1 D) as D1.
  destruct r1 as [[]|e].
  2:{ rewrite (step_errors _ _ _ _ S1 e eq_refl).
      eexists _, _. split; [reflexivity|]. split; [exact D1|].
      right. exists 0, e. split; [lia|].
      split; [exact (step_errors _ _ _ _ S1 e eq_refl)|].
      split; [exact J1 | reflexivity]. }
  unfold bind at 1.
  destruct (driver_step
              (MySQL.Execute (create_text table_name columns) []) _ s1
              (db_work_execute (create_table_query table_name columns) [])
              D1)
    as (r2 & s2 & E2 & S2).
  unfold MySQL.execute at 1. unfold create_text in E2. rewrite E2.
  pose proof (step_journal _ _ _ _ S2) as J2. simpl in J2.
  pose proof (step_db_errors _ _ _ _ S2 D1) as D2.
  destruct r2 as [[]|e].
  2:{ rewrite (step_errors _ _ _ _ S2 e eq_refl).
      eexists _, _. split; [reflexivity|]. split; [exact D2|].
      right. exists 1, e. split; [lia|].
      split; [exact (step_errors _ _ _ _ S2 e eq_refl)|].
      split; [|reflexivity].
      rewrite J2, J1, <- app_assoc. reflexivity. }
  unfold bind at 1.
  destruct (driver_step MySQL.CursorClose _ s2 db_work_cursor_close D2)
    as (r3 & s3 & E3 & S3).
  unfold MySQL.cursor_close at 1. rewrite E3.
  pose proof (step_journal _ _ _ _ S3) as J3. simpl in J3.
  pose proof (step_db_errors _ _ _ _ S3 D2) as D3.
  destruct r3 as [[]|e].
  - eexists _, _. split; [reflexivity|]. split; [exact D3|].
    left. split; [|reflexivity].
    rewrite J3, J2, J1, <- !app_assoc. reflexivity.
  - rewrite (step_errors _ _ _ _ S3 e eq_refl).
    eexists _, _. split; [reflexivity|]. split; [exact D3|].
    right. exists 2, e. split; [lia|].
    split; [exact (step_errors _ _ _ _ S3 e eq_refl)|].
    split; [|reflexivity].
    rewrite J3, J2, J1, <- !app_assoc. reflexivity.
Qed.

Lemma create_table_healthy (s : env) :
  healthy (mysql s) -> valid_table table_name columns = true ->
  create_table self table_name columns s
  = (Ret tt,
     {| fs := fs s; mysql := after_create table_name columns (mysql s) |},
     [created_entry table_name]).
Proof.
  intros [Hc Hf] V. unfold valid_table in V.
  apply andb_true_iff in V. destruct V as [Vn Vc].
  unfold create_table.
  rewrite (on_connection_some self _ _ has_connection), try_except_db.
  unfold bind, driver, MySQL.cursor, MySQL.execute, MySQL.cursor_close,
    MySQL.driver_call, after_create, create_effect.
  destruct (MySQL.read_columns columns) as [[|c cs]|] eqn:Rc;
    try discriminate.
  destruct (MySQL.lookup table_name (MySQL.tables (mysql s))) eqn:L;
    repeat (progress (simpl; rewrite ?Hf, ?Hc, ?Vn, ?Rc, ?Vc, ?L));
    reflexivity.
Qed.

Lemma commit_table_idem (nt : string * MySQL.table) :
  MySQL.commit_table (MySQL.commit_table nt) = MySQL.commit_table nt.
Proof. unfold MySQL.commit_table. simpl. now rewrite app_nil_r. Qed.

Lemma lookup_commit (name : string) (ts : list (string * MySQL.table)) :
  MySQL.lookup name (map MySQL.commit_table ts)
  = option_map (fun t => snd (MySQL.commit_table (name, t)))
               (MySQL.lookup name ts).
Proof.
  induction ts as [|[n t] ts IH]; simpl; [reflexivity|].
  destruct (String.eqb n name); [reflexivity | exact IH].
Qed.

Lemma lookup_app_new (name : string) (t : MySQL.table)
    (ts : list (string * MySQL.table)) :
  MySQL.lookup name ts = None ->
  MySQL.lookup name (ts ++ [(name, t)]) = Some t.
Proof.
  induction ts as [|[n t'] ts IH]; simpl.
  - now rewrite String.eqb_refl.
  - destruct (String.eqb n name); [discriminate | exact IH].
Qed.

(** After the statement was accepted the table exists. *)
Lemma lookup_create_effect (ts : list (string * MySQL.table)) :
  valid_table table_name columns = true ->
  exists t,
    MySQL.lookup table_name (create_effect table_name columns ts) = Some t.
Proof.
  intros V. unfold valid_table in V. apply andb_true_iff in V.
  destruct V as [_ V]. unfold create_effect.
  destruct (MySQL.lookup table_name ts) as [t|] eqn:L.
  - rewrite lookup_commit, L. simpl. eauto.
  - destruct (MySQL.read_columns columns) as [cols|]; [|discriminate].
    eexists. apply lookup_app_new. now rewrite lookup_commit, L.
Qed.

(** Sending it again changes nothing. *)
Lemma create_effect_idem (ts : list (string * MySQL.table)) :
  valid_table table_name columns = true ->
  create_effect table_name columns (create_effect table_name columns ts)
  = create_effect table_name columns ts.
Proof.
  intros V. destruct (lookup_create_effect ts V) as [t L].
  unfold create_effect at 1. rewrite L.
  unfold create_effect.
  assert (I : forall l, map MySQL.commit_table (map MySQL.commit_table l)
                        = map MySQL.commit_table l).
  { intros l. rewrite map_map. apply map_ext. intros. apply commit_table_idem. }
  destruct (MySQL.lookup table_name ts), (MySQL.read_columns columns);
    rewrite ?map_app, I; reflexivity.
Qed.

End CreateTable.

(** C7.  On a manager that holds a connection, [create_table] makes
    three calls in one order, the cursor, the statement [CREATE TABLE IF
    NOT EXISTS <name> (<columns>);] and the closing of the cursor, and
    never raises: when one of the calls fails with a database error, no
    call is made after it, that error is logged with the name of the
    table, and [create_table] returns, so the caller goes on; the entry
    of success is written only when the three calls returned.  The same
    holds of a second call with the same arguments.  On a healthy server,
    for a table name and a column list the server accepts, calling it
    twice succeeds both times (no error is logged), the table exists
    after the first call, and the second call leaves the tables as the
    first left them. *)
Theorem create_table_idempotent
    (self : MySQLDatabaseManager.t) (table_name columns : string) (s : env) :
  MySQLDatabaseManager.connection self <> None ->
  db_errors_only (mysql s) ->
  let r1 := MySQLDatabaseManager.create_table self table_name columns s in
  let r2 :=
    MySQLDatabaseManager.create_table self table_name columns (final r1) in
  let calls := create_sequence table_name columns in
  let outcome_of before r :=
    MySQL.journal (mysql (final r)) = MySQL.journal before ++ map MySQL.ok calls
    /\ logged r = [created_entry table_name]
    \/ exists k e,
         k < 3 /\ db_error e = true
         /\ MySQL.journal (mysql (final r))
            = MySQL.journal before ++ cut_short calls k e
         /\ logged r = [create_failed_entry table_name e] in
  result r1 = Ret tt /\ result r2 = Ret tt
  /\ outcome_of (mysql s) r1
  /\ outcome_of (mysql (final r1)) r2
  /\ (healthy (mysql s) -> valid_table table_name columns = true ->
      logged r1 = [created_entry table_name]
      /\ logged r2 = [created_entry table_name]
      /\ MySQL.tables (mysql (final r2)) = MySQL.tables (mysql (final r1))
      /\ exists t,
           MySQL.lookup table_name (MySQL.tables (mysql (final r1))) = Some t).
Proof.
  intros C D. cbv zeta.
  destruct (create_table_journal self C table_name columns s D)
    as (s1 & lg1 & E1 & D1 & L1).
  destruct (create_table_journal self C table_name columns s1 D1)
    as (s2 & lg2 & E2 & _ & L2).
  rewrite E1. change (final (Ret tt, s1, lg1)) with s1.
  rewrite E2. unfold result, final, logged. simpl fst. simpl snd.
  split; [reflexivity|]. split; [reflexivity|]. split; [exact L1|].
  split; [exact L2|].
  intros H V.
  rewrite (create_table_healthy self C table_name columns s H V) in E1.
  injection E1 as <- <-.
  rewrite (create_table_healthy self C table_name columns
             {| fs := fs s;
                mysql := after_create table_name columns (mysql s) |}
             H V) in E2.
  injection E2 as <- <-. simpl. repeat split.
  - now apply create_effect_idem.
  - now apply lookup_create_effect.
Qed.

(** ** [get_files] *)

(** [get_files] always returns, the paths of [found], and leaves the
    environment as it is. *)
Lemma get_files_run (folder_path file_extension : string) (s : env) :
  exists lg,
    get_files folder_path file_extension s
    = (Ret (found (fs s) folder_path file_extension), s, lg).
Proof.
  unfold get_files, found, try_except, bind, os, matching.
  destruct (path_exists (fs s) folder_path); simpl; [|eauto].
  destruct (listdir (fs s) folder_path) as [entries|e]; simpl.
  - destruct (map _ _); simpl; eauto.
  - rewrite (all_exceptions e). simpl. eauto.
Qed.

(** ** The logging set-up *)

Lemma configure_logging_run (file : string) (s : env) :
  configure_logging file s = (logging (fs s) file, s, []).
Proof.
  unfold configure_logging, logging, bind.
  destruct (mkdir (fs s) logs_dir) as [[]|e] eqn:E;
    unfold logs_dir in E; rewrite E; [|reflexivity].
  unfold log_file, logs_dir.
  now destruct (add_sink (fs s) _) as [[]|e].
Qed.

(** When the set-up fails, [main] ends there: it raises what the set-up
    raised, before it looks for files or connects. *)
Lemma main_logging_failed
    (file EXTERNAL_DATA_DIR : string)
    (host user password database : option string) (s : env) (x : exn) :
  logging (fs s) file = Raise x ->
  main file EXTERNAL_DATA_DIR host user password database s = (Raise x, s, []).
Proof.
  intros L. unfold main. unfold bind at 1.
  now rewrite configure_logging_run, L.
Qed.

Lemma main_logging_ok
    (file EXTERNAL_DATA_DIR : string)
    (host user password database : option string) (s : env) :
  logging (fs s) file = Ret tt ->
  main file EXTERNAL_DATA_DIR host user password database s
  = after_logging EXTERNAL_DATA_DIR host user password database s.
Proof.
  intros L. unfold main. unfold bind at 1.
  rewrite configure_logging_run, L.
  fold (after_logging EXTERNAL_DATA_DIR host user password database).
  now destruct (after_logging _ _ _ _ _ s) as [[r s'] lg].
Qed.

(** ** The life of the connection *)

Section Lifecycle.

Import MySQLDatabaseManager.

(** When [connect] fails with a database error the constructor logs it
    and leaves [None] in [self.connection]. *)
Lemma init_failed (host user password database : option string)
    (s : env) (e : exn) :
  next_fault (mysql s) = Some e -> db_error e = true ->
  init host user password database s
  = (Ret never_connected,
     {| fs := fs s;
        mysql := MySQL.record (MySQL.Connect, Some e) (mysql s) |},
     [connect_failed_entry e]).
Proof.
  intros F E. unfold init. rewrite try_except_db.
  unfold bind, driver, MySQL.connect, MySQL.driver_call.
  unfold next_fault in F. rewrite F. simpl. now rewrite E.
Qed.

Lemma close_never_connected (s : env) :
  close never_connected s = (Ret tt, s, []).
Proof. reflexivity. Qed.

Lemma close_twice (self : MySQLDatabaseManager.t) (s : env) :
  result (close self s) = Ret tt ->
  close self (final (close self s)) = (Ret tt, final (close self s), []).
Proof.
  unfold close. destruct (connection self); [|reflexivity].
  unfold bind, driver, MySQL.is_connected, MySQL.close, MySQL.driver_call.
  simpl.
  destruct (MySQL.connected (mysql s)) eqn:C; simpl.
  - destruct (MySQL.faults (mysql s) _); simpl; [discriminate|].
    intros _. reflexivity.
  - intros _. now rewrite C.
Qed.

Lemma close_open (self : MySQLDatabaseManager.t) (s : env) :
  connection self <> None ->
  MySQL.connected (mysql s) = true -> next_fault (mysql s) = None ->
  close self s
  = (Ret tt,
     {| fs := fs s;
        mysql :=
          MySQL.record (MySQL.ok MySQL.Close)
            (MySQL.with_connected false
               (MySQL.with_tables
                  (map MySQL.rollback_table (MySQL.tables (mysql s)))
                  (mysql s))) |},
     [closed_entry]).
Proof.
  intros N C F. unfold close. destruct (connection self); [|congruence].
  unfold bind, driver, MySQL.is_connected, MySQL.close, MySQL.driver_call.
  unfold next_fault in F. simpl. rewrite C. simpl. now rewrite F.
Qed.

End Lifecycle.

(** C9.  [close] on a manager whose construction failed to connect does
    nothing and does not raise.  After a [close] that returned, a second
    [close] does nothing and does not raise.  [close] on an open
    connection closes it: one [Close] call, after which the connection is
    no longer connected.  When [connect] fails with a database error, the
    constructor returns a manager without connection, and [main] makes no
    call on the driver after the failed [Connect]: no cursor, no
    statement, no commit, and the tables are untouched.  (When the
    logging set-up itself fails, [main] raises before it connects and
    makes no call at all.) *)
Theorem connection_lifecycle
    (self : MySQLDatabaseManager.t) (s : env)
    (__file__ EXTERNAL_DATA_DIR : string)
    (host user password database : option string) :
  MySQLDatabaseManager.close never_connected s = (Ret tt, s, [])
  /\ (result (MySQLDatabaseManager.close self s) = Ret tt ->
      MySQLDatabaseManager.close self
        (final (MySQLDatabaseManager.close self s))
      = (Ret tt, final (MySQLDatabaseManager.close self s), []))
  /\ (MySQLDatabaseManager.connection self <> None ->
      MySQL.connected (mysql s) = true -> next_fault (mysql s) = None ->
      let r := MySQLDatabaseManager.close self s in
      result r = Ret tt
      /\ MySQL.connected (mysql (final r)) = false
      /\ MySQL.journal (mysql (final r))
         = MySQL.journal (mysql s) ++ [MySQL.ok MySQL.Close]
      /\ logged r = [closed_entry])
  /\ (forall e, next_fault (mysql s) = Some e -> db_error e = true ->
      let built :=
        MySQLDatabaseManager.init host user password database s in
      let r :=
        main __file__ EXTERNAL_DATA_DIR host user password database s in
      result built = Ret never_connected
      /\ MySQL.tables (mysql (final r)) = MySQL.tables (mysql s)
      /\ match logging (fs s) __file__ with
         | Ret _ =>
             result r = Ret tt
             /\ MySQL.journal (mysql (final r))
                = MySQL.journal (mysql s) ++ [(MySQL.Connect, Some e)]
             /\ In (connect_failed_entry e) (logged r)
         | Raise x =>
             result r = Raise x
             /\ MySQL.journal (mysql (final r)) = MySQL.journal (mysql s)
             /\ logged r = []
         end).
Proof.
  split; [reflexivity|]. split; [apply close_twice|]. split.
  - intros N C F. cbv zeta. now rewrite (close_open self s N C F).
  - intros e F E. cbv zeta.
    rewrite (init_failed host user password database s e F E).
    split; [reflexivity|].
    destruct (logging (fs s) __file__) as [[]|x] eqn:Lg.
    + rewrite (main_logging_ok __file__ EXTERNAL_DATA_DIR
                 host user password database s Lg).
      unfold after_logging, bind, ret.
      destruct (get_files_run EXTERNAL_DATA_DIR "csv" s) as [lg G].
      rewrite G, (init_failed host user password database s e F E).
      simpl. repeat split; auto.
      apply in_or_app. right. now left.
    + rewrite (main_logging_failed __file__ EXTERNAL_DATA_DIR
                 host user password database s x Lg).
      repeat split.
Qed.

(** ** Table names *)

(** C2, as stated, fails on a short stem: the stem of [a.csv] is [a], the
    table name is empty, and no suffix of 8 characters was removed. *)
Lemma table_name_suffix_counterexample :
  PyPath.stem "a.csv" = "a"
  /\ table_name "a.csv" = EmptyString
  /\ ~ (exists removed,
          String.length removed = 8
          /\ PyPath.stem "a.csv" = (table_name "a.csv" ++ removed)%string).
Proof.
  split; [reflexivity|]. split; [reflexivity|].
  intros [removed [L E]]. vm_compute in E. subst removed. discriminate L.
Qed.

(** C2, amended.  The table name of a file is a function of its name
    alone: the stem without its last 8 characters, or without all of them
    when the stem has fewer than 8 (the empty name).  Whatever the state
    in which the loader reaches a file that is read, it creates and fills
    the table of that name; and the names derived for a batch of files do
    not depend on the order of the files. *)
Theorem table_name_deterministic (csv_file : string) :
  (exists removed,
     PyPath.stem csv_file = (table_name csv_file ++ removed)%string
     /\ String.length removed
        = Nat.min 8 (String.length (PyPath.stem csv_file)))
  /\ (forall manager s df,
        read_csv (fs s) csv_file = Ret df ->
        CSVToMySQLLoader.load_one manager csv_file s
        = (logger INFO (log_message (loaded_entry csv_file)) ;;
           MySQLDatabaseManager.create_table manager (table_name csv_file)
             (CSVToMySQLLoader.generate_columns_definition df) ;;
           MySQLDatabaseManager.insert_data manager (table_name csv_file) df)
            s)
  /\ (forall files files',
        Permutation files files' ->
        Permutation (map table_name files) (map table_name files')).
Proof.
  split; [apply slice_to_neg_spec|]. split.
  - intros manager s df R. now apply load_one_read.
  - intros files files' P. now apply Permutation_map.
Qed.


(** On a healthy server the two statements for [a.csv] are sent with the
    empty name, and the server rejects them. *)
Example short_stem_statements :
  let r :=
    CSVToMySQLLoader.load_csv_to_db
      {| CSVToMySQLLoader.db_manager := open_manager;
         CSVToMySQLLoader.csv_files := ["data/a.csv"] |} batch_env in
  result r = Ret tt
  /\ MySQL.journal (mysql (final r))
     = [MySQL.ok MySQL.Connect;
        MySQL.ok MySQL.Cursor;
        (MySQL.Execute "CREATE TABLE IF NOT EXISTS  (x VARCHAR(255));" [],
         Some syntax_error);
        MySQL.ok MySQL.Cursor;
        (MySQL.Execute "INSERT INTO  VALUES (%s)" [SInt 1],
         Some syntax_error)].
Proof. split; vm_compute; reflexivity. Qed.

(** ** Column definitions *)

Section Columns.

Import CSVToMySQLLoader.

Lemma free_of_append (x : ascii) (a b : string) :
  free_of x (a ++ b) = free_of x a && free_of x b.
Proof.
  unfold free_of. induction a as [|c a IH]; simpl; [reflexivity|].
  now rewrite IH, andb_assoc.
Qed.

Lemma ident_free_of (x : ascii) (s : string) :
  MySQL.ident_char x = false ->
  MySQL.all_chars MySQL.ident_char s = true -> free_of x s = true.
Proof.
  intros Hx. unfold free_of. induction s as [|c s IH]; simpl; [reflexivity|].
  intros H. apply andb_true_iff in H. destruct H as [Hc Hs].
  rewrite (IH Hs), andb_true_r.
  destruct (Ascii.eqb_spec c x); [congruence|reflexivity].
Qed.

(** A field without separator is split off whole. *)
Lemma split_field (sep : ascii) (item rest : string) :
  free_of sep item = true ->
  PyStr.split sep (item ++ String sep rest) = item :: PyStr.split sep rest.
Proof.
  unfold free_of. induction item as [|c item IH]; simpl.
  - intros _. now rewrite Ascii.eqb_refl.
  - intros H. apply andb_true_iff in H. destruct H as [Hc Hi].
    apply negb_true_iff in Hc. rewrite Hc, (IH Hi). reflexivity.
Qed.

Lemma split_last (sep : ascii) (item : string) :
  free_of sep item = true -> PyStr.split sep item = [item].
Proof.
  unfold free_of. induction item as [|c item IH]; simpl; [reflexivity|].
  intros H. apply andb_true_iff in H. destruct H as [Hc Hi].
  apply negb_true_iff in Hc. rewrite Hc, (IH Hi). reflexivity.
Qed.

Lemma break_space_spec (name rest : string) :
  free_of MySQL.space name = true ->
  MySQL.break_space (name ++ String MySQL.space rest) = (name, rest).
Proof.
  unfold free_of. induction name as [|c name IH]; simpl; [reflexivity|].
  intros H. apply andb_true_iff in H. destruct H as [Hc Hi].
  apply negb_true_iff in Hc. unfold MySQL.space in *.
  rewrite Hc, (IH Hi). reflexivity.
Qed.

Lemma lstrip_ident (name rest : string) :
  MySQL.identifier name = true ->
  MySQL.lstrip (name ++ rest) = (name ++ rest)%string.
Proof.
  unfold MySQL.identifier. destruct name as [|c name]; [discriminate|].
  simpl. intros H.
  destruct (Ascii.eqb_spec c MySQL.space) as [->|]; [discriminate|reflexivity].
Qed.

Lemma identifier_chars (name : string) :
  MySQL.identifier name = true ->
  MySQL.all_chars MySQL.ident_char name = true.
Proof.
  unfold MySQL.identifier. intros H.
  apply andb_true_iff in H. destruct H as [H _].
  apply andb_true_iff in H. destruct H as [H _].
  apply andb_true_iff in H. now destruct H.
Qed.

Lemma read_item (col : string) :
  MySQL.identifier col = true ->
  MySQL.read_column (item col) = Some (col, text_type)
  /\ MySQL.read_column (" " ++ item col) = Some (col, text_type).
Proof.
  intros I. pose proof (identifier_chars col I) as A.
  assert (R : MySQL.read_column (item col) = Some (col, text_type)).
  { unfold MySQL.read_column, item. rewrite (lstrip_ident col _ I).
    change (col ++ " " ++ text_type)%string
      with (col ++ String MySQL.space text_type)%string.
    rewrite break_space_spec by (now apply ident_free_of).
    now rewrite I. }
  split; [exact R|]. exact R.
Qed.

Lemma item_free_of_comma (col : string) :
  MySQL.identifier col = true -> free_of ","%char (item col) = true.
Proof.
  intros I. unfold item. rewrite free_of_append.
  rewrite (ident_free_of ","%char col eq_refl (identifier_chars col I)).
  reflexivity.
Qed.

Lemma read_all_cons (i : string) (rest : list string) :
  MySQL.read_all (i :: rest)
  = match MySQL.read_column i, MySQL.read_all rest with
    | Some c, Some cs => Some (c :: cs)
    | _, _ => None
    end.
Proof. reflexivity. Qed.

Lemma read_definition (pre : string) (col : string) (cols : list string) :
  pre = EmptyString \/ pre = " " ->
  Forall (fun c => MySQL.identifier c = true) (col :: cols) ->
  MySQL.read_all
    (PyStr.split ","%char
       (pre ++ PyStr.join ", " (map item (col :: cols))))
  = Some (map (fun c => (c, text_type)) (col :: cols)).
Proof.
  revert pre col. induction cols as [|c' cols IH]; intros pre col P F.
  - inversion F as [|? ? I _]; subst. simpl PyStr.join.
    assert (Fr : free_of ","%char (pre ++ item col) = true).
    { rewrite free_of_append, (item_free_of_comma col I).
      destruct P as [-> | ->]; reflexivity. }
    unfold PyStr.join. simpl String.concat.
    rewrite (split_last _ _ Fr). simpl.
    destruct (read_item col I) as [R1 R2].
    destruct P as [-> | ->]; simpl in *; [now rewrite R1 | now rewrite R2].
  - inversion F as [|? ? I F']; subst.
    assert (Fr : free_of ","%char (pre ++ item col) = true).
    { rewrite free_of_append, (item_free_of_comma col I).
      destruct P as [-> | ->]; reflexivity. }
    change (PyStr.join ", " (map item (col :: c' :: cols)))
      with (item col ++ String ","%char
              (" " ++ PyStr.join ", " (map item (c' :: cols))))%string.
    replace (pre ++ item col ++ String ","%char
               (" " ++ PyStr.join ", " (map item (c' :: cols))))%string
      with ((pre ++ item col) ++ String ","%char
              (" " ++ PyStr.join ", " (map item (c' :: cols))))%string.
    2:{ destruct P as [-> | ->]; simpl; [reflexivity|].
        f_equal. }
    rewrite (split_field _ _ _ Fr), read_all_cons.
    rewrite (IH " " c' (or_intror eq_refl) F').
    destruct (read_item col I) as [R1 R2].
    destruct P as [-> | ->]; [|now rewrite R2].
    change (EmptyString ++ item col)%string with (item col).
    now rewrite R1.
Qed.

End Columns.

(** C6, as stated, fails on a header cell that holds a separator: for the
    single column [a INT, b] the definition declares two columns, [a] of
    type [INT] and [b] of the text type.  The definition does not even
    determine the header: the columns [a VARCHAR(255), b] and the columns
    [a], [b] have the same. *)
Lemma columns_definition_counterexample :
  let df := {| columns := ["a INT, b"]; iterrows := [] |} in
  CSVToMySQLLoader.generate_columns_definition df = "a INT, b VARCHAR(255)"
  /\ MySQL.read_columns (CSVToMySQLLoader.generate_columns_definition df)
     = Some [("a", "INT"); ("b", "VARCHAR(255)")]
  /\ MySQL.read_columns (CSVToMySQLLoader.generate_columns_definition df)
     <> Some (map (fun c => (c, CSVToMySQLLoader.text_type)) (columns df))
  /\ CSVToMySQLLoader.generate_columns_definition
       {| columns := ["a VARCHAR(255), b"]; iterrows := [] |}
     = CSVToMySQLLoader.generate_columns_definition
         {| columns := ["a"; "b"]; iterrows := [] |}.
Proof. repeat split; try reflexivity. discriminate. Qed.

(** C6, amended.  For tabular data whose column names are unquoted
    identifiers of MySQL (not empty, made of letters, digits, [_] and [$]
    only, not read as a number, and not a reserved word), the column
    definition declares exactly the columns of the header, each with the
    text type [VARCHAR(255)], in the order of the header. *)
Theorem columns_definition_of_identifiers (df : DataFrame) :
  Forall (fun c => MySQL.identifier c = true) (columns df) ->
  MySQL.read_columns (CSVToMySQLLoader.generate_columns_definition df)
  = Some (map (fun c => (c, CSVToMySQLLoader.text_type)) (columns df)).
Proof.
  intros F. unfold CSVToMySQLLoader.generate_columns_definition.
  destruct (columns df) as [|col cols]; [reflexivity|].
  unfold MySQL.read_columns.
  replace (String.eqb _ EmptyString) with false.
  - exact (read_definition EmptyString col cols (or_introl eq_refl) F).
  - inversion F as [|? ? I _]; subst.
    destruct col as [|c col]; [discriminate I|].
    destruct cols; reflexivity.
Qed.

(** ** File discovery on a concrete folder *)

(** C3, at an input where the code and the claim part.  In a folder that
    holds [report.csv], [notescsv] and [readme.txt], [get_files] with the
    extension [csv] returns, in the order of the listing, the paths of
    [report.csv] and of [notescsv]: the test is [f.endswith('csv')],
    without the dot, and [notescsv] does not end with [.csv]. *)
Theorem get_files_matches_without_dot :
  result (get_files "data" "csv" listing)
  = Ret ["data/report.csv"; "data/notescsv"]
  /\ PyStr.endswith "notescsv" ".csv" = false
  /\ PyStr.endswith "notescsv" "csv" = true.
Proof. repeat split; reflexivity. Qed.

(** What holds of [get_files] on every input: it returns, never raises,
    leaves the environment alone, and gives the joined paths of the
    entries that end with the extension, in the order of the listing,
    or nothing when the folder does not exist or cannot be listed. *)
Lemma get_files_total (folder_path file_extension : string) (s : env) :
  result (get_files folder_path file_extension s)
  = Ret (found (fs s) folder_path file_extension)
  /\ final (get_files folder_path file_extension s) = s
  /\ (path_exists (fs s) folder_path = false ->
      found (fs s) folder_path file_extension = [])
  /\ (forall entries p,
        path_exists (fs s) folder_path = true ->
        listdir (fs s) folder_path = Ret entries ->
        (In p (found (fs s) folder_path file_extension) <->
         exists f, In f entries
                   /\ (exists stem, f = (stem ++ file_extension)%string)
                   /\ p = PyPath.join folder_path f)).
Proof.
  destruct (get_files_run folder_path file_extension s) as [lg E].
  rewrite E. split; [reflexivity|]. split; [reflexivity|]. split.
  - unfold found. now intros ->.
  - intros entries p X L. unfold found, matching. rewrite X, L.
    rewrite in_map_iff. split.
    + intros [f [<- H]]. apply filter_In in H. destruct H as [H1 H2].
      exists f. repeat split; auto. now apply endswith_iff.
    + intros [f [H1 [H2 ->]]]. exists f. split; [reflexivity|].
      apply filter_In. split; [exact H1|]. now apply endswith_iff.
Qed.

(** ** The end-to-end scenario *)

(** C1, as stated, fails: the stem [orders_202401] has 13 characters, so
    the name derived from it is [order], and after the run there is no
    table named [orders]. *)
Lemma scenario_counterexample :
  table_name "data/orders_202401.csv" = "order"
  /\ MySQL.lookup "orders" (MySQL.tables (mysql (final scenario_run))) = None
  /\ ~ scenario_claim scenario_run.
Proof.
  split; [reflexivity|]. split; [reflexivity|].
  intros [[t [L _]] _]. vm_compute in L. discriminate L.
Qed.

(** C1, amended.  In the scenario the loader returns without raising.
    The table name derived from [orders_202401.csv] is [order].  The file
    is read as two columns [id] and [amount] whose rows hold the numbers
    pandas parsed, [(1.0, 10.5)] and [(2.0, 20.0)].  The loader sends
    [CREATE TABLE IF NOT EXISTS order (id VARCHAR(255), amount
    VARCHAR(255));], which declares the two columns with the text type,
    and then the [INSERT] of the first row; the server rejects both
    statements, [order] being a reserved word, both errors are logged and
    nothing is committed, so that no table exists after the run.  Nothing
    is sent for the empty file [users_202401.csv], and the log records
    that it is empty. *)
Theorem end_to_end_scenario :
  result scenario_run = Ret tt
  /\ table_name "data/orders_202401.csv" = "order"
  /\ read_csv (fs scenario) "data/orders_202401.csv"
     = Ret {| columns := ["id"; "amount"];
              iterrows := [[SFloat 1 0; SFloat 105 1];
                           [SFloat 2 0; SFloat 20 0]] |}
  /\ MySQL.journal (mysql (final scenario_run))
     = [MySQL.ok MySQL.Connect;
        MySQL.ok MySQL.Cursor;
        (MySQL.Execute orders_create_text [], Some syntax_error);
        MySQL.ok MySQL.Cursor;
        (MySQL.Execute orders_insert_text [SFloat 1 0; SFloat 105 1],
         Some syntax_error);
        MySQL.ok MySQL.Close]
  /\ MySQL.read_columns "id VARCHAR(255), amount VARCHAR(255)"
     = Some [("id", "VARCHAR(255)"); ("amount", "VARCHAR(255)")]
  /\ MySQL.tables (mysql (final scenario_run)) = []
  /\ map log_level (logged scenario_run)
     = [INFO; INFO; INFO; ERROR; ERROR; ERROR; INFO]
  /\ nth_error (logged scenario_run) 2
     = Some (loaded_entry "data/orders_202401.csv")
  /\ nth_error (logged scenario_run) 5
     = Some (empty_entry "data/users_202401.csv").
Proof. repeat split; vm_compute; reflexivity. Qed.

(** Under such names the table [orders] is created with its two text
    columns, and its rows hold the text of the numbers pandas parsed, not
    the text of the file. *)
Example scenario_long_names_run :
  let r :=
    main "src/store_data.py" "data" None None None None scenario_long_names in
  result r = Ret tt
  /\ MySQL.tables (mysql (final r))
     = [("orders",
         {| MySQL.t_columns :=
              [("id", "VARCHAR(255)"); ("amount", "VARCHAR(255)")];
            MySQL.t_rows := [["1.0"; "10.5"]; ["2.0"; "20.0"]];
            MySQL.t_staged := [] |})]
  /\ In (empty_entry "data/users__202401.csv") (logged r).
Proof.
  repeat split; try (vm_compute; reflexivity).
  vm_compute. tauto.
Qed.

(** ** The theorems at concrete inputs *)

(** No fault is planned on [connected_server]. *)
Lemma connected_server_db_errors_only : db_errors_only connected_server.
Proof. intros k e H. discriminate H. Defined.

(** C7 for the table [orders] on a healthy server. *)
Lemma create_table_idempotent_witness :
  let cols := "id VARCHAR(255), amount VARCHAR(255)" in
  let r1 :=
    MySQLDatabaseManager.create_table open_manager "orders" cols batch_env in
  let r2 :=
    MySQLDatabaseManager.create_table open_manager "orders" cols (final r1) in
  healthy (mysql batch_env)
  /\ valid_table "orders" cols = true
  /\ result r1 = Ret tt /\ result r2 = Ret tt
  /\ logged r1 = [created_entry "orders"]
  /\ logged r2 = [created_entry "orders"]
  /\ MySQL.tables (mysql (final r2)) = MySQL.tables (mysql (final r1)).
Proof.
  intros cols.
  assert (H : healthy (mysql batch_env))
    by (split; [reflexivity | intros k; reflexivity]).
  assert (V : valid_table "orders" cols = true) by reflexivity.
  destruct (create_table_idempotent open_manager "orders" cols batch_env)
    as (R1 & R2 & _ & _ & I).
  - discriminate.
  - exact connected_server_db_errors_only.
  - destruct (I H V) as (L1 & L2 & T & _). repeat split; assumption.
Defined.

(** C8 for the two rows of [orders_df], once the table exists. *)
Lemma insert_data_transaction_witness :
  let s := final (MySQLDatabaseManager.create_table open_manager "orders"
                    "id VARCHAR(255), amount VARCHAR(255)" batch_env) in
  let r := MySQLDatabaseManager.insert_data open_manager "orders" orders_df s in
  let calls := insert_sequence "orders" orders_df in
  db_errors_only (mysql s)
  /\ result r = Ret tt
  /\ (MySQL.journal (mysql (final r))
      = MySQL.journal (mysql s) ++ map MySQL.ok calls
      /\ logged r = [inserted_entry "orders"]
      \/ exists k e,
           k < List.length calls
           /\ db_error e = true
           /\ MySQL.journal (mysql (final r))
              = MySQL.journal (mysql s) ++ cut_short calls k e
           /\ logged r = [insert_failed_entry "orders" e]).
Proof.
  intros s.
  assert (D : db_errors_only (mysql s)) by (intros k e H; discriminate H).
  split; [exact D|].
  apply (insert_data_transaction open_manager "orders" orders_df s);
    [discriminate | exact D].
Defined.

(** C9 on an open connection, and on a server that refuses the
    connection. *)
Lemma connection_lifecycle_witness :
  let s := batch_env in
  let refused := {| fs := fs batch_env; mysql := refusing_server |} in
  let r := MySQLDatabaseManager.close open_manager s in
  let m := main "src/store_data.py" "data" None None None None refused in
  result r = Ret tt
  /\ MySQL.connected (mysql (final r)) = false
  /\ MySQLDatabaseManager.close open_manager (final r) = (Ret tt, final r, [])
  /\ result m = Ret tt
  /\ MySQL.journal (mysql (final m))
     = [(MySQL.Connect,
         Some (Exn.Build Exn.InterfaceError
                 "2003: Can't connect to MySQL server"))].
Proof.
  intros s refused.
  destruct (connection_lifecycle open_manager s "src/store_data.py" "data"
              None None None None)
    as (_ & Twice & Open & _).
  destruct (connection_lifecycle open_manager refused "src/store_data.py"
              "data" None None None None)
    as (_ & _ & _ & Refused).
  destruct Open as (R & C & _ & _);
    [discriminate | reflexivity | reflexivity |].
  destruct (Refused (Exn.Build Exn.InterfaceError
                       "2003: Can't connect to MySQL server"))
    as (_ & _ & M & J & _); [reflexivity | reflexivity |].
  split; [exact R|]. split; [exact C|]. split; [exact (Twice R)|].
  split; [exact M | exact J].
Defined.

(** C2, amended, for [orders__202401.csv] and a batch of two files. *)
Lemma table_name_deterministic_witness :
  (exists removed,
     PyPath.stem "data/orders__202401.csv"
     = (table_name "data/orders__202401.csv" ++ removed)%string
     /\ String.length removed = 8)
  /\ CSVToMySQLLoader.load_one open_manager "data/orders__202401.csv" batch_env
     = (logger INFO (log_message (loaded_entry "data/orders__202401.csv")) ;;
        MySQLDatabaseManager.create_table open_manager "orders"
          "id VARCHAR(255), amount VARCHAR(255)" ;;
        MySQLDatabaseManager.insert_data open_manager "orders" orders_df)
         batch_env
  /\ Permutation
       (map table_name ["data/orders__202401.csv"; "data/users__202401.csv"])
       (map table_name ["data/users__202401.csv"; "data/orders__202401.csv"]).
Proof.
  destruct (table_name_deterministic "data/orders__202401.csv")
    as (S & L & _).
  destruct (table_name_deterministic "data/users__202401.csv")
    as (_ & _ & P).
  split; [exact S|]. split.
  - exact (L open_manager batch_env orders_df eq_refl).
  - apply P. apply perm_swap.
Defined.


(** C6, amended, for the header [id], [amount]. *)
Lemma columns_definition_of_identifiers_witness :
  Forall (fun c => MySQL.identifier c = true) (columns orders_df)
  /\ MySQL.read_columns
       (CSVToMySQLLoader.generate_columns_definition orders_df)
     = Some [("id", "VARCHAR(255)"); ("amount", "VARCHAR(255)")].
Proof.
  assert (F : Forall (fun c => MySQL.identifier c = true) (columns orders_df))
    by (repeat constructor).
  split; [exact F|].
  exact (columns_definition_of_identifiers orders_df F).
Defined.

(* ===================================================================== *)
(** * More of the loader *)
(* ===================================================================== *)

(** ** Paths, stems and table names *)

Section Paths.

Import PyStr.

Lemma split_never_empty (sep : ascii) (s : string) :
  exists f fs, split sep s = f :: fs.
Proof.
  induction s as [|c s [f [fs IH]]]; simpl; [eauto|].
  destruct (Ascii.eqb c sep); [eauto|]. rewrite IH. eauto.
Qed.

Lemma split_append (sep : ascii) (a b : string) :
  split sep (a ++ String sep b) = split sep a ++ split sep b.
Proof.
  induction a as [|c a IH]; simpl.
  - now rewrite Ascii.eqb_refl.
  - destruct (Ascii.eqb c sep); [now rewrite IH|].
    rewrite IH. destruct (split_never_empty sep a) as (f & fs & ->).
    reflexivity.
Qed.

Lemma append_assoc (a b c : string) :
  ((a ++ b) ++ c)%string = (a ++ b ++ c)%string.
Proof. induction a as [|x a IH]; simpl; congruence. Qed.

Lemma rfind_free (c : ascii) (s : string) :
  free_of c s = true -> rfind c s = None.
Proof.
  unfold free_of. induction s as [|a s IH]; simpl; [reflexivity|].
  intros H. apply andb_true_iff in H. destruct H as [Ha Hs].
  apply negb_true_iff in Ha. now rewrite (IH Hs), Ha.
Qed.

(** The last occurrence of [c] in [base ++ c ++ ext], when [ext] holds
    none. *)
Lemma rfind_last (c : ascii) (base ext : string) :
  free_of c ext = true ->
  rfind c (base ++ String c ext) = Some (String.length base).
Proof.
  intros H. induction base as [|a base IH]; simpl.
  - now rewrite (rfind_free c ext H), Ascii.eqb_refl.
  - now rewrite IH.
Qed.

Lemma take_append (a b : string) : take (String.length a) (a ++ b) = a.
Proof. induction a as [|x a IH]; simpl; [now destruct b | now rewrite IH]. Qed.

(** [s[:-k]] undoes the appending of [k] characters. *)
Lemma slice_to_neg_append (k : nat) (p a : string) :
  String.length a = k -> slice_to_neg k (p ++ a) = p.
Proof.
  intros <-. unfold slice_to_neg. rewrite length_append.
  replace (String.length p + String.length a - String.length a)
    with (String.length p) by lia.
  apply take_append.
Qed.

Lemma startswith_slash (f : string) :
  free_of "/"%char f = true -> startswith f "/" = false.
Proof.
  unfold startswith, free_of. destruct f as [|c f]; [reflexivity|].
  cbn [MySQL.all_chars String.prefix]. intros H.
  apply andb_true_iff in H. destruct H as [H _].
  apply negb_true_iff in H.
  destruct (ascii_dec "/"%char c) as [<-|N]; [discriminate H|reflexivity].
Qed.

(** The parts of a path that ends with an entry name end with it. *)
Lemma parts_entry (pre f : string) :
  entry_name f = true ->
  PyPath.parts (pre ++ String "/"%char f)
  = PyPath.parts pre ++ [f].
Proof.
  unfold entry_name. intros H.
  apply andb_true_iff in H. destruct H as [H F].
  apply andb_true_iff in H. destruct H as [E D].
  apply negb_true_iff in E, D.
  unfold PyPath.parts, PyPath.slash.
  rewrite split_append, filter_app, (split_last _ _ F).
  cbn [filter]. now rewrite E, D.
Qed.

Lemma parts_entry_alone (f : string) :
  entry_name f = true -> PyPath.parts f = [f].
Proof.
  unfold entry_name. intros H.
  apply andb_true_iff in H. destruct H as [H F].
  apply andb_true_iff in H. destruct H as [E D].
  apply negb_true_iff in E, D.
  unfold PyPath.parts, PyPath.slash. rewrite (split_last _ _ F).
  cbn [filter]. now rewrite E, D.
Qed.

(** [Path(os.path.join(folder, f)).name] is [f]. *)
Lemma name_join (folder f : string) :
  entry_name f = true -> PyPath.name (PyPath.join folder f) = f.
Proof.
  intros H. pose proof H as H'. unfold entry_name in H'.
  apply andb_true_iff in H'. destruct H' as [_ F].
  unfold PyPath.join, PyPath.name. rewrite (startswith_slash f F).
  destruct (String.eqb_spec folder EmptyString) as [->|N]; simpl.
  - now rewrite (parts_entry_alone f H).
  - destruct (endswith folder "/") eqn:S.
    + apply endswith_iff in S. destruct S as [p ->].
      rewrite append_assoc. simpl.
      rewrite (parts_entry p f H). apply last_last.
    + change (folder ++ "/" ++ f)%string
        with (folder ++ String "/"%char f)%string.
      rewrite (parts_entry folder f H). apply last_last.
Qed.

Lemma name_alone (f : string) : entry_name f = true -> PyPath.name f = f.
Proof.
  intros H. unfold PyPath.name. now rewrite (parts_entry_alone f H).
Qed.

(** The stem of a name [base.ext]. *)
Lemma stem_of_name (p base ext : string) :
  PyPath.name p = (base ++ String "."%char ext)%string ->
  base <> EmptyString -> ext <> EmptyString ->
  free_of "."%char ext = true ->
  PyPath.stem p = base.
Proof.
  intros N B E F. unfold PyPath.stem, PyPath.dot. rewrite N.
  rewrite (rfind_last _ base ext F), length_append. simpl String.length.
  assert (0 < String.length base) by (destruct base; [congruence|simpl; lia]).
  assert (0 < String.length ext) by (destruct ext; [congruence|simpl; lia]).
  replace (Nat.ltb 0 (String.length base)) with true
    by (symmetry; apply Nat.ltb_lt; lia).
  replace (Nat.ltb (String.length base)
             (String.length base + S (String.length ext) - 1)) with true
    by (symmetry; apply Nat.ltb_lt; lia).
  simpl. apply take_append.
Qed.

End Paths.

(** X1.  The folder a file was found in has no part in its table name:
    for an entry name [f] of a folder, the table name of
    [os.path.join(folder, f)] is the table name of [f], whatever the
    folder path is (dots and slashes included). *)
Theorem table_name_ignores_folder (folder f : string) :
  entry_name f = true ->
  table_name (PyPath.join folder f) = table_name f.
Proof.
  intros H. unfold table_name, PyPath.stem.
  now rewrite (name_join folder f H), (name_alone f H).
Qed.

(** X2.  A file named [<table><8 characters>.<ext>], in any folder, is
    loaded into the table [<table>]: the extension after the last dot and
    the 8 characters before it are stripped, and nothing else. *)
Theorem table_name_of_file (folder table suffix ext : string) :
  String.length suffix = 8 ->
  ext <> EmptyString -> free_of "."%char ext = true ->
  free_of "/"%char (table ++ suffix ++ "." ++ ext) = true ->
  table_name (PyPath.join folder (table ++ suffix ++ "." ++ ext)) = table.
Proof.
  intros L E D F.
  assert (B : (table ++ suffix)%string <> EmptyString).
  { intros Z. apply (f_equal String.length) in Z.
    rewrite length_append, L in Z. simpl in Z. lia. }
  assert (N : entry_name (table ++ suffix ++ "." ++ ext) = true).
  { unfold entry_name. rewrite F, andb_true_r.
    assert (Len : 9 <= String.length (table ++ suffix ++ "." ++ ext)).
    { rewrite !length_append, L. simpl. lia. }
    destruct (table ++ suffix ++ "." ++ ext)%string as [|a [|b r]];
      simpl in Len; try lia.
    simpl. now destruct (Ascii.eqb a "."%char). }
  unfold table_name.
  rewrite (stem_of_name _ (table ++ suffix) ext); auto.
  - now apply slice_to_neg_append.
  - rewrite (name_join folder _ N). now rewrite append_assoc.
Qed.

Lemma all_chars_append (f : ascii -> bool) (a b : string) :
  MySQL.all_chars f (a ++ b) = MySQL.all_chars f a && MySQL.all_chars f b.
Proof.
  induction a as [|c a IH]; simpl; [reflexivity|].
  now rewrite IH, andb_assoc.
Qed.

(** X4.  [configure_logging] makes the folder [logs/logs_data] and then
    adds a sink named after the script: for a script whose name is
    [<base>.<ext>], with a base without braces, the path it hands to
    [logger.add] is [logs/logs_data/<base>.log], whatever the folder of
    the script, and that path is the file loguru opens.  It raises what
    either step raises, the sink not being added when the folder cannot
    be made, it changes nothing else and it logs nothing. *)
Theorem log_file_of_script (file base ext : string) (s : env) :
  PyPath.name file = (base ++ "." ++ ext)%string ->
  base <> EmptyString -> free_of "/"%char base = true ->
  MySQL.all_chars Loguru.plain_char base = true ->
  ext <> EmptyString -> free_of "."%char ext = true ->
  let path := ("logs/logs_data/" ++ base ++ ".log")%string in
  log_file file = path
  /\ Loguru.sink_file (log_file file) = Some path
  /\ configure_logging file s
     = (match mkdir (fs s) "logs/logs_data" with
        | Ret _ => add_sink (fs s) path
        | Raise e => Raise e
        end, s, []).
Proof.
  intros N B S P E D. cbv zeta.
  assert (L : log_file file = ("logs/logs_data/" ++ base ++ ".log")%string).
  { unfold log_file. rewrite (stem_of_name file base ext N B E D).
    unfold PyPath.join.
    rewrite startswith_slash
      by (rewrite free_of_append, S; reflexivity).
    reflexivity. }
  split; [exact L|]. split.
  - rewrite L. unfold Loguru.sink_file.
    now rewrite !all_chars_append, P.
  - rewrite configure_logging_run. unfold logging. now rewrite L.
Qed.

(** ** Placeholders *)

Lemma count_placeholders_repeat (n : nat) :
  MySQL.count_placeholders
    (PyStr.join ", " (PyStr.repeat_list "%s" (S n))) = S n.
Proof.
  induction n as [|n IH]; [reflexivity|].
  change (PyStr.join ", " (PyStr.repeat_list "%s" (S (S n))))
    with ("%s, " ++ PyStr.join ", " (PyStr.repeat_list "%s" (S n)))%string.
  revert IH. generalize (PyStr.join ", " (PyStr.repeat_list "%s" (S n))).
  intros rest IH. simpl. now rewrite IH.
Qed.

(** X5.  The [INSERT] statement of [insert_data] holds one [%s] marker
    for each column of the data, whatever their number. *)
Theorem placeholders_per_column (data : DataFrame) :
  MySQL.count_placeholders (MySQLDatabaseManager.placeholders data)
  = List.length (columns data).
Proof.
  unfold MySQLDatabaseManager.placeholders.
  destruct (List.length (columns data)) as [|n]; [reflexivity|].
  apply count_placeholders_repeat.
Qed.

(** ** What the loader keeps *)

Section Keeps.

Variable R : MySQL.server -> MySQL.server -> Prop.
Hypothesis R_refl : forall sv, R sv sv.
Hypothesis R_trans : forall a b c, R a b -> R b c -> R a c.

Lemma keeps_ret {A} (a : A) : keeps R (ret a).
Proof. intros s. cbn. auto. Qed.

Lemma keeps_raise {A} (e : exn) : keeps R (@raise A e).
Proof. intros s. cbn. auto. Qed.

Lemma keeps_logger (l : level) (m : string) : keeps R (logger l m).
Proof. intros s. cbn. auto. Qed.

Lemma keeps_read (file_path : string) :
  keeps R (CSVToMySQLLoader.pd_read_csv file_path).
Proof. intros s. cbn. auto. Qed.

Lemma keeps_bind {A B} (m : M A) (k : A -> M B) :
  keeps R m -> (forall a, keeps R (k a)) -> keeps R (bind m k).
Proof.
  intros Hm Hk s. specialize (Hm s). unfold bind.
  run_of m s; [|exact Hm].
  specialize (Hk a s0). destruct Hm as (F1 & R1).
  run_of (k a) s0; destruct Hk as (F2 & R2); split; try congruence;
    eapply R_trans; eauto.
Qed.

Lemma keeps_for_each {A} (xs : list A) (body : A -> M unit) :
  (forall x, keeps R (body x)) -> keeps R (for_each xs body).
Proof.
  intros H. induction xs as [|x xs IH]; simpl.
  - apply keeps_ret.
  - apply keeps_bind; auto.
Qed.

Lemma keeps_try_except {A} (body : M A)
    (cl : list (Exn.cls * (exn -> M A))) :
  keeps R body -> Forall (fun c => forall e, keeps R (snd c e)) cl ->
  keeps R (try_except body cl).
Proof.
  intros Hb Hc s. specialize (Hb s). unfold try_except.
  run_of body s; [exact Hb|].
  destruct (handler_for e cl) as [h|] eqn:Hh; [|exact Hb].
  assert (Ht : keeps R h).
  { clear - Hc Hh. induction Hc as [|[c f] cl Hf _ IH]; simpl in Hh;
      [discriminate|].
    destruct (Exn.isinstance e c); [injection Hh as <-; apply Hf | auto]. }
  specialize (Ht s0). destruct Hb as (F1 & R1).
  run_of h s0; destruct Ht as (F2 & R2); split; try congruence;
    eapply R_trans; eauto.
Qed.

Lemma keeps_driver {A} (f : MySQL.server -> outcome A * MySQL.server) :
  (forall sv, R sv (snd (f sv))) -> keeps R (driver f).
Proof.
  intros H s. unfold driver, final. specialize (H (mysql s)).
  destruct (f (mysql s)) as [r sv]. simpl in *. auto.
Qed.

Lemma keeps_on_connection {A} (self : MySQLDatabaseManager.t)
    (method : string) (f : MySQL.server -> outcome A * MySQL.server) :
  (forall sv, R sv (snd (f sv))) ->
  keeps R (MySQLDatabaseManager.on_connection self method f).
Proof.
  intros H. unfold MySQLDatabaseManager.on_connection.
  destruct (MySQLDatabaseManager.connection self);
    [now apply keeps_driver | apply keeps_raise].
Qed.

Hypothesis R_cursor : forall sv, R sv (snd (MySQL.cursor sv)).
Hypothesis R_execute : forall q p sv, R sv (snd (MySQL.execute q p sv)).
Hypothesis R_commit : forall sv, R sv (snd (MySQL.commit sv)).
Hypothesis R_cursor_close : forall sv, R sv (snd (MySQL.cursor_close sv)).

Ltac keeps_steps :=
  repeat first
    [ apply keeps_bind; [|intros ?]
    | apply keeps_for_each; intros ?
    | apply keeps_on_connection
    | apply keeps_driver
    | apply keeps_logger
    | apply keeps_ret
    | apply keeps_read
    | apply R_cursor | apply R_execute | apply R_commit
    | apply R_cursor_close ].

Ltac keeps_clauses :=
  repeat (apply Forall_cons; [intros ?; simpl; keeps_steps|]);
  apply Forall_nil.

Lemma keeps_load_csv (file_path : string) :
  keeps R (CSVToMySQLLoader.load_csv file_path).
Proof.
  unfold CSVToMySQLLoader.load_csv.
  apply keeps_try_except; [keeps_steps | keeps_clauses].
Qed.

Lemma keeps_create_table (self : MySQLDatabaseManager.t)
    (name cols : string) :
  keeps R (MySQLDatabaseManager.create_table self name cols).
Proof.
  unfold MySQLDatabaseManager.create_table.
  apply keeps_try_except; [keeps_steps | keeps_clauses].
Qed.

Lemma keeps_insert_data (self : MySQLDatabaseManager.t) (name : string)
    (df : DataFrame) :
  keeps R (MySQLDatabaseManager.insert_data self name df).
Proof.
  unfold MySQLDatabaseManager.insert_data.
  apply keeps_try_except; [keeps_steps | keeps_clauses].
Qed.

Lemma keeps_load_csv_to_db (self : CSVToMySQLLoader.t) :
  keeps R (CSVToMySQLLoader.load_csv_to_db self).
Proof.
  unfold CSVToMySQLLoader.load_csv_to_db, CSVToMySQLLoader.load_one.
  apply keeps_for_each. intros f. apply keeps_bind.
  - apply keeps_load_csv.
  - intros [df|]; [|apply keeps_ret].
    apply keeps_bind; [apply keeps_create_table|].
    intros _. apply keeps_insert_data.
Qed.

End Keeps.

(** *** The connection is neither opened nor closed *)

Lemma only_table_calls_refl (sv : MySQL.server) : only_table_calls sv sv.
Proof.
  repeat split. exists []. split; [now rewrite app_nil_r | constructor].
Qed.

Lemma only_table_calls_trans (a b c : MySQL.server) :
  only_table_calls a b -> only_table_calls b c -> only_table_calls a c.
Proof.
  intros (C1 & F1 & n1 & J1 & T1) (C2 & F2 & n2 & J2 & T2).
  repeat split; try congruence.
  exists (n1 ++ n2). split.
  - now rewrite J2, J1, app_assoc.
  - apply Forall_app. auto.
Qed.

Lemma connected_execute_statement (q : MySQL.statement)
    (params : list scalar) (sv : MySQL.server) :
  MySQL.connected (snd (MySQL.execute_statement q params sv))
  = MySQL.connected sv.
Proof.
  unfold MySQL.execute_statement.
  repeat match goal with
         | |- context [if ?b then _ else _] => destruct b
         | |- context [match ?x with _ => _ end] => destruct x
         end; reflexivity.
Qed.

Lemma only_table_calls_driver_call {A} (c : MySQL.call)
    (work : MySQL.server -> outcome A * MySQL.server) (sv : MySQL.server) :
  table_call (MySQL.ok c) -> db_work work ->
  (forall sv, MySQL.connected (snd (work sv)) = MySQL.connected sv) ->
  only_table_calls sv (snd (MySQL.driver_call c work sv)).
Proof.
  intros T W C. unfold MySQL.driver_call.
  destruct (MySQL.faults sv (List.length (MySQL.journal sv))) as [e|].
  - repeat split. exists [(c, Some e)]. split; [reflexivity|].
    constructor; [exact T | constructor].
  - specialize (W sv). specialize (C sv).
    destruct (work sv) as [r sv']. simpl in *.
    destruct W as (F & J & _). repeat split; auto.
    exists [(c, failure r)]. split; [simpl; now rewrite J|].
    constructor; [exact T | constructor].
Qed.

Lemma only_table_calls_cursor (sv : MySQL.server) :
  only_table_calls sv (snd (MySQL.cursor sv)).
Proof.
  apply only_table_calls_driver_call; [exact I | apply db_work_cursor |].
  intros sv'. destruct (MySQL.connected sv') eqn:C; exact C.
Qed.

Lemma only_table_calls_execute (q : MySQL.statement) (p : list scalar)
    (sv : MySQL.server) :
  only_table_calls sv (snd (MySQL.execute q p sv)).
Proof.
  apply only_table_calls_driver_call; [exact I | apply db_work_execute |].
  intros sv'. destruct (MySQL.connected sv') eqn:C; [|exact C].
  now rewrite connected_execute_statement.
Qed.

Lemma only_table_calls_commit (sv : MySQL.server) :
  only_table_calls sv (snd (MySQL.commit sv)).
Proof.
  apply only_table_calls_driver_call; [exact I | apply db_work_commit |].
  intros sv'. destruct (MySQL.connected sv') eqn:C; exact C.
Qed.

Lemma only_table_calls_cursor_close (sv : MySQL.server) :
  only_table_calls sv (snd (MySQL.cursor_close sv)).
Proof.
  apply only_table_calls_driver_call;
    [exact I | apply db_work_cursor_close | reflexivity].
Qed.

(** X6.  Whatever the manager, the files and the environment,
    [load_csv_to_db] leaves the file system alone and neither opens nor
    closes the connection: the calls it makes on the driver are cursor,
    execute, commit and cursor-close calls only, and the connection is
    connected afterwards exactly if it was before. *)
Theorem load_csv_to_db_only_table_calls
    (self : CSVToMySQLLoader.t) (s : env) :
  let r := CSVToMySQLLoader.load_csv_to_db self s in
  fs (final r) = fs s
  /\ MySQL.connected (mysql (final r)) = MySQL.connected (mysql s)
  /\ exists new,
       MySQL.journal (mysql (final r)) = MySQL.journal (mysql s) ++ new
       /\ Forall table_call new.
Proof.
  destruct (keeps_load_csv_to_db only_table_calls
              only_table_calls_refl only_table_calls_trans
              only_table_calls_cursor only_table_calls_execute
              only_table_calls_commit only_table_calls_cursor_close self s)
    as (F & C & _ & J).
  cbv zeta. auto.
Qed.

(** *** No table and no committed row is lost *)

Lemma kept_refl (t : MySQL.table) : kept t t.
Proof. split; [reflexivity|]. exists []. now rewrite app_nil_r. Qed.

Lemma kept_trans (a b c : MySQL.table) : kept a b -> kept b c -> kept a c.
Proof.
  intros (C1 & m1 & R1) (C2 & m2 & R2). split; [congruence|].
  exists (m1 ++ m2). now rewrite R2, R1, app_assoc.
Qed.

Lemma loses_nothing_refl (sv : MySQL.server) : loses_nothing sv sv.
Proof. intros name t L. exists t. split; [assumption | apply kept_refl]. Qed.

Lemma loses_nothing_trans (a b c : MySQL.server) :
  loses_nothing a b -> loses_nothing b c -> loses_nothing a c.
Proof.
  intros H1 H2 name t L.
  destruct (H1 name t L) as (t1 & L1 & K1).
  destruct (H2 name t1 L1) as (t2 & L2 & K2).
  exists t2. split; [assumption | eapply kept_trans; eauto].
Qed.

Lemma lookup_app_some (name : string) (t : MySQL.table)
    (ts more : list (string * MySQL.table)) :
  MySQL.lookup name ts = Some t -> MySQL.lookup name (ts ++ more) = Some t.
Proof.
  induction ts as [|[n t'] ts IH]; simpl; [discriminate|].
  destruct (String.eqb n name); auto.
Qed.

Lemma lookup_update (name n : string) (t' : MySQL.table)
    (ts : list (string * MySQL.table)) :
  MySQL.lookup name (MySQL.update n t' ts)
  = if String.eqb n name
    then match MySQL.lookup name ts with
         | Some _ => Some t'
         | None => None
         end
    else MySQL.lookup name ts.
Proof.
  induction ts as [|[m t0] ts IH]; simpl; [now destruct (String.eqb n name)|].
  destruct (String.eqb_spec m n) as [->|Nmn]; simpl.
  - destruct (String.eqb n name); reflexivity.
  - rewrite IH. destruct (String.eqb_spec m name) as [->|Nm].
    + destruct (String.eqb_spec n name); [congruence|reflexivity].
    + reflexivity.
Qed.

Lemma kept_commit (name : string) (t : MySQL.table) :
  kept t (snd (MySQL.commit_table (name, t))).
Proof. split; [reflexivity|]. simpl. eauto. Qed.

Lemma loses_nothing_tables (sv : MySQL.server)
    (ts : list (string * MySQL.table)) :
  (forall name t,
     MySQL.lookup name (MySQL.tables sv) = Some t ->
     exists t', MySQL.lookup name ts = Some t' /\ kept t t') ->
  loses_nothing sv (MySQL.with_tables ts sv).
Proof. intros H. exact H. Qed.

Lemma loses_nothing_committed (sv : MySQL.server)
    (more : list (string * MySQL.table)) :
  loses_nothing sv
    (MySQL.with_tables (map MySQL.commit_table (MySQL.tables sv) ++ more) sv).
Proof.
  apply loses_nothing_tables. intros name t L.
  exists (snd (MySQL.commit_table (name, t))). split; [|apply kept_commit].
  apply lookup_app_some. now rewrite lookup_commit, L.
Qed.

Lemma loses_nothing_execute_statement (q : MySQL.statement)
    (params : list scalar) (sv : MySQL.server) :
  loses_nothing sv (snd (MySQL.execute_statement q params sv)).
Proof.
  destruct q as [name cols | name marks]; simpl.
  - destruct (negb (MySQL.identifier name)); [apply loses_nothing_refl|].
    destruct (MySQL.read_columns cols) as [[|c cs]|];
      try apply loses_nothing_refl.
    destruct (negb (MySQL.no_dup (map fst (c :: cs))));
      [apply loses_nothing_refl|].
    destruct (MySQL.lookup name (MySQL.tables sv)); simpl.
    + rewrite <- (app_nil_r (map _ _)). apply loses_nothing_committed.
    + apply loses_nothing_committed.
  - destruct (negb (Nat.eqb _ _)); [apply loses_nothing_refl|].
    destruct (negb (MySQL.identifier name)); [apply loses_nothing_refl|].
    destruct (MySQL.lookup name (MySQL.tables sv)) as [t|] eqn:L;
      [|apply loses_nothing_refl].
    destruct (negb (Nat.eqb _ _)); [apply loses_nothing_refl|].
    destruct (MySQL.literals params) as [texts|]; [|apply loses_nothing_refl].
    destruct (MySQL.any_too_long _ _); [apply loses_nothing_refl|].
    simpl. apply loses_nothing_tables. intros n t0 L0.
    rewrite lookup_update, L0.
    destruct (String.eqb_spec name n) as [->|N].
    + exists (MySQL.stage texts t). split; [reflexivity|].
      rewrite L in L0. injection L0 as <-.
      split; [reflexivity|]. exists []. now rewrite app_nil_r.
    + exists t0. split; [reflexivity | apply kept_refl].
Qed.

Lemma loses_nothing_driver_call {A} (c : MySQL.call)
    (work : MySQL.server -> outcome A * MySQL.server) (sv : MySQL.server) :
  (forall sv, loses_nothing sv (snd (work sv))) ->
  loses_nothing sv (snd (MySQL.driver_call c work sv)).
Proof.
  intros W. unfold MySQL.driver_call.
  destruct (MySQL.faults sv (List.length (MySQL.journal sv)));
    [exact (loses_nothing_refl sv)|].
  specialize (W sv). destruct (work sv) as [r sv']. exact W.
Qed.

Lemma loses_nothing_cursor (sv : MySQL.server) :
  loses_nothing sv (snd (MySQL.cursor sv)).
Proof.
  apply loses_nothing_driver_call. intros sv'.
  destruct (MySQL.connected sv'); apply loses_nothing_refl.
Qed.

Lemma loses_nothing_execute (q : MySQL.statement) (p : list scalar)
    (sv : MySQL.server) :
  loses_nothing sv (snd (MySQL.execute q p sv)).
Proof.
  apply loses_nothing_driver_call. intros sv'.
  destruct (MySQL.connected sv');
    [apply loses_nothing_execute_statement | apply loses_nothing_refl].
Qed.

Lemma loses_nothing_commit (sv : MySQL.server) :
  loses_nothing sv (snd (MySQL.commit sv)).
Proof.
  apply loses_nothing_driver_call. intros sv'.
  destruct (MySQL.connected sv'); [|apply loses_nothing_refl].
  simpl. rewrite <- (app_nil_r (map _ _)). apply loses_nothing_committed.
Qed.

Lemma loses_nothing_cursor_close (sv : MySQL.server) :
  loses_nothing sv (snd (MySQL.cursor_close sv)).
Proof.
  apply loses_nothing_driver_call. intros sv'. apply loses_nothing_refl.
Qed.

(** X7.  For files whose table names and column names are made of the
    characters of identifiers only, so that the unquoted names spell
    nothing else in the statements, [load_csv_to_db] never drops or
    redefines a table and never deletes or changes a committed row: a
    table that exists before the run exists after it, with the same
    columns and with its committed rows, in order, at the head of its
    rows.  This holds for every manager and every environment, failures
    included. *)
Theorem load_csv_to_db_loses_nothing
    (self : CSVToMySQLLoader.t) (s : env) (name : string) (t : MySQL.table) :
  forallb (plain_file (fs s)) (CSVToMySQLLoader.csv_files self) = true ->
  MySQL.lookup name (MySQL.tables (mysql s)) = Some t ->
  exists t',
    MySQL.lookup name
      (MySQL.tables (mysql (final (CSVToMySQLLoader.load_csv_to_db self s))))
    = Some t'
    /\ MySQL.t_columns t' = MySQL.t_columns t
    /\ exists more, MySQL.t_rows t' = MySQL.t_rows t ++ more.
Proof.
  intros _ L.
  destruct (keeps_load_csv_to_db loses_nothing
              loses_nothing_refl loses_nothing_trans
              loses_nothing_cursor loses_nothing_execute
              loses_nothing_commit loses_nothing_cursor_close self s)
    as (_ & H).
  destruct (H name t L) as (t' & L' & K). exists t'. split; [exact L'|].
  exact K.
Qed.

(** ** More of [create_table], [insert_data] and [load_csv_to_db] *)

(** X8.  On a manager that holds a connection, [create_table] makes its
    calls in one fixed order: the cursor, the [CREATE TABLE IF NOT
    EXISTS] statement, the closing of the cursor.  When a call fails with
    a database error no call is made after it, so a cursor whose
    statement failed is never closed; the error is logged and
    [create_table] returns. *)
Theorem create_table_calls
    (self : MySQLDatabaseManager.t) (table_name columns : string) (s : env) :
  MySQLDatabaseManager.connection self <> None ->
  db_errors_only (mysql s) ->
  let r := MySQLDatabaseManager.create_table self table_name columns s in
  let calls := create_sequence table_name columns in
  result r = Ret tt
  /\ (MySQL.journal (mysql (final r))
      = MySQL.journal (mysql s) ++ map MySQL.ok calls
      /\ logged r = [created_entry table_name]
      \/ exists k e,
           k < 3 /\ db_error e = true
           /\ MySQL.journal (mysql (final r))
              = MySQL.journal (mysql s) ++ cut_short calls k e
           /\ logged r = [create_failed_entry table_name e]).
Proof.
  intros C D.
  assert (Run :
    exists s' lg,
      MySQLDatabaseManager.create_table self table_name columns s
      = (Ret tt, s', lg)
      /\ (MySQL.journal (mysql s')
          = MySQL.journal (mysql s)
            ++ map MySQL.ok (create_sequence table_name columns)
          /\ lg = [created_entry table_name]
          \/ exists k e,
               k < 3 /\ db_error e = true
               /\ MySQL.journal (mysql s')
                  = MySQL.journal (mysql s)
                    ++ cut_short (create_sequence table_name columns) k e
               /\ lg = [create_failed_entry table_name e])).
  { unfold MySQLDatabaseManager.create_table.
    rewrite (on_connection_some self _ _ C), try_except_db.
    unfold bind at 1.
    destruct (driver_step MySQL.Cursor _ s db_work_cursor D)
      as (r1 & s1 & E1 & S1).
    unfold MySQL.cursor at 1. rewrite E1.
    pose proof (step_journal _ _ _ _ S1) as J1. simpl in J1.
    destruct r1 as [[]|e].
    2:{ rewrite (step_errors _ _ _ _ S1 e eq_refl).
        eexists _, _. split; [reflexivity|].
        right. exists 0, e. split; [lia|].
        split; [exact (step_errors _ _ _ _ S1 e eq_refl)|].
        split; [exact J1 | reflexivity]. }
    pose proof (step_db_errors _ _ _ _ S1 D) as D1.
    unfold bind at 1.
    destruct (driver_step
                (MySQL.Execute (create_text table_name columns) []) _ s1
                (db_work_execute
                   (MySQLDatabaseManager.create_table_query
                      table_name columns) []) D1)
      as (r2 & s2 & E2 & S2).
    unfold MySQL.execute at 1. unfold create_text in E2. rewrite E2.
    pose proof (step_journal _ _ _ _ S2) as J2. simpl in J2.
    destruct r2 as [[]|e].
    2:{ rewrite (step_errors _ _ _ _ S2 e eq_refl).
        eexists _, _. split; [reflexivity|].
        right. exists 1, e. split; [lia|].
        split; [exact (step_errors _ _ _ _ S2 e eq_refl)|].
        split; [|reflexivity].
        rewrite J2, J1, <- app_assoc. reflexivity. }
    pose proof (step_db_errors _ _ _ _ S2 D1) as D2.
    unfold bind at 1.
    destruct (driver_step MySQL.CursorClose _ s2 db_work_cursor_close D2)
      as (r3 & s3 & E3 & S3).
    unfold MySQL.cursor_close at 1. rewrite E3.
    pose proof (step_journal _ _ _ _ S3) as J3. simpl in J3.
    destruct r3 as [[]|e].
    - eexists _, _. split; [reflexivity|]. left. split; [|reflexivity].
      rewrite J3, J2, J1, <- !app_assoc. reflexivity.
    - rewrite (step_errors _ _ _ _ S3 e eq_refl).
      eexists _, _. split; [reflexivity|].
      right. exists 2, e. split; [lia|].
      split; [exact (step_errors _ _ _ _ S3 e eq_refl)|].
      split; [|reflexivity].
      rewrite J3, J2, J1, <- !app_assoc. reflexivity. }
  destruct Run as (s' & lg & E & H).
  cbv zeta. rewrite E. split; [reflexivity | exact H].
Qed.

(** X9.  On a manager whose [connection] is [None], [create_table] and
    [insert_data] raise [AttributeError] out of their [try] (the clause
    catches database errors only), make no call on the driver and log
    nothing; so [load_csv_to_db] stops with that exception at the first
    file that is read, the files after it untouched. *)
Theorem no_connection_raises
    (self : MySQLDatabaseManager.t) (table_name columns : string)
    (data : DataFrame) (csv_file : string) (rest : list string) (s : env) :
  MySQLDatabaseManager.connection self = None ->
  read_csv (fs s) csv_file = Ret data ->
  MySQLDatabaseManager.create_table self table_name columns s
  = (Raise (no_attribute "cursor"), s, [])
  /\ MySQLDatabaseManager.insert_data self table_name data s
     = (Raise (no_attribute "cursor"), s, [])
  /\ CSVToMySQLLoader.load_csv_to_db
       {| CSVToMySQLLoader.db_manager := self;
          CSVToMySQLLoader.csv_files := csv_file :: rest |} s
     = (Raise (no_attribute "cursor"), s, [loaded_entry csv_file]).
Proof.
  intros N R.
  assert (C : forall t c,
             MySQLDatabaseManager.create_table self t c s
             = (Raise (no_attribute "cursor"), s, [])).
  { intros t c. unfold MySQLDatabaseManager.create_table.
    rewrite try_except_db. unfold bind at 1.
    unfold MySQLDatabaseManager.on_connection. now rewrite N. }
  split; [apply C|]. split.
  - unfold MySQLDatabaseManager.insert_data.
    rewrite try_except_db. unfold bind at 1.
    unfold MySQLDatabaseManager.on_connection. now rewrite N.
  - unfold CSVToMySQLLoader.load_csv_to_db. simpl for_each.
    unfold bind at 1. rewrite (load_one_read self csv_file data s R).
    unfold bind at 1. unfold logger at 1.
    unfold bind at 1. now rewrite C.
Qed.

Lemma load_csv_unrecoverable (file_path : string) (s : env) (e : exn) :
  read_csv (fs s) file_path = Raise e -> recoverable e = false ->
  CSVToMySQLLoader.load_csv file_path s = (Raise e, s, []).
Proof.
  intros R H.
  unfold CSVToMySQLLoader.load_csv, try_except, bind,
    CSVToMySQLLoader.pd_read_csv.
  rewrite R. destruct e as [k m]. destruct k; try discriminate H; reflexivity.
Qed.

(** X10.  A read failure outside the three that [load_csv] recovers from
    (a file that cannot be decoded or opened, say) ends the whole batch:
    [load_csv_to_db] raises it, the files before it have been loaded, the
    files after it are never looked at, and nothing is logged for the
    failing file. *)
Theorem load_csv_to_db_aborts
    (manager : MySQLDatabaseManager.t) (before after : list string)
    (bad : string) (e : exn) (s : env) :
  let r1 :=
    CSVToMySQLLoader.load_csv_to_db
      {| CSVToMySQLLoader.db_manager := manager;
         CSVToMySQLLoader.csv_files := before |} s in
  result r1 = Ret tt ->
  read_csv (fs s) bad = Raise e -> recoverable e = false ->
  CSVToMySQLLoader.load_csv_to_db
    {| CSVToMySQLLoader.db_manager := manager;
       CSVToMySQLLoader.csv_files := before ++ bad :: after |} s
  = (Raise e, final r1, logged r1).
Proof.
  cbv zeta. intros R1 R H.
  destruct (keeps_load_csv_to_db only_table_calls
              only_table_calls_refl only_table_calls_trans
              only_table_calls_cursor only_table_calls_execute
              only_table_calls_commit only_table_calls_cursor_close
              {| CSVToMySQLLoader.db_manager := manager;
                 CSVToMySQLLoader.csv_files := before |} s) as (F & _).
  unfold CSVToMySQLLoader.load_csv_to_db in *. simpl in *.
  rewrite for_each_app. unfold bind at 1.
  unfold result, final, logged in *.
  destruct (for_each before (CSVToMySQLLoader.load_one manager) s)
    as [[r1 s1] lg1]. simpl in *. subst r1.
  unfold CSVToMySQLLoader.load_one at 1. unfold bind at 1 2.
  rewrite (load_csv_unrecoverable bad s1 e) by (rewrite ?F; assumption).
  now rewrite app_nil_r.
Qed.

(** ** The constructor and [main] *)

Lemma init_run (host user password database : option string) (s : env) :
  MySQLDatabaseManager.init host user password database s
  = match next_fault (mysql s) with
    | None =>
        (Ret open_manager,
         {| fs := fs s;
            mysql := MySQL.record (MySQL.ok MySQL.Connect)
                       (MySQL.with_connected true (mysql s)) |},
         [Log INFO "Successfully connected to the database."])
    | Some e =>
        if db_error e
        then (Ret never_connected,
              {| fs := fs s;
                 mysql := MySQL.record (MySQL.Connect, Some e) (mysql s) |},
              [connect_failed_entry e])
        else (Raise e,
              {| fs := fs s;
                 mysql := MySQL.record (MySQL.Connect, Some e) (mysql s) |},
              [])
    end.
Proof.
  unfold MySQLDatabaseManager.init. rewrite try_except_db.
  unfold bind, driver, MySQL.connect, MySQL.driver_call, next_fault.
  destruct (MySQL.faults (mysql s) (List.length (MySQL.journal (mysql s))))
    as [e|]; simpl; [|reflexivity].
  destruct (db_error e); reflexivity.
Qed.

(** X11.  The constructor makes one call, [connect].  When it returns,
    the manager holds the connection, which is connected, and the success
    is logged.  When it raises a database error, the error is logged and
    the manager holds [None].  Any other exception leaves the
    constructor, and nothing is logged. *)
Theorem init_cases (host user password database : option string) (s : env) :
  let r := MySQLDatabaseManager.init host user password database s in
  MySQL.journal (mysql (final r))
  = MySQL.journal (mysql s) ++ [(MySQL.Connect, next_fault (mysql s))]
  /\ match next_fault (mysql s) with
     | None =>
         result r = Ret open_manager
         /\ MySQL.connected (mysql (final r)) = true
         /\ logged r = [Log INFO "Successfully connected to the database."]
     | Some e =>
         MySQL.connected (mysql (final r)) = MySQL.connected (mysql s)
         /\ if db_error e
            then result r = Ret never_connected
                 /\ logged r = [connect_failed_entry e]
            else result r = Raise e /\ logged r = []
     end.
Proof.
  cbv zeta. rewrite init_run.
  destruct (next_fault (mysql s)) as [e|]; [|repeat split].
  destruct (db_error e); repeat split.
Qed.

Lemma main_run
    (EXTERNAL_DATA_DIR : string) (host user password database : option string)
    (s : env) :
  exists res s' lg mid tail,
    after_logging EXTERNAL_DATA_DIR host user password database s
    = (res, s', lg)
    /\ MySQL.journal (mysql s')
       = MySQL.journal (mysql s)
         ++ (MySQL.Connect, next_fault (mysql s)) :: mid ++ tail
    /\ Forall table_call mid
    /\ match next_fault (mysql s) with
       | Some e =>
           mid = [] /\ tail = []
           /\ res = (if db_error e then Ret tt else Raise e)
       | None =>
           (tail = []
            /\ MySQL.connected (mysql s') = true
            /\ exists e, res = Raise e)
           \/ (tail = [MySQL.ok MySQL.Close]
               /\ MySQL.connected (mysql s') = false
               /\ res = Ret tt)
           \/ (exists e, tail = [(MySQL.Close, Some e)]
                         /\ MySQL.connected (mysql s') = true
                         /\ res = Raise e)
       end.
Proof.
  unfold after_logging.
  destruct (get_files_run EXTERNAL_DATA_DIR "csv" s) as [lg G].
  unfold bind at 1. rewrite G.
  unfold bind at 1. rewrite init_run.
  destruct (next_fault (mysql s)) as [e|] eqn:NF.
  - destruct (db_error e); simpl; eexists _, _, _, [], [];
      (split; [reflexivity|]); (split; [reflexivity|]);
      (split; [constructor|]); repeat split.
  - cbn [MySQLDatabaseManager.connection open_manager].
    set (s1 := {| fs := fs s;
                  mysql := MySQL.record (MySQL.ok MySQL.Connect)
                             (MySQL.with_connected true (mysql s)) |}).
    set (loader := {| CSVToMySQLLoader.db_manager := open_manager;
                      CSVToMySQLLoader.csv_files := _ |}).
    destruct (keeps_load_csv_to_db only_table_calls
                only_table_calls_refl only_table_calls_trans
                only_table_calls_cursor only_table_calls_execute
                only_table_calls_commit only_table_calls_cursor_close
                loader s1) as (_ & C & _ & mid & J & T).
    unfold bind at 1. unfold final in C, J.
    destruct (CSVToMySQLLoader.load_csv_to_db loader s1) as [[r2 s2] lg2].
    simpl in C, J.
    destruct r2 as [[]|e].
    + unfold MySQLDatabaseManager.close. simpl.
      unfold bind, driver, MySQL.is_connected, MySQL.close, MySQL.driver_call.
      simpl. rewrite C. simpl.
      destruct (MySQL.faults (mysql s2) _) as [e|]; simpl.
      * eexists _, _, _, mid, [(MySQL.Close, Some e)].
        split; [reflexivity|]. simpl. rewrite J. simpl.
        rewrite <- !app_assoc. split; [reflexivity|]. split; [exact T|].
        right. right. exists e. auto.
      * eexists _, _, _, mid, [MySQL.ok MySQL.Close].
        split; [reflexivity|]. simpl. rewrite J. simpl.
        rewrite <- !app_assoc. split; [reflexivity|]. split; [exact T|].
        right. left. auto.
    + eexists _, _, _, mid, []. split; [reflexivity|].
      rewrite J, app_nil_r. simpl.
      rewrite <- !app_assoc. split; [reflexivity|]. split; [exact T|].
      left. split; [reflexivity|]. split; [exact C|]. eauto.
Qed.

(** X12.  [main] sets up the logging first: when that raises, [main]
    raises the same exception, makes no call on the driver and logs
    nothing.  Otherwise [main] connects once, before any other call.
    When the connection fails, it makes no other call.  Otherwise the
    calls that follow are those of [create_table] and [insert_data];
    [close] is called once, last, and only when the loading returned:
    when the loading raises, [main] raises with the connection still
    open, and when [main] returns the connection is closed. *)
Theorem main_calls
    (__file__ EXTERNAL_DATA_DIR : string)
    (host user password database : option string) (s : env) :
  let r := main __file__ EXTERNAL_DATA_DIR host user password database s in
  match logging (fs s) __file__ with
  | Raise x =>
      result r = Raise x
      /\ MySQL.journal (mysql (final r)) = MySQL.journal (mysql s)
      /\ logged r = []
  | Ret _ =>
      exists mid tail,
        MySQL.journal (mysql (final r))
        = MySQL.journal (mysql s)
          ++ (MySQL.Connect, next_fault (mysql s)) :: mid ++ tail
        /\ Forall table_call mid
        /\ match next_fault (mysql s) with
           | Some e =>
               mid = [] /\ tail = []
               /\ result r = (if db_error e then Ret tt else Raise e)
           | None =>
               (tail = []
                /\ MySQL.connected (mysql (final r)) = true
                /\ exists e, result r = Raise e)
               \/ (tail = [MySQL.ok MySQL.Close]
                   /\ MySQL.connected (mysql (final r)) = false
                   /\ result r = Ret tt)
               \/ (exists e, tail = [(MySQL.Close, Some e)]
                             /\ MySQL.connected (mysql (final r)) = true
                             /\ result r = Raise e)
           end
  end.
Proof.
  cbv zeta. destruct (logging (fs s) __file__) as [[]|x] eqn:Lg.
  - rewrite (main_logging_ok __file__ EXTERNAL_DATA_DIR
               host user password database s Lg).
    destruct (main_run EXTERNAL_DATA_DIR host user password database s)
      as (res & s' & lg & mid & tail & E & H).
    rewrite E. exists mid, tail. exact H.
  - rewrite (main_logging_failed __file__ EXTERNAL_DATA_DIR
               host user password database s x Lg).
    repeat split.
Qed.

(** ** More of [get_files] *)

Lemma join_ends_with (a b : string) :
  exists pre, PyPath.join a b = (pre ++ b)%string.
Proof.
  unfold PyPath.join. destruct (PyStr.startswith b "/").
  - now exists EmptyString.
  - destruct (String.eqb a EmptyString || PyStr.endswith a "/").
    + now exists a.
    + exists (a ++ "/")%string. now rewrite append_assoc.
Qed.

(** X13.  Every path [get_files] returns ends with the extension it was
    given; so with an extension that starts with a dot, every one of them
    names a file of that extension. *)
Theorem get_files_paths_end_with_extension
    (folder_path file_extension : string) (s : env) (paths : list string) :
  result (get_files folder_path file_extension s) = Ret paths ->
  Forall (fun p => PyStr.endswith p file_extension = true) paths.
Proof.
  destruct (get_files_run folder_path file_extension s) as [lg E].
  rewrite E. intros [= <-]. unfold found.
  destruct (path_exists (fs s) folder_path); [|constructor].
  destruct (listdir (fs s) folder_path) as [entries|]; [|constructor].
  unfold matching. apply Forall_forall. intros p Hp.
  apply in_map_iff in Hp. destruct Hp as [f [<- Hf]].
  apply filter_In in Hf. destruct Hf as [_ Hf].
  apply endswith_iff in Hf. destruct Hf as [q ->].
  destruct (join_ends_with folder_path (q ++ file_extension)) as [pre ->].
  apply endswith_iff. exists (pre ++ q)%string. now rewrite append_assoc.
Qed.

(** X14.  [get_files] writes one log entry on every call, and its level
    tells what the empty result cannot: it is [INFO] exactly when some
    path is returned, [ERROR] exactly when the folder does not exist or
    could not be listed, and [WARNING] otherwise, when the folder was
    listed and no entry matched. *)
Theorem get_files_diagnostics
    (folder_path file_extension : string) (s : env) :
  exists entry,
    logged (get_files folder_path file_extension s) = [entry]
    /\ (log_level entry = INFO
        <-> found (fs s) folder_path file_extension <> [])
    /\ (log_level entry = ERROR
        <-> path_exists (fs s) folder_path = false
            \/ exists e, listdir (fs s) folder_path = Raise e)
    /\ (log_level entry = WARNING
        <-> path_exists (fs s) folder_path = true
            /\ exists entries,
                 listdir (fs s) folder_path = Ret entries
                 /\ matching folder_path file_extension entries = []).
Proof.
  unfold get_files, found, try_except, bind, os, logged.
  destruct (path_exists (fs s) folder_path) eqn:X; simpl.
  2:{ eexists. split; [reflexivity|]. simpl. repeat split;
        try discriminate; try tauto; auto.
      intros [H _]. discriminate H. }
  destruct (listdir (fs s) folder_path) as [entries|e] eqn:L; simpl.
  - fold (matching folder_path file_extension entries).
    destruct (matching folder_path file_extension entries) eqn:Mt; simpl.
    + eexists. split; [reflexivity|]. simpl. repeat split;
        try discriminate; try tauto.
      * intros [H | [e H]]; discriminate H.
      * eauto.
    + eexists. split; [reflexivity|]. simpl. repeat split;
        try discriminate; try tauto.
      * intros [H | [e H]]; discriminate H.
      * intros [_ [en [[= <-] H]]]. rewrite Mt in H. discriminate H.
  - rewrite (all_exceptions e). simpl.
    eexists. split; [reflexivity|]. simpl. repeat split;
      try discriminate; try tauto; eauto.
    intros [_ [en [H _]]]. discriminate H.
Qed.

(** ** What a healthy server stores *)

Section Stores.

Variable self : MySQLDatabaseManager.t.
Hypothesis has_connection : MySQLDatabaseManager.connection self <> None.

Lemma lookup_update_same (name : string) (t t' : MySQL.table)
    (ts : list (string * MySQL.table)) :
  MySQL.lookup name ts = Some t ->
  MySQL.lookup name (MySQL.update name t' ts) = Some t'.
Proof. intros L. now rewrite lookup_update, String.eqb_refl, L. Qed.

(** One accepted row on a healthy server is staged in its table. *)
Lemma execute_insert_healthy (name marks : string) (row : list scalar)
    (t : MySQL.table) (s : env) :
  healthy (mysql s) -> MySQL.identifier name = true ->
  MySQL.lookup name (MySQL.tables (mysql s)) = Some t ->
  MySQL.count_placeholders marks = List.length (MySQL.t_columns t) ->
  accepts (MySQL.t_columns t) row = true ->
  exists s' texts,
    driver (MySQL.execute (MySQL.InsertValues name marks) row) s
    = (Ret tt, s', [])
    /\ MySQL.literals row = Some texts
    /\ fs s' = fs s /\ healthy (mysql s')
    /\ MySQL.lookup name (MySQL.tables (mysql s'))
       = Some (MySQL.stage texts t).
Proof.
  intros [Hc Hf] I L P A. unfold accepts in A.
  apply andb_true_iff in A. destruct A as [Len A].
  destruct (MySQL.literals row) as [texts|] eqn:T; [|discriminate].
  apply negb_true_iff in A. apply Nat.eqb_eq in Len.
  unfold driver, MySQL.execute, MySQL.driver_call. rewrite Hf, Hc.
  unfold MySQL.execute_statement.
  rewrite P, <- Len, Nat.eqb_refl, I, L, Len, Nat.eqb_refl, T, A. simpl.
  eexists _, texts. split; [reflexivity|]. split; [reflexivity|].
  split; [reflexivity|]. split; [split; assumption|].
  simpl. now apply lookup_update_same with (t := t).
Qed.

Lemma insert_rows_healthy (name marks : string) (rows : list (list scalar)) :
  forall (t : MySQL.table) (s : env),
    healthy (mysql s) -> MySQL.identifier name = true ->
    MySQL.lookup name (MySQL.tables (mysql s)) = Some t ->
    MySQL.count_placeholders marks = List.length (MySQL.t_columns t) ->
    forallb (accepts (MySQL.t_columns t)) rows = true ->
    exists s',
      for_each rows
        (fun row => driver (MySQL.execute (MySQL.InsertValues name marks) row))
        s
      = (Ret tt, s', [])
      /\ fs s' = fs s /\ healthy (mysql s')
      /\ MySQL.lookup name (MySQL.tables (mysql s'))
         = Some {| MySQL.t_columns := MySQL.t_columns t;
                   MySQL.t_rows := MySQL.t_rows t;
                   MySQL.t_staged := MySQL.t_staged t ++ texts_of rows |}.
Proof.
  induction rows as [|row rows IH]; intros t s H I L P A.
  - exists s. simpl. rewrite app_nil_r. repeat split; try apply H.
    now destruct t.
  - simpl in A. apply andb_true_iff in A. destruct A as [A1 A2].
    destruct (execute_insert_healthy name marks row t s H I L P A1)
      as (s1 & texts & E1 & T & F1 & H1 & L1).
    destruct (IH (MySQL.stage texts t) s1 H1 I L1 P A2)
      as (s2 & E2 & F2 & H2 & L2).
    exists s2. simpl for_each. unfold bind. rewrite E1, E2.
    split; [reflexivity|]. split; [congruence|]. split; [exact H2|].
    rewrite L2. unfold texts_of. simpl. rewrite T. simpl.
    now rewrite <- app_assoc.
Qed.

Lemma insert_data_healthy (name : string) (data : DataFrame)
    (t : MySQL.table) (s : env) :
  healthy (mysql s) -> MySQL.identifier name = true ->
  MySQL.lookup name (MySQL.tables (mysql s)) = Some t ->
  List.length (columns data) = List.length (MySQL.t_columns t) ->
  forallb (accepts (MySQL.t_columns t)) (iterrows data) = true ->
  exists s',
    MySQLDatabaseManager.insert_data self name data s
    = (Ret tt, s', [inserted_entry name])
    /\ fs s' = fs s /\ healthy (mysql s')
    /\ MySQL.lookup name (MySQL.tables (mysql s'))
       = Some {| MySQL.t_columns := MySQL.t_columns t;
                 MySQL.t_rows :=
                   MySQL.t_rows t
                   ++ MySQL.t_staged t ++ texts_of (iterrows data);
                 MySQL.t_staged := [] |}.
Proof.
  intros H I L Len A. pose proof H as [Hc Hf].
  unfold MySQLDatabaseManager.insert_data.
  rewrite !(on_connection_some self _ _ has_connection), try_except_db.
  unfold bind at 1.
  unfold driver at 1, MySQL.cursor at 1, MySQL.driver_call at 1.
  rewrite Hf, Hc. cbn [fst snd failure].
  set (s1 := {| fs := fs s;
                mysql := MySQL.record (MySQL.Cursor, None) (mysql s) |}).
  assert (P : MySQL.count_placeholders
                (MySQLDatabaseManager.placeholders data)
              = List.length (MySQL.t_columns t)).
  { rewrite <- Len. unfold MySQLDatabaseManager.placeholders.
    destruct (List.length (columns data)) as [|n]; [reflexivity|].
    apply count_placeholders_repeat. }
  destruct (insert_rows_healthy name (MySQLDatabaseManager.placeholders data)
              (iterrows data) t s1 H I L P A)
    as (s2 & E2 & F2 & [Hc2 Hf2] & L2).
  unfold bind at 1. unfold MySQLDatabaseManager.insert_query. rewrite E2.
  unfold bind at 1.
  unfold driver at 1, MySQL.commit at 1, MySQL.driver_call at 1.
  rewrite Hf2, Hc2. cbn [fst snd failure].
  unfold bind at 1.
  unfold driver at 1, MySQL.cursor_close at 1, MySQL.driver_call at 1.
  cbn [mysql MySQL.faults MySQL.record MySQL.with_tables].
  rewrite Hf2. cbn [fst snd failure].
  eexists. split; [reflexivity|].
  split; [exact F2|]. split; [split; assumption|].
  cbn [mysql MySQL.tables MySQL.record MySQL.with_tables].
  now rewrite lookup_commit, L2.
Qed.

End Stores.

Lemma read_generated_columns (df : DataFrame) :
  forallb MySQL.identifier (columns df) = true ->
  MySQL.read_columns (CSVToMySQLLoader.generate_columns_definition df)
  = Some (text_columns (columns df)).
Proof.
  intros A.
  assert (F : Forall (fun c => MySQL.identifier c = true) (columns df)).
  { apply Forall_forall. intros c Hc.
    now apply (proj1 (forallb_forall _ _) A). }
  unfold CSVToMySQLLoader.generate_columns_definition, text_columns.
  destruct (columns df) as [|col cols]; [reflexivity|].
  unfold MySQL.read_columns.
  replace (String.eqb _ EmptyString) with false.
  - exact (read_definition EmptyString col cols (or_introl eq_refl) F).
  - inversion F as [|? ? I _]; subst.
    destruct col as [|c col]; [discriminate I|].
    destruct cols; reflexivity.
Qed.

Section StoresFile.

Variable self : MySQLDatabaseManager.t.
Hypothesis has_connection : MySQLDatabaseManager.connection self <> None.

Lemma declarable_valid (name : string) (df : DataFrame) :
  declarable name (columns df) = true ->
  MySQL.identifier name = true
  /\ valid_table name (CSVToMySQLLoader.generate_columns_definition df)
     = true
  /\ MySQL.read_columns (CSVToMySQLLoader.generate_columns_definition df)
     = Some (text_columns (columns df)).
Proof.
  unfold declarable. intros H.
  apply andb_true_iff in H. destruct H as [H D].
  apply andb_true_iff in H. destruct H as [H I].
  apply andb_true_iff in H. destruct H as [N E].
  pose proof (read_generated_columns df I) as R.
  repeat split; auto.
  unfold valid_table. rewrite N, R. cbn [andb].
  assert (Names : map fst (text_columns (columns df)) = columns df).
  { unfold text_columns. rewrite map_map. apply map_id. }
  destruct (columns df) as [|c cs] eqn:Cs; [discriminate E|].
  change (text_columns (c :: cs))
    with ((c, CSVToMySQLLoader.text_type) :: text_columns cs) in *.
  cbv iota beta. now rewrite Names.
Qed.

Lemma loadable_valid (name : string) (df : DataFrame) :
  loadable name df = true ->
  MySQL.identifier name = true
  /\ valid_table name (CSVToMySQLLoader.generate_columns_definition df)
     = true
  /\ MySQL.read_columns (CSVToMySQLLoader.generate_columns_definition df)
     = Some (text_columns (columns df))
  /\ forallb (accepts (text_columns (columns df))) (iterrows df) = true.
Proof.
  unfold loadable. intros H.
  apply andb_true_iff in H. destruct H as [H A].
  destruct (declarable_valid name df H) as (I & V & R). auto.
Qed.

Lemma load_one_healthy (csv_file : string) (df : DataFrame) (s : env) :
  healthy (mysql s) ->
  read_csv (fs s) csv_file = Ret df ->
  loadable (table_name csv_file) df = true ->
  fits (columns df) (table_name csv_file) (mysql s) ->
  exists s',
    CSVToMySQLLoader.load_one self csv_file s
    = (Ret tt, s',
       [loaded_entry csv_file; created_entry (table_name csv_file);
        inserted_entry (table_name csv_file)])
    /\ fs s' = fs s /\ healthy (mysql s')
    /\ MySQL.lookup (table_name csv_file) (MySQL.tables (mysql s'))
       = Some {| MySQL.t_columns := text_columns (columns df);
                 MySQL.t_rows :=
                   stored_rows (table_name csv_file) (mysql s)
                   ++ texts_of (iterrows df);
                 MySQL.t_staged := [] |}.
Proof.
  intros H R Ld Ft.
  destruct (loadable_valid _ _ Ld) as (I & V & Rc & A).
  set (name := table_name csv_file) in *.
  set (cols := CSVToMySQLLoader.generate_columns_definition df) in *.
  rewrite (load_one_read self csv_file df s R).
  unfold bind at 1. unfold logger at 1. unfold bind at 1.
  fold name. fold cols.
  rewrite (create_table_healthy self has_connection name cols s H V).
  set (s1 := {| fs := fs s; mysql := after_create name cols (mysql s) |}).
  assert (L1 : MySQL.lookup name (MySQL.tables (mysql s1))
               = Some {| MySQL.t_columns := text_columns (columns df);
                         MySQL.t_rows := stored_rows name (mysql s);
                         MySQL.t_staged := [] |}).
  { unfold s1, after_create, create_effect, stored_rows, fits in *.
    cbn [mysql MySQL.tables MySQL.record MySQL.with_tables].
    destruct (MySQL.lookup name (MySQL.tables (mysql s))) as [t|] eqn:L.
    - rewrite lookup_commit, L. simpl. now rewrite Ft.
    - rewrite Rc. apply lookup_app_new. now rewrite lookup_commit, L. }
  destruct (insert_data_healthy self has_connection name df _ s1 H I L1)
    as (s2 & E2 & F2 & H2 & L2).
  { unfold text_columns. simpl. now rewrite length_map. }
  { exact A. }
  rewrite E2. exists s2. split; [reflexivity|].
  split; [exact F2|]. split; [exact H2|].
  rewrite L2. reflexivity.
Qed.

End StoresFile.

(** X15.  On a healthy server, for a table that exists with as many
    columns as the data and rows the server accepts, [insert_data]
    commits every row: afterwards the table holds the rows it held,
    followed by the texts of the rows of the data, in the order of the
    data, and nothing is left uncommitted. *)
Theorem insert_data_appends
    (self : MySQLDatabaseManager.t) (name : string) (data : DataFrame)
    (t : MySQL.table) (s : env) :
  MySQLDatabaseManager.connection self <> None ->
  healthy (mysql s) -> MySQL.identifier name = true ->
  MySQL.lookup name (MySQL.tables (mysql s)) = Some t ->
  List.length (columns data) = List.length (MySQL.t_columns t) ->
  forallb (accepts (MySQL.t_columns t)) (iterrows data) = true ->
  let r := MySQLDatabaseManager.insert_data self name data s in
  result r = Ret tt
  /\ logged r = [inserted_entry name]
  /\ MySQL.lookup name (MySQL.tables (mysql (final r)))
     = Some {| MySQL.t_columns := MySQL.t_columns t;
               MySQL.t_rows :=
                 MySQL.t_rows t
                 ++ MySQL.t_staged t ++ texts_of (iterrows data);
               MySQL.t_staged := [] |}.
Proof.
  intros C H I L Len A.
  destruct (insert_data_healthy self C name data t s H I L Len A)
    as (s' & E & _ & _ & L').
  cbv zeta. rewrite E. auto.
Qed.

(** X16.  On a healthy server, take a file that is read, whose table
    name and column names are identifiers without repetition, whose rows
    the server accepts, and whose table does not exist yet or exists with
    the columns of the header, all of the text type.  The file is loaded
    whole: a table that did not exist is created with the columns of the
    header, all of the text type and in the order of the header; the
    table then holds the rows it held before (none if it did not exist)
    followed by the rows of the file, in order; the load, the creation
    and the insert are logged, and nothing else. *)
Theorem load_one_stores
    (self : MySQLDatabaseManager.t) (csv_file : string) (df : DataFrame)
    (s : env) :
  MySQLDatabaseManager.connection self <> None ->
  healthy (mysql s) ->
  read_csv (fs s) csv_file = Ret df ->
  loadable (table_name csv_file) df = true ->
  fits (columns df) (table_name csv_file) (mysql s) ->
  let r :=
    CSVToMySQLLoader.load_csv_to_db
      {| CSVToMySQLLoader.db_manager := self;
         CSVToMySQLLoader.csv_files := [csv_file] |} s in
  result r = Ret tt
  /\ logged r
     = [loaded_entry csv_file; created_entry (table_name csv_file);
        inserted_entry (table_name csv_file)]
  /\ MySQL.lookup (table_name csv_file) (MySQL.tables (mysql (final r)))
     = Some {| MySQL.t_columns := text_columns (columns df);
               MySQL.t_rows :=
                 stored_rows (table_name csv_file) (mysql s)
                 ++ texts_of (iterrows df);
               MySQL.t_staged := [] |}.
Proof.
  intros C H R Ld Ft.
  destruct (load_one_healthy self C csv_file df s H R Ld Ft)
    as (s' & E & _ & _ & L).
  cbv zeta. unfold CSVToMySQLLoader.load_csv_to_db. simpl.
  unfold bind. rewrite E. simpl. auto.
Qed.

(** X17.  Loading is not idempotent: on a healthy server, a file that is
    read, loadable, and whose table does not exist or has the columns of
    its header, and that comes twice in the batch (or a second run over
    the same folder), has its rows stored twice, one copy after the
    other; only the creation of the table is idempotent. *)
Theorem load_twice_duplicates
    (self : MySQLDatabaseManager.t) (csv_file : string) (df : DataFrame)
    (s : env) :
  MySQLDatabaseManager.connection self <> None ->
  healthy (mysql s) ->
  read_csv (fs s) csv_file = Ret df ->
  loadable (table_name csv_file) df = true ->
  fits (columns df) (table_name csv_file) (mysql s) ->
  let r :=
    CSVToMySQLLoader.load_csv_to_db
      {| CSVToMySQLLoader.db_manager := self;
         CSVToMySQLLoader.csv_files := [csv_file; csv_file] |} s in
  result r = Ret tt
  /\ MySQL.lookup (table_name csv_file) (MySQL.tables (mysql (final r)))
     = Some {| MySQL.t_columns := text_columns (columns df);
               MySQL.t_rows :=
                 stored_rows (table_name csv_file) (mysql s)
                 ++ texts_of (iterrows df) ++ texts_of (iterrows df);
               MySQL.t_staged := [] |}.
Proof.
  intros C H R Ld Ft.
  destruct (load_one_healthy self C csv_file df s H R Ld Ft)
    as (s1 & E1 & F1 & H1 & L1).
  destruct (load_one_healthy self C csv_file df s1 H1)
    as (s2 & E2 & _ & _ & L2).
  { now rewrite F1. }
  { exact Ld. }
  { unfold fits. now rewrite L1. }
  cbv zeta. unfold CSVToMySQLLoader.load_csv_to_db. simpl.
  unfold bind. rewrite E1, E2. simpl. split; [reflexivity|].
  unfold final. cbn [fst snd]. rewrite L2.
  unfold stored_rows at 1. rewrite L1. simpl.
  now rewrite app_nil_r, <- app_assoc.
Qed.

(** X3.  Files whose stems differ only in their last 8 characters have
    the same table name, and the loader sends their rows to one table:
    on a healthy server, when both are read with the same header and are
    loadable, the table of that name holds, after the batch, the rows it
    held, then the rows of the first file, then the rows of the second. *)
Theorem colliding_files_share_table
    (self : MySQLDatabaseManager.t) (f g p a b : string)
    (df dg : DataFrame) (s : env) :
  MySQLDatabaseManager.connection self <> None ->
  healthy (mysql s) ->
  PyPath.stem f = (p ++ a)%string -> PyPath.stem g = (p ++ b)%string ->
  String.length a = 8 -> String.length b = 8 ->
  read_csv (fs s) f = Ret df -> read_csv (fs s) g = Ret dg ->
  columns dg = columns df ->
  loadable p df = true -> loadable p dg = true ->
  fits (columns df) p (mysql s) ->
  let r :=
    CSVToMySQLLoader.load_csv_to_db
      {| CSVToMySQLLoader.db_manager := self;
         CSVToMySQLLoader.csv_files := [f; g] |} s in
  table_name f = p /\ table_name g = p
  /\ result r = Ret tt
  /\ MySQL.lookup p (MySQL.tables (mysql (final r)))
     = Some {| MySQL.t_columns := text_columns (columns df);
               MySQL.t_rows :=
                 stored_rows p (mysql s)
                 ++ texts_of (iterrows df) ++ texts_of (iterrows dg);
               MySQL.t_staged := [] |}.
Proof.
  intros C H Sf Sg La Lb Rf Rg Cols Ldf Ldg Ft.
  assert (Tf : table_name f = p)
    by (unfold table_name; rewrite Sf; now apply slice_to_neg_append).
  assert (Tg : table_name g = p)
    by (unfold table_name; rewrite Sg; now apply slice_to_neg_append).
  destruct (load_one_healthy self C f df s H Rf) as (s1 & E1 & F1 & H1 & L1);
    [now rewrite Tf | now rewrite Tf |].
  rewrite Tf in L1.
  destruct (load_one_healthy self C g dg s1 H1) as (s2 & E2 & _ & _ & L2);
    [now rewrite F1 | now rewrite Tg
    | unfold fits; rewrite Tg, L1, Cols; reflexivity |].
  rewrite Tg in L2.
  cbv zeta. split; [exact Tf|]. split; [exact Tg|].
  unfold CSVToMySQLLoader.load_csv_to_db.
  cbn [CSVToMySQLLoader.csv_files CSVToMySQLLoader.db_manager for_each].
  unfold bind. rewrite E1, E2. unfold ret, result, final. cbn [fst snd].
  split; [reflexivity|].
  rewrite L2, Cols. unfold stored_rows at 1. rewrite L1. simpl.
  now rewrite app_nil_r, <- app_assoc.
Qed.

(** ** A row the server rejects *)

Section Rejects.

Variable self : MySQLDatabaseManager.t.
Hypothesis has_connection : MySQLDatabaseManager.connection self <> None.

(** A row that is not accepted raises a database error on a healthy
    server, and the tables stay as they are. *)
Lemma execute_insert_rejected (name marks : string) (row : list scalar)
    (t : MySQL.table) (s : env) :
  healthy (mysql s) -> MySQL.identifier name = true ->
  MySQL.lookup name (MySQL.tables (mysql s)) = Some t ->
  MySQL.count_placeholders marks = List.length (MySQL.t_columns t) ->
  accepts (MySQL.t_columns t) row = false ->
  exists s' e,
    driver (MySQL.execute (MySQL.InsertValues name marks) row) s
    = (Raise e, s', [])
    /\ db_error e = true
    /\ fs s' = fs s /\ healthy (mysql s')
    /\ MySQL.tables (mysql s') = MySQL.tables (mysql s).
Proof.
  intros [Hc Hf] I L P A. unfold accepts in A.
  unfold driver, MySQL.execute, MySQL.driver_call. rewrite Hf, Hc.
  unfold MySQL.execute_statement. rewrite P, I, L.
  destruct (Nat.eqb (List.length row) (List.length (MySQL.t_columns t)))
    eqn:Len.
  - apply Nat.eqb_eq in Len. rewrite <- Len, Nat.eqb_refl. simpl in A |- *.
    destruct (MySQL.literals row) as [texts|].
    + apply negb_false_iff in A. rewrite A. simpl.
      eexists _, _. split; [reflexivity|]. split; [reflexivity|].
      split; [reflexivity|]. split; [split; assumption | reflexivity].
    + eexists _, _. split; [reflexivity|]. split; [reflexivity|].
      split; [reflexivity|]. split; [split; assumption | reflexivity].
  - rewrite Nat.eqb_sym, Len. simpl.
    eexists _, _. split; [reflexivity|]. split; [reflexivity|].
    split; [reflexivity|]. split; [split; assumption | reflexivity].
Qed.

Lemma insert_rows_rejected (name marks : string)
    (good : list (list scalar)) (bad : list scalar)
    (rest : list (list scalar)) :
  forall (t : MySQL.table) (s : env),
    healthy (mysql s) -> MySQL.identifier name = true ->
    MySQL.lookup name (MySQL.tables (mysql s)) = Some t ->
    MySQL.count_placeholders marks = List.length (MySQL.t_columns t) ->
    forallb (accepts (MySQL.t_columns t)) good = true ->
    accepts (MySQL.t_columns t) bad = false ->
    exists s' e,
      for_each (good ++ bad :: rest)
        (fun row => driver (MySQL.execute (MySQL.InsertValues name marks) row))
        s
      = (Raise e, s', [])
      /\ db_error e = true
      /\ fs s' = fs s /\ healthy (mysql s')
      /\ MySQL.lookup name (MySQL.tables (mysql s'))
         = Some {| MySQL.t_columns := MySQL.t_columns t;
                   MySQL.t_rows := MySQL.t_rows t;
                   MySQL.t_staged := MySQL.t_staged t ++ texts_of good |}.
Proof.
  induction good as [|row good IH]; intros t s H I L P A B.
  - destruct (execute_insert_rejected name marks bad t s H I L P B)
      as (s' & e & E & D & F & H' & T).
    exists s', e. simpl app. simpl for_each. unfold bind. rewrite E.
    split; [reflexivity|]. split; [exact D|]. split; [exact F|].
    split; [exact H'|]. rewrite T, L. simpl. rewrite app_nil_r.
    now destruct t.
  - simpl in A. apply andb_true_iff in A. destruct A as [A1 A2].
    destruct (execute_insert_healthy name marks row t s H I L P A1)
      as (s1 & texts & E1 & T & F1 & H1 & L1).
    destruct (IH (MySQL.stage texts t) s1 H1 I L1 P A2 B)
      as (s2 & e & E2 & D & F2 & H2 & L2).
    exists s2, e. simpl app. simpl for_each. unfold bind. rewrite E1, E2.
    split; [reflexivity|]. split; [exact D|]. split; [congruence|].
    split; [exact H2|].
    rewrite L2. unfold texts_of. simpl. rewrite T. simpl.
    now rewrite <- app_assoc.
Qed.

Lemma insert_data_rejected (name : string) (data : DataFrame)
    (good : list (list scalar)) (bad : list scalar)
    (rest : list (list scalar)) (t : MySQL.table) (s : env) :
  healthy (mysql s) -> MySQL.identifier name = true ->
  MySQL.lookup name (MySQL.tables (mysql s)) = Some t ->
  List.length (columns data) = List.length (MySQL.t_columns t) ->
  iterrows data = good ++ bad :: rest ->
  forallb (accepts (MySQL.t_columns t)) good = true ->
  accepts (MySQL.t_columns t) bad = false ->
  exists s' e,
    MySQLDatabaseManager.insert_data self name data s
    = (Ret tt, s', [insert_failed_entry name e])
    /\ db_error e = true
    /\ fs s' = fs s /\ healthy (mysql s')
    /\ MySQL.lookup name (MySQL.tables (mysql s'))
       = Some {| MySQL.t_columns := MySQL.t_columns t;
                 MySQL.t_rows := MySQL.t_rows t;
                 MySQL.t_staged := MySQL.t_staged t ++ texts_of good |}.
Proof.
  intros H I L Len Rows A B. pose proof H as [Hc Hf].
  unfold MySQLDatabaseManager.insert_data.
  rewrite !(on_connection_some self _ _ has_connection), try_except_db.
  unfold bind at 1.
  unfold driver at 1, MySQL.cursor at 1, MySQL.driver_call at 1.
  rewrite Hf, Hc. cbn [fst snd failure].
  set (s1 := {| fs := fs s;
                mysql := MySQL.record (MySQL.Cursor, None) (mysql s) |}).
  assert (P : MySQL.count_placeholders
                (MySQLDatabaseManager.placeholders data)
              = List.length (MySQL.t_columns t)).
  { rewrite <- Len. unfold MySQLDatabaseManager.placeholders.
    destruct (List.length (columns data)) as [|n]; [reflexivity|].
    apply count_placeholders_repeat. }
  destruct (insert_rows_rejected name (MySQLDatabaseManager.placeholders data)
              good bad rest t s1 H I L P A B)
    as (s2 & e & E2 & D & F2 & H2 & L2).
  unfold bind at 1. unfold MySQLDatabaseManager.insert_query.
  rewrite Rows, E2, D.
  exists s2, e. split; [reflexivity|]. split; [exact D|].
  split; [exact F2|]. split; [exact H2 | exact L2].
Qed.

Lemma load_one_rejected (csv_file : string) (df : DataFrame)
    (good : list (list scalar)) (bad : list scalar)
    (rest : list (list scalar)) (s : env) :
  healthy (mysql s) ->
  read_csv (fs s) csv_file = Ret df ->
  declarable (table_name csv_file) (columns df) = true ->
  fits (columns df) (table_name csv_file) (mysql s) ->
  iterrows df = good ++ bad :: rest ->
  forallb (accepts (text_columns (columns df))) good = true ->
  accepts (text_columns (columns df)) bad = false ->
  exists s' e,
    CSVToMySQLLoader.load_one self csv_file s
    = (Ret tt, s',
       [loaded_entry csv_file; created_entry (table_name csv_file);
        insert_failed_entry (table_name csv_file) e])
    /\ db_error e = true
    /\ fs s' = fs s /\ healthy (mysql s')
    /\ MySQL.lookup (table_name csv_file) (MySQL.tables (mysql s'))
       = Some {| MySQL.t_columns := text_columns (columns df);
                 MySQL.t_rows := stored_rows (table_name csv_file) (mysql s);
                 MySQL.t_staged := texts_of good |}.
Proof.
  intros H R Dc Ft Rows A B.
  destruct (declarable_valid _ _ Dc) as (I & V & Rc).
  set (name := table_name csv_file) in *.
  set (cols := CSVToMySQLLoader.generate_columns_definition df) in *.
  rewrite (load_one_read self csv_file df s R).
  unfold bind at 1. unfold logger at 1. unfold bind at 1.
  fold name. fold cols.
  rewrite (create_table_healthy self has_connection name cols s H V).
  set (s1 := {| fs := fs s; mysql := after_create name cols (mysql s) |}).
  assert (L1 : MySQL.lookup name (MySQL.tables (mysql s1))
               = Some {| MySQL.t_columns := text_columns (columns df);
                         MySQL.t_rows := stored_rows name (mysql s);
                         MySQL.t_staged := [] |}).
  { unfold s1, after_create, create_effect, stored_rows, fits in *.
    cbn [mysql MySQL.tables MySQL.record MySQL.with_tables].
    destruct (MySQL.lookup name (MySQL.tables (mysql s))) as [t|] eqn:L.
    - rewrite lookup_commit, L. simpl. now rewrite Ft.
    - rewrite Rc. apply lookup_app_new. now rewrite lookup_commit, L. }
  destruct (insert_data_rejected name df good bad rest _ s1 H I L1)
    as (s2 & e & E2 & D & F2 & H2 & L2).
  { unfold text_columns. simpl. now rewrite length_map. }
  { exact Rows. }
  { exact A. }
  { exact B. }
  rewrite E2. exists s2, e. split; [reflexivity|]. split; [exact D|].
  split; [exact F2|]. split; [exact H2 | exact L2].
Qed.

End Rejects.

(** X18.  [insert_data] never rolls back.  On a healthy server, a file
    whose header is accepted and whose rows are accepted up to one that
    the server rejects (a missing cell, a text longer than the column)
    is half loaded: the load returns with the error of the insert in the
    log, the rows after the rejected one are never sent, and the rows
    before it stay in the open transaction, uncommitted.  What follows
    decides on them: the [CREATE TABLE] of any later file commits them,
    and [close] discards them. *)
Theorem rejected_row_half_loads
    (self : MySQLDatabaseManager.t) (csv_file : string) (df : DataFrame)
    (good : list (list scalar)) (bad : list scalar)
    (rest : list (list scalar)) (s : env) :
  MySQLDatabaseManager.connection self <> None ->
  healthy (mysql s) ->
  read_csv (fs s) csv_file = Ret df ->
  declarable (table_name csv_file) (columns df) = true ->
  fits (columns df) (table_name csv_file) (mysql s) ->
  iterrows df = good ++ bad :: rest ->
  forallb (accepts (text_columns (columns df))) good = true ->
  accepts (text_columns (columns df)) bad = false ->
  let name := table_name csv_file in
  let r :=
    CSVToMySQLLoader.load_csv_to_db
      {| CSVToMySQLLoader.db_manager := self;
         CSVToMySQLLoader.csv_files := [csv_file] |} s in
  let held rows staged :=
    Some {| MySQL.t_columns := text_columns (columns df);
            MySQL.t_rows := rows; MySQL.t_staged := staged |} in
  result r = Ret tt
  /\ (exists e,
        db_error e = true
        /\ logged r
           = [loaded_entry csv_file; created_entry name;
              insert_failed_entry name e])
  /\ MySQL.lookup name (MySQL.tables (mysql (final r)))
     = held (stored_rows name (mysql s)) (texts_of good)
  /\ (forall other cols,
        valid_table other cols = true ->
        MySQL.lookup name
          (MySQL.tables
             (mysql (final (MySQLDatabaseManager.create_table
                              self other cols (final r)))))
        = held (stored_rows name (mysql s) ++ texts_of good) [])
  /\ MySQL.lookup name
       (MySQL.tables (mysql (final (MySQLDatabaseManager.close
                                      self (final r)))))
     = held (stored_rows name (mysql s)) [].
Proof.
  intros C H R Dc Ft Rows A B.
  destruct (load_one_rejected self C csv_file df good bad rest s
              H R Dc Ft Rows A B)
    as (s' & e & E & D & _ & H' & L).
  cbv zeta. unfold CSVToMySQLLoader.load_csv_to_db.
  cbn [CSVToMySQLLoader.csv_files CSVToMySQLLoader.db_manager for_each].
  unfold bind. rewrite E. unfold ret, result, final, logged.
  cbn [fst snd app].
  split; [reflexivity|]. split; [exists e; split; [exact D | reflexivity]|].
  split; [exact L|]. split.
  - intros other cols V.
    rewrite (create_table_healthy self C other cols s' H' V).
    unfold after_create, create_effect.
    cbn [mysql MySQL.tables MySQL.record MySQL.with_tables].
    assert (Lc : MySQL.lookup (table_name csv_file)
                   (map MySQL.commit_table (MySQL.tables (mysql s')))
                 = Some {| MySQL.t_columns := text_columns (columns df);
                           MySQL.t_rows :=
                             stored_rows (table_name csv_file) (mysql s)
                             ++ texts_of good;
                           MySQL.t_staged := [] |})
      by (now rewrite lookup_commit, L).
    destruct (MySQL.lookup other (MySQL.tables (mysql s'))); [exact Lc|].
    destruct (MySQL.read_columns cols); [|exact Lc].
    now apply lookup_app_some.
  - destruct H' as [Hc Hf].
    rewrite (close_open self s' C Hc (Hf _)).
    cbn [mysql MySQL.tables MySQL.record MySQL.with_tables
         MySQL.with_connected].
    clear - L. revert L.
    induction (MySQL.tables (mysql s')) as [|[n t] ts IH]; [discriminate|].
    simpl. destruct (String.eqb n (table_name csv_file)).
    + now intros [= ->].
    + exact IH.
Qed.

(** ** [main] and the tables *)

Lemma loses_nothing_close (sv : MySQL.server) :
  loses_nothing sv (snd (MySQL.close sv)).
Proof.
  apply loses_nothing_driver_call. clear sv. intros sv name t L.
  cbn [snd MySQL.tables MySQL.with_connected MySQL.with_tables].
  induction (MySQL.tables sv) as [|[n u] ts IH]; [discriminate|].
  simpl in *. destruct (String.eqb n name).
  - injection L as ->. eexists. split; [reflexivity|].
    split; [reflexivity|]. exists []. simpl. now rewrite app_nil_r.
  - now apply IH.
Qed.

Lemma after_logging_keeps_tables
    (EXTERNAL_DATA_DIR : string) (host user password database : option string)
    (s : env) :
  loses_nothing (mysql s)
    (mysql (final (after_logging EXTERNAL_DATA_DIR host user password
                     database s))).
Proof.
  unfold after_logging.
  destruct (get_files_run EXTERNAL_DATA_DIR "csv" s) as [lg G].
  unfold bind at 1. rewrite G.
  unfold bind at 1. rewrite init_run.
  destruct (next_fault (mysql s)) as [e|] eqn:NF.
  - destruct (db_error e); exact (loses_nothing_refl (mysql s)).
  - cbn [MySQLDatabaseManager.connection open_manager].
    set (s1 := {| fs := fs s;
                  mysql := MySQL.record (MySQL.ok MySQL.Connect)
                             (MySQL.with_connected true (mysql s)) |}).
    set (loader := {| CSVToMySQLLoader.db_manager := open_manager;
                      CSVToMySQLLoader.csv_files := _ |}).
    destruct (keeps_load_csv_to_db loses_nothing
                loses_nothing_refl loses_nothing_trans
                loses_nothing_cursor loses_nothing_execute
                loses_nothing_commit loses_nothing_cursor_close
                loader s1) as (_ & K).
    change (loses_nothing (mysql s)
              (mysql (final (CSVToMySQLLoader.load_csv_to_db loader s1))))
      in K.
    unfold bind at 1. unfold final in *.
    destruct (CSVToMySQLLoader.load_csv_to_db loader s1) as [[r2 s2] lg2].
    simpl in K.
    destruct r2 as [[]|e]; [|exact K].
    unfold MySQLDatabaseManager.close, bind, driver, MySQL.is_connected.
    simpl. destruct (MySQL.connected (mysql s2)); [|exact K].
    cbn [mysql]. pose proof (loses_nothing_close (mysql s2)) as Cl.
    destruct (MySQL.close (mysql s2)) as [[[]|e] sv]; simpl in *;
      exact (loses_nothing_trans _ _ _ K Cl).
Qed.

(** X19.  The script only adds.  When the files [get_files] finds have
    table names and column names made of the characters of identifiers
    only, then whatever the folder, the outcome of the logging set-up and
    the failures of the database, a table that exists before [main] runs
    exists after it with the same columns, and its committed rows are
    still there, unchanged and in order, at the head of its rows. *)
Theorem main_loses_nothing
    (__file__ EXTERNAL_DATA_DIR : string)
    (host user password database : option string)
    (s : env) (name : string) (t : MySQL.table) :
  forallb (plain_file (fs s)) (found (fs s) EXTERNAL_DATA_DIR "csv") = true ->
  MySQL.lookup name (MySQL.tables (mysql s)) = Some t ->
  exists t',
    MySQL.lookup name
      (MySQL.tables
         (mysql (final (main __file__ EXTERNAL_DATA_DIR host user password
                          database s))))
    = Some t'
    /\ MySQL.t_columns t' = MySQL.t_columns t
    /\ exists more, MySQL.t_rows t' = MySQL.t_rows t ++ more.
Proof.
  intros _ L.
  destruct (logging (fs s) __file__) as [[]|x] eqn:Lg.
  - rewrite (main_logging_ok __file__ EXTERNAL_DATA_DIR
               host user password database s Lg).
    destruct (after_logging_keeps_tables EXTERNAL_DATA_DIR
                host user password database s name t L) as (t' & L' & K).
    exists t'. split; [exact L' | exact K].
  - rewrite (main_logging_failed __file__ EXTERNAL_DATA_DIR
               host user password database s x Lg).
    exists t. split; [exact L|]. split; [reflexivity|].
    exists []. now rewrite app_nil_r.
Qed.

(** ** Failure isolation *)

(** *** The tables of the other files *)

Lemma others_kept_refl (name : string) (sv : MySQL.server) :
  others_kept name sv sv.
Proof. intros n _. now left. Qed.

Lemma committed_idem (t : MySQL.table) : committed (committed t) = committed t.
Proof. unfold committed. simpl. now rewrite app_nil_r. Qed.

Lemma others_kept_trans (name : string) (a b c : MySQL.server) :
  others_kept name a b -> others_kept name b c -> others_kept name a c.
Proof.
  intros H1 H2 n N. destruct (H1 n N) as [E1|E1], (H2 n N) as [E2|E2];
    rewrite E2, E1; auto.
  right. destruct (MySQL.lookup n (MySQL.tables a)); simpl; [|reflexivity].
  now rewrite committed_idem.
Qed.

Lemma lookup_app_other (n name : string) (t : MySQL.table)
    (ts : list (string * MySQL.table)) :
  n <> name -> MySQL.lookup n (ts ++ [(name, t)]) = MySQL.lookup n ts.
Proof.
  intros N. induction ts as [|[m u] ts IH]; simpl.
  - destruct (String.eqb_spec name n); [congruence | reflexivity].
  - now rewrite IH.
Qed.

Lemma lookup_committed (n : string) (ts : list (string * MySQL.table)) :
  MySQL.lookup n (map MySQL.commit_table ts)
  = option_map committed (MySQL.lookup n ts).
Proof. rewrite lookup_commit. now destruct (MySQL.lookup n ts). Qed.

Lemma others_kept_execute_statement (q : MySQL.statement)
    (params : list scalar) (sv : MySQL.server) :
  others_kept (table_of q) sv (snd (MySQL.execute_statement q params sv)).
Proof.
  destruct q as [name cols | name marks]; simpl.
  - destruct (negb (MySQL.identifier name)); [apply others_kept_refl|].
    destruct (MySQL.read_columns cols) as [[|c cs]|];
      try apply others_kept_refl.
    destruct (negb (MySQL.no_dup (map fst (c :: cs))));
      [apply others_kept_refl|].
    destruct (MySQL.lookup name (MySQL.tables sv)); simpl;
      intros n N; right; simpl.
    + apply lookup_committed.
    + rewrite (lookup_app_other n name _ _ N). apply lookup_committed.
  - destruct (negb (Nat.eqb _ _)); [apply others_kept_refl|].
    destruct (negb (MySQL.identifier name)); [apply others_kept_refl|].
    destruct (MySQL.lookup name (MySQL.tables sv)) as [t|] eqn:L;
      [|apply others_kept_refl].
    destruct (negb (Nat.eqb _ _)); [apply others_kept_refl|].
    destruct (MySQL.literals params) as [texts|]; [|apply others_kept_refl].
    destruct (MySQL.any_too_long _ _); [apply others_kept_refl|].
    intros n N. left. simpl. rewrite lookup_update.
    destruct (String.eqb_spec name n); [congruence | reflexivity].
Qed.

Lemma others_kept_driver_call {A} (name : string) (c : MySQL.call)
    (work : MySQL.server -> outcome A * MySQL.server) (sv : MySQL.server) :
  (forall sv, others_kept name sv (snd (work sv))) ->
  others_kept name sv (snd (MySQL.driver_call c work sv)).
Proof.
  intros W. unfold MySQL.driver_call.
  destruct (MySQL.faults sv (List.length (MySQL.journal sv)));
    [exact (others_kept_refl name sv)|].
  specialize (W sv). destruct (work sv) as [r sv']. exact W.
Qed.

Section KeepsOthers.

Variable self : MySQLDatabaseManager.t.
Variable name : string.

Lemma others_kept_cursor (sv : MySQL.server) :
  others_kept name sv (snd (MySQL.cursor sv)).
Proof.
  apply others_kept_driver_call. intros sv'.
  destruct (MySQL.connected sv'); apply others_kept_refl.
Qed.

Lemma others_kept_execute (q : MySQL.statement) (p : list scalar) :
  table_of q = name ->
  forall sv, others_kept name sv (snd (MySQL.execute q p sv)).
Proof.
  intros <- sv. apply others_kept_driver_call. intros sv'.
  destruct (MySQL.connected sv');
    [apply others_kept_execute_statement | apply others_kept_refl].
Qed.

Lemma others_kept_commit (sv : MySQL.server) :
  others_kept name sv (snd (MySQL.commit sv)).
Proof.
  apply others_kept_driver_call. intros sv'.
  destruct (MySQL.connected sv'); [|apply others_kept_refl].
  intros n _. right. apply lookup_committed.
Qed.

Lemma others_kept_cursor_close (sv : MySQL.server) :
  others_kept name sv (snd (MySQL.cursor_close sv)).
Proof.
  apply others_kept_driver_call. intros sv'. apply others_kept_refl.
Qed.

Ltac others_steps :=
  repeat first
    [ apply (keeps_bind _ (others_kept_trans name)); [|intros ?]
    | apply (keeps_for_each _ (others_kept_refl name)
               (others_kept_trans name)); intros ?
    | apply (keeps_on_connection _ (others_kept_refl name))
    | apply keeps_driver
    | apply (keeps_logger _ (others_kept_refl name))
    | apply (keeps_ret _ (others_kept_refl name))
    | apply others_kept_cursor
    | apply others_kept_execute; reflexivity
    | apply others_kept_commit
    | apply others_kept_cursor_close ].

Ltac others_clauses :=
  repeat (apply Forall_cons; [intros ?; simpl; others_steps|]);
  apply Forall_nil.

Lemma others_kept_create_table (cols : string) :
  keeps (others_kept name) (MySQLDatabaseManager.create_table self name cols).
Proof.
  unfold MySQLDatabaseManager.create_table.
  apply (keeps_try_except _ (others_kept_trans name));
    [others_steps | others_clauses].
Qed.

Lemma others_kept_insert_data (df : DataFrame) :
  keeps (others_kept name) (MySQLDatabaseManager.insert_data self name df).
Proof.
  unfold MySQLDatabaseManager.insert_data.
  apply (keeps_try_except _ (others_kept_trans name));
    [others_steps | others_clauses].
Qed.

End KeepsOthers.

(** [load_one] sends statements for the table of its file only. *)
Lemma others_kept_load_one (self : MySQLDatabaseManager.t) (f : string) :
  keeps (others_kept (table_name f)) (CSVToMySQLLoader.load_one self f).
Proof.
  unfold CSVToMySQLLoader.load_one.
  apply (keeps_bind _ (others_kept_trans (table_name f))).
  - apply (keeps_load_csv _ (others_kept_refl (table_name f))
             (others_kept_trans (table_name f))).
  - intros [df|]; [|apply (keeps_ret _ (others_kept_refl (table_name f)))].
    apply (keeps_bind _ (others_kept_trans (table_name f)));
      [apply others_kept_create_table|].
    intros _. apply others_kept_insert_data.
Qed.

(** *** A batch of files the server takes whole *)

Lemma fits_others_kept (header : list string) (name n : string)
    (sv sv' : MySQL.server) :
  others_kept name sv sv' -> n <> name ->
  fits header n sv -> fits header n sv'.
Proof.
  intros K N. unfold fits. destruct (K n N) as [E|E]; rewrite E;
    destruct (MySQL.lookup n (MySQL.tables sv)); simpl; auto.
Qed.

Lemma stored_rows_others_kept (name n : string) (sv sv' : MySQL.server) :
  others_kept name sv sv' -> n <> name ->
  stored_rows n sv' = stored_rows n sv.
Proof.
  intros K N. unfold stored_rows. destruct (K n N) as [E|E]; rewrite E;
    destruct (MySQL.lookup n (MySQL.tables sv)); simpl; auto.
  now rewrite app_nil_r.
Qed.

Section Batch.

Variable self : MySQLDatabaseManager.t.
Hypothesis has_connection : MySQLDatabaseManager.connection self <> None.

(** The files of a batch that the server takes whole are loaded one after
    the other, each into its table, when their table names differ. *)
Lemma load_batch_healthy (files : list string) :
  forall s : env,
    healthy (mysql s) ->
    Forall (good_file s) files ->
    NoDup (map table_name files) ->
    exists s',
      for_each files (CSVToMySQLLoader.load_one self) s
      = (Ret tt, s', flat_map load_entries files)
      /\ fs s' = fs s /\ healthy (mysql s')
      /\ (forall f df,
            In f files -> read_csv (fs s) f = Ret df ->
            MySQL.lookup (table_name f) (MySQL.tables (mysql s'))
            = Some (loaded_table s f df))
      /\ (forall n,
            ~ In n (map table_name files) ->
            MySQL.lookup n (MySQL.tables (mysql s'))
            = MySQL.lookup n (MySQL.tables (mysql s))
            \/ MySQL.lookup n (MySQL.tables (mysql s'))
               = option_map committed
                   (MySQL.lookup n (MySQL.tables (mysql s)))).
Proof.
  induction files as [|f files IH]; intros s H G D.
  - exists s. simpl. repeat split; try apply H; [intros f df []|auto].
  - inversion G as [|? ? (df & R & Ld & Ft) G']; subst.
    inversion D as [|? ? Nin D']; subst.
    destruct (load_one_healthy self has_connection f df s H R Ld Ft)
      as (s1 & E1 & F1 & H1 & L1).
    destruct (others_kept_load_one self f s) as (_ & K1).
    rewrite E1 in K1. change (final (Ret tt, s1, _)) with s1 in K1.
    assert (Other : forall g, In g files -> table_name g <> table_name f).
    { intros g Hg Eq. apply Nin. rewrite <- Eq. now apply in_map. }
    assert (G1 : Forall (good_file s1) files).
    { apply Forall_forall. intros g Hg.
      destruct (proj1 (Forall_forall _ _) G' g Hg) as (dg & Rg & Lg & Fg).
      exists dg. rewrite F1. split; [exact Rg|]. split; [exact Lg|].
      exact (fits_others_kept _ _ _ _ _ K1 (Other g Hg) Fg). }
    destruct (IH s1 H1 G1 D') as (s2 & E2 & F2 & H2 & L2 & K2).
    exists s2. simpl for_each. unfold bind. rewrite E1, E2.
    split; [reflexivity|]. split; [congruence|]. split; [exact H2|]. split.
    + intros g dg [<- | Hg] Rg.
      * assert (dg = df) by congruence. subst dg.
        destruct (K2 (table_name f) Nin) as [E|E]; rewrite E, L1;
          [reflexivity|].
        unfold loaded_table, committed. simpl. now rewrite app_nil_r.
      * rewrite (L2 g dg Hg) by (rewrite F1; exact Rg).
        unfold loaded_table.
        now rewrite (stored_rows_others_kept _ _ _ _ K1 (Other g Hg)).
    + intros n Nn. simpl in Nn.
      assert (N1 : n <> table_name f) by (intros ->; apply Nn; now left).
      assert (N2 : ~ In n (map table_name files))
        by (intros X; apply Nn; now right).
      destruct (K1 n N1) as [A|A], (K2 n N2) as [B|B]; rewrite B, A; auto.
      right. destruct (MySQL.lookup n (MySQL.tables (mysql s))); simpl;
        [|reflexivity].
      now rewrite committed_idem.
Qed.

End Batch.

(** C4, as stated, fails: a file that cannot be decoded is malformed, its
    read raises [UnicodeDecodeError], which [load_csv] does not catch;
    the exception escapes [load_csv_to_db], no skip is logged, and the
    file that comes after it gets no table. *)
Lemma failure_isolation_counterexample :
  let batch :=
    CSVToMySQLLoader.load_csv_to_db
      {| CSVToMySQLLoader.db_manager := open_manager;
         CSVToMySQLLoader.csv_files :=
           ["data/orders__202401.csv"; "data/latin__202401.csv";
            "data/users__202401.csv"] |} latin_env in
  read_csv (fs latin_env) "data/latin__202401.csv" = Raise undecodable
  /\ recoverable undecodable = false
  /\ good_file latin_env "data/users__202401.csv"
  /\ result batch = Raise undecodable
  /\ logged batch = load_entries "data/orders__202401.csv"
  /\ MySQL.lookup "users" (MySQL.tables (mysql (final batch))) = None.
Proof.
  split; [reflexivity|]. split; [reflexivity|]. split.
  - eexists. split; [vm_compute; reflexivity|].
    split; [vm_compute; reflexivity | exact I].
  - split; [vm_compute; reflexivity|].
    split; vm_compute; reflexivity.
Qed.

(** C4, amended.  Take a batch in which one file fails to load in one of
    the three ways [load_csv] recovers from (it is missing, empty, or
    unparseable: its read raises [ParserError]) while every other file is
    read, or fails in such a way too.  On a manager that holds a
    connection, and with a database that reports its failures as database
    errors, [load_csv_to_db] returns without raising; it leaves the
    environment, hence every table, exactly as the batch without the
    failing file does; and its log is the log of that smaller batch with
    one more entry, the skip of the failing file.  On a healthy server,
    when the other files are files the server takes whole and their table
    names differ, the log holds the three entries of each of them around
    the one skip, and after the batch the table of each of them exists,
    with the columns of its header and, after the rows it held, all the
    rows of the file. *)
Theorem failure_isolation
    (manager : MySQLDatabaseManager.t) (before after : list string)
    (bad : string) (e : exn) (s : env) :
  MySQLDatabaseManager.connection manager <> None ->
  db_errors_only (mysql s) ->
  (forall f, In f (before ++ after) -> loads (fs s) f) ->
  read_csv (fs s) bad = Raise e -> recoverable e = true ->
  let batch :=
    CSVToMySQLLoader.load_csv_to_db
      {| CSVToMySQLLoader.db_manager := manager;
         CSVToMySQLLoader.csv_files := before ++ bad :: after |} s in
  let others :=
    CSVToMySQLLoader.load_csv_to_db
      {| CSVToMySQLLoader.db_manager := manager;
         CSVToMySQLLoader.csv_files := before ++ after |} s in
  result batch = Ret tt
  /\ final batch = final others
  /\ (exists l1 l2,
        logged others = l1 ++ l2
        /\ logged batch = l1 ++ skip_entry bad e :: l2)
  /\ (Exn.class e = Exn.ParserError ->
      skip_entry bad e = parse_error_entry bad)
  /\ (healthy (mysql s) ->
      Forall (good_file s) (before ++ after) ->
      NoDup (map table_name (before ++ after)) ->
      logged batch
      = flat_map load_entries before
        ++ skip_entry bad e :: flat_map load_entries after
      /\ forall f df,
           In f (before ++ after) -> read_csv (fs s) f = Ret df ->
           MySQL.lookup (table_name f) (MySQL.tables (mysql (final batch)))
           = Some (loaded_table s f df)).
Proof.
  intros C D L R H. cbv zeta. unfold CSVToMySQLLoader.load_csv_to_db.
  cbn [CSVToMySQLLoader.csv_files CSVToMySQLLoader.db_manager].
  rewrite !for_each_app. simpl for_each. unfold bind.
  destruct (load_all_ok manager C before s D) as (R1 & F1 & Q1).
  { intros f Hf. apply L, in_or_app. now left. }
  unfold result, final in R1, F1, Q1.
  destruct (for_each before (CSVToMySQLLoader.load_one manager) s)
    as [[r1 s1] lg1] eqn:E1; simpl in R1, F1, Q1. subst r1.
  rewrite (load_one_skip manager bad e s1) by (rewrite ?F1; assumption).
  destruct (load_all_ok manager C after s1) as (R2 & F2 & Q2).
  { eapply db_errors_only_ext; eauto. }
  { intros f Hf. rewrite F1. apply L, in_or_app. now right. }
  unfold result, final in R2, F2, Q2.
  destruct (for_each after (CSVToMySQLLoader.load_one manager) s1)
    as [[r2 s2] lg2] eqn:E2; simpl in R2, F2, Q2. subst r2.
  unfold result, final, logged. cbn [fst snd app].
  split; [reflexivity|]. split; [reflexivity|]. split.
  { exists lg1, lg2. split; reflexivity. }
  split.
  { unfold skip_entry. now intros ->. }
  intros Hh G N.
  apply Forall_app in G. destruct G as [Gb Ga].
  rewrite map_app in N.
  destruct (load_batch_healthy manager C before s Hh Gb
              (NoDup_app_remove_r _ _ N))
    as (t1 & B1 & Fb & Hb & Lb & Kb).
  rewrite E1 in B1. injection B1 as <- ->.
  assert (Apart : forall f g, In f before -> In g after ->
                              table_name g <> table_name f).
  { intros f g Hf Hg Eq. revert N. clear - Hf Hg Eq.
    induction before as [|b bs IH]; [destruct Hf|].
    simpl. intros N. inversion N as [|? ? Nin N']; subst.
    destruct Hf as [-> | Hf]; [|now apply IH].
    apply Nin, in_or_app. right. rewrite <- Eq. now apply in_map. }
  assert (NotBefore : forall g, In g after ->
                                ~ In (table_name g) (map table_name before)).
  { intros g Hg X. apply in_map_iff in X. destruct X as (f & Eq & Hf).
    exact (Apart f g Hf Hg (eq_sym Eq)). }
  assert (Ga1 : Forall (good_file s1) after).
  { apply Forall_forall. intros g Hg.
    destruct (proj1 (Forall_forall _ _) Ga g Hg) as (dg & Rg & Lg & Fg).
    exists dg. rewrite Fb. split; [exact Rg|]. split; [exact Lg|].
    unfold fits in *.
    destruct (Kb (table_name g) (NotBefore g Hg)) as [X|X]; rewrite X;
      destruct (MySQL.lookup (table_name g) (MySQL.tables (mysql s)));
      simpl; auto. }
  destruct (load_batch_healthy manager C after s1 Hb Ga1
              (NoDup_app_remove_l _ _ N))
    as (t2 & B2 & Fa & Ha & La & Ka).
  rewrite E2 in B2. injection B2 as <- ->.
  split; [reflexivity|].
  intros f df Hf Rf. apply in_app_or in Hf. destruct Hf as [Hf|Hf].
  - assert (Nf : ~ In (table_name f) (map table_name after)).
    { intros X. apply in_map_iff in X. destruct X as (g & Eq & Hg).
      exact (Apart f g Hf Hg Eq). }
    destruct (Ka (table_name f) Nf) as [X|X]; rewrite X, (Lb f df Hf Rf);
      [reflexivity|].
    unfold loaded_table, committed. simpl. now rewrite app_nil_r.
  - rewrite (La f df Hf) by (rewrite Fb; exact Rf).
    unfold loaded_table. f_equal. f_equal. f_equal.
    unfold stored_rows.
    destruct (Kb (table_name f) (NotBefore f Hf)) as [X|X]; rewrite X;
      destruct (MySQL.lookup (table_name f) (MySQL.tables (mysql s)));
      simpl; auto.
    now rewrite app_nil_r.
Qed.

(** ** The further properties at concrete inputs *)

(** X1 for a file of a folder whose path holds a dot. *)
Lemma table_name_ignores_folder_witness :
  entry_name "orders_20240101.csv" = true
  /\ table_name (PyPath.join "data/v1.0" "orders_20240101.csv") = "orders_"
  /\ table_name "orders_20240101.csv" = "orders_".
Proof.
  split; [reflexivity|].
  rewrite (table_name_ignores_folder "data/v1.0" "orders_20240101.csv");
    [|reflexivity].
  split; reflexivity.
Defined.

(** X2 for a file of the data set the script was written for. *)
Lemma table_name_of_file_witness :
  String.length "_dataset" = 8
  /\ table_name "data/external/olist_orders_dataset.csv" = "olist_orders".
Proof.
  split; [reflexivity|].
  apply (table_name_of_file "data/external" "olist_orders" "_dataset" "csv");
    [reflexivity | discriminate | reflexivity | reflexivity].
Defined.

(** X3 for the files of two days. *)
Lemma colliding_files_share_table_witness :
  let f := "data/orders_20240101.csv" in
  let g := "data/orders_20240201.csv" in
  let r :=
    CSVToMySQLLoader.load_csv_to_db
      {| CSVToMySQLLoader.db_manager := open_manager;
         CSVToMySQLLoader.csv_files := [f; g] |} daily_env in
  read_csv (fs daily_env) f = Ret orders_df
  /\ read_csv (fs daily_env) g = Ret second_day_df
  /\ table_name f = "orders_" /\ table_name g = "orders_"
  /\ result r = Ret tt
  /\ MySQL.lookup "orders_" (MySQL.tables (mysql (final r)))
     = Some {| MySQL.t_columns := text_columns ["id"; "amount"];
               MySQL.t_rows :=
                 [["1.0"; "10.5"]; ["2.0"; "20.0"]; ["3.0"; "5.0"]];
               MySQL.t_staged := [] |}.
Proof.
  intros f g r.
  assert (Rf : read_csv (fs daily_env) f = Ret orders_df)
    by (vm_compute; reflexivity).
  assert (Rg : read_csv (fs daily_env) g = Ret second_day_df)
    by (vm_compute; reflexivity).
  split; [exact Rf|]. split; [exact Rg|].
  apply (colliding_files_share_table open_manager f g
           "orders_" "20240101" "20240201" orders_df second_day_df daily_env);
    [discriminate | split; [reflexivity | intros k; reflexivity]
    | reflexivity | reflexivity | reflexivity | reflexivity
    | exact Rf | exact Rg | reflexivity
    | vm_compute; reflexivity | vm_compute; reflexivity | exact I].
Defined.

(** X4 for the script itself, in the folder of the batch. *)
Lemma log_file_of_script_witness :
  let file := "/home/user/project/src/store_data.py" in
  PyPath.name file = "store_data.py"
  /\ log_file file = "logs/logs_data/store_data.log"
  /\ Loguru.sink_file (log_file file) = Some "logs/logs_data/store_data.log"
  /\ configure_logging file batch_env = (Ret tt, batch_env, []).
Proof.
  intros file. split; [reflexivity|].
  destruct (log_file_of_script file "store_data" "py" batch_env)
    as (L & K & R);
    [reflexivity | discriminate | reflexivity | reflexivity | discriminate
    | reflexivity |].
  split; [exact L|]. split; [exact K|]. rewrite R. reflexivity.
Defined.

(** X7 for the table a first load filled, when the file is loaded
    again. *)
Lemma load_csv_to_db_loses_nothing_witness :
  let loader :=
    {| CSVToMySQLLoader.db_manager := open_manager;
       CSVToMySQLLoader.csv_files := ["data/orders__202401.csv"] |} in
  let s := final (CSVToMySQLLoader.load_csv_to_db loader batch_env) in
  let t :=
    {| MySQL.t_columns := text_columns ["id"; "amount"];
       MySQL.t_rows := [["1.0"; "10.5"]; ["2.0"; "20.0"]];
       MySQL.t_staged := [] |} in
  forallb (plain_file (fs s)) (CSVToMySQLLoader.csv_files loader) = true
  /\ MySQL.lookup "orders" (MySQL.tables (mysql s)) = Some t
  /\ exists t',
       MySQL.lookup "orders"
         (MySQL.tables
            (mysql (final (CSVToMySQLLoader.load_csv_to_db loader s))))
       = Some t'
       /\ MySQL.t_columns t' = MySQL.t_columns t
       /\ exists more, MySQL.t_rows t' = MySQL.t_rows t ++ more.
Proof.
  intros loader s t.
  assert (P : forallb (plain_file (fs s)) (CSVToMySQLLoader.csv_files loader)
              = true) by (vm_compute; reflexivity).
  assert (L : MySQL.lookup "orders" (MySQL.tables (mysql s)) = Some t)
    by (vm_compute; reflexivity).
  split; [exact P|]. split; [exact L|].
  exact (load_csv_to_db_loses_nothing loader s "orders" t P L).
Defined.

(** X8 for the table [orders] on a server without fault. *)
Lemma create_table_calls_witness :
  let cols := "id VARCHAR(255), amount VARCHAR(255)" in
  let r := MySQLDatabaseManager.create_table open_manager "orders" cols
             batch_env in
  let calls := create_sequence "orders" cols in
  db_errors_only (mysql batch_env)
  /\ result r = Ret tt
  /\ (MySQL.journal (mysql (final r))
      = MySQL.journal (mysql batch_env) ++ map MySQL.ok calls
      /\ logged r = [created_entry "orders"]
      \/ exists k e,
           k < 3 /\ db_error e = true
           /\ MySQL.journal (mysql (final r))
              = MySQL.journal (mysql batch_env) ++ cut_short calls k e
           /\ logged r = [create_failed_entry "orders" e]).
Proof.
  intros cols r calls.
  split; [exact connected_server_db_errors_only|].
  apply (create_table_calls open_manager "orders" cols batch_env);
    [discriminate | exact connected_server_db_errors_only].
Defined.

(** X9 for the manager of a failed connection and the first file of the
    batch. *)
Lemma no_connection_raises_witness :
  read_csv (fs batch_env) "data/orders__202401.csv" = Ret orders_df
  /\ MySQLDatabaseManager.create_table never_connected "orders"
       "id VARCHAR(255), amount VARCHAR(255)" batch_env
     = (Raise (no_attribute "cursor"), batch_env, [])
  /\ MySQLDatabaseManager.insert_data never_connected "orders" orders_df
       batch_env
     = (Raise (no_attribute "cursor"), batch_env, [])
  /\ CSVToMySQLLoader.load_csv_to_db
       {| CSVToMySQLLoader.db_manager := never_connected;
          CSVToMySQLLoader.csv_files :=
            ["data/orders__202401.csv"; "data/users__202401.csv"] |}
       batch_env
     = (Raise (no_attribute "cursor"), batch_env,
        [loaded_entry "data/orders__202401.csv"]).
Proof.
  assert (R : read_csv (fs batch_env) "data/orders__202401.csv"
              = Ret orders_df) by (vm_compute; reflexivity).
  split; [exact R|].
  exact (no_connection_raises never_connected "orders"
           "id VARCHAR(255), amount VARCHAR(255)" orders_df
           "data/orders__202401.csv" ["data/users__202401.csv"] batch_env
           eq_refl R).
Defined.

(** X10 for a batch that holds the folder itself between two files. *)
Lemma load_csv_to_db_aborts_witness :
  let e := Exn.Build Exn.IsADirectoryError "Is a directory" in
  let r1 :=
    CSVToMySQLLoader.load_csv_to_db
      {| CSVToMySQLLoader.db_manager := open_manager;
         CSVToMySQLLoader.csv_files := ["data/orders__202401.csv"] |}
      batch_env in
  result r1 = Ret tt
  /\ read_csv (fs batch_env) "data" = Raise e
  /\ recoverable e = false
  /\ CSVToMySQLLoader.load_csv_to_db
       {| CSVToMySQLLoader.db_manager := open_manager;
          CSVToMySQLLoader.csv_files :=
            ["data/orders__202401.csv"; "data"; "data/users__202401.csv"] |}
       batch_env
     = (Raise e, final r1, logged r1).
Proof.
  intros e r1.
  assert (R1 : result r1 = Ret tt) by (vm_compute; reflexivity).
  assert (R : read_csv (fs batch_env) "data" = Raise e)
    by (vm_compute; reflexivity).
  assert (H : recoverable e = false) by reflexivity.
  split; [exact R1|]. split; [exact R|]. split; [exact H|].
  exact (load_csv_to_db_aborts open_manager ["data/orders__202401.csv"]
           ["data/users__202401.csv"] "data" e batch_env R1 R H).
Defined.

(** X13 for the extension [csv] on a folder with an entry that has no
    extension. *)
Lemma get_files_paths_end_with_extension_witness :
  result (get_files "data" "csv" listing)
  = Ret ["data/report.csv"; "data/notescsv"]
  /\ Forall (fun p => PyStr.endswith p "csv" = true)
       ["data/report.csv"; "data/notescsv"].
Proof.
  assert (G : result (get_files "data" "csv" listing)
              = Ret ["data/report.csv"; "data/notescsv"])
    by (vm_compute; reflexivity).
  split; [exact G|].
  exact (get_files_paths_end_with_extension "data" "csv" listing _ G).
Defined.

(** X15 for the two rows of [orders_df], once the table exists. *)
Lemma insert_data_appends_witness :
  let s := final (MySQLDatabaseManager.create_table open_manager "orders"
                    "id VARCHAR(255), amount VARCHAR(255)" batch_env) in
  let r := MySQLDatabaseManager.insert_data open_manager "orders" orders_df s in
  healthy (mysql s)
  /\ result r = Ret tt
  /\ logged r = [inserted_entry "orders"]
  /\ MySQL.lookup "orders" (MySQL.tables (mysql (final r)))
     = Some {| MySQL.t_columns := text_columns ["id"; "amount"];
               MySQL.t_rows := [["1.0"; "10.5"]; ["2.0"; "20.0"]];
               MySQL.t_staged := [] |}.
Proof.
  intros s r.
  assert (H : healthy (mysql s))
    by (split; [reflexivity | intros k; reflexivity]).
  split; [exact H|].
  apply (insert_data_appends open_manager "orders" orders_df
           {| MySQL.t_columns := text_columns ["id"; "amount"];
              MySQL.t_rows := []; MySQL.t_staged := [] |} s);
    [discriminate | exact H | reflexivity | vm_compute; reflexivity
    | reflexivity | vm_compute; reflexivity].
Defined.

(** X16 for the orders file on a server without table. *)
Lemma load_one_stores_witness :
  let f := "data/orders__202401.csv" in
  let r :=
    CSVToMySQLLoader.load_csv_to_db
      {| CSVToMySQLLoader.db_manager := open_manager;
         CSVToMySQLLoader.csv_files := [f] |} batch_env in
  read_csv (fs batch_env) f = Ret orders_df
  /\ loadable "orders" orders_df = true
  /\ result r = Ret tt
  /\ logged r
     = [loaded_entry f; created_entry "orders"; inserted_entry "orders"]
  /\ MySQL.lookup "orders" (MySQL.tables (mysql (final r)))
     = Some {| MySQL.t_columns := text_columns ["id"; "amount"];
               MySQL.t_rows := [["1.0"; "10.5"]; ["2.0"; "20.0"]];
               MySQL.t_staged := [] |}.
Proof.
  intros f r.
  assert (R : read_csv (fs batch_env) f = Ret orders_df)
    by (vm_compute; reflexivity).
  assert (Ld : loadable (table_name f) orders_df = true)
    by (vm_compute; reflexivity).
  split; [exact R|]. split; [exact Ld|].
  apply (load_one_stores open_manager f orders_df batch_env);
    [discriminate | split; [reflexivity | intros k; reflexivity]
    | exact R | exact Ld | exact I].
Defined.

(** X17 for the orders file, twice in the batch. *)
Lemma load_twice_duplicates_witness :
  let f := "data/orders__202401.csv" in
  let r :=
    CSVToMySQLLoader.load_csv_to_db
      {| CSVToMySQLLoader.db_manager := open_manager;
         CSVToMySQLLoader.csv_files := [f; f] |} batch_env in
  read_csv (fs batch_env) f = Ret orders_df
  /\ loadable "orders" orders_df = true
  /\ result r = Ret tt
  /\ MySQL.lookup "orders" (MySQL.tables (mysql (final r)))
     = Some {| MySQL.t_columns := text_columns ["id"; "amount"];
               MySQL.t_rows :=
                 [["1.0"; "10.5"]; ["2.0"; "20.0"];
                  ["1.0"; "10.5"]; ["2.0"; "20.0"]];
               MySQL.t_staged := [] |}.
Proof.
  intros f r.
  assert (R : read_csv (fs batch_env) f = Ret orders_df)
    by (vm_compute; reflexivity).
  assert (Ld : loadable (table_name f) orders_df = true)
    by (vm_compute; reflexivity).
  split; [exact R|]. split; [exact Ld|].
  apply (load_twice_duplicates open_manager f orders_df batch_env);
    [discriminate | split; [reflexivity | intros k; reflexivity]
    | exact R | exact Ld | exact I].
Defined.

(** X18 for a file whose second row misses a cell. *)
Lemma rejected_row_half_loads_witness :
  let f := "data/cities__202401.csv" in
  let r :=
    CSVToMySQLLoader.load_csv_to_db
      {| CSVToMySQLLoader.db_manager := open_manager;
         CSVToMySQLLoader.csv_files := [f] |} gap_env in
  let held rows staged :=
    Some {| MySQL.t_columns := text_columns ["id"; "city"];
            MySQL.t_rows := rows; MySQL.t_staged := staged |} in
  read_csv (fs gap_env) f = Ret gap_df
  /\ accepts (text_columns ["id"; "city"]) [SInt 2; SNaN] = false
  /\ result r = Ret tt
  /\ MySQL.lookup "cities" (MySQL.tables (mysql (final r)))
     = held [] [["1"; "Paris"]]
  /\ MySQL.lookup "cities"
       (MySQL.tables
          (mysql (final (MySQLDatabaseManager.create_table open_manager
                           "towns" "id VARCHAR(255)" (final r)))))
     = held [["1"; "Paris"]] []
  /\ MySQL.lookup "cities"
       (MySQL.tables
          (mysql (final (MySQLDatabaseManager.close open_manager
                           (final r)))))
     = held [] [].
Proof.
  intros f r held.
  assert (R : read_csv (fs gap_env) f = Ret gap_df)
    by (vm_compute; reflexivity).
  assert (B : accepts (text_columns (columns gap_df)) [SInt 2; SNaN] = false)
    by reflexivity.
  split; [exact R|]. split; [exact B|].
  destruct (rejected_row_half_loads open_manager f gap_df
              [[SInt 1; SStr "Paris"]] [SInt 2; SNaN]
              [[SInt 3; SStr "Rome"]] gap_env)
    as (R1 & _ & L & Cr & Cl);
    [discriminate | split; [reflexivity | intros k; reflexivity]
    | exact R | vm_compute; reflexivity | exact I | reflexivity
    | vm_compute; reflexivity | exact B |].
  split; [exact R1|]. split; [exact L|].
  split; [exact (Cr "towns" "id VARCHAR(255)" eq_refl) | exact Cl].
Defined.

(** X19 for a second run of the script over the folder of a first
    load. *)
Lemma main_loses_nothing_witness :
  let loader :=
    {| CSVToMySQLLoader.db_manager := open_manager;
       CSVToMySQLLoader.csv_files := ["data/orders__202401.csv"] |} in
  let s := final (CSVToMySQLLoader.load_csv_to_db loader batch_env) in
  let t :=
    {| MySQL.t_columns := text_columns ["id"; "amount"];
       MySQL.t_rows := [["1.0"; "10.5"]; ["2.0"; "20.0"]];
       MySQL.t_staged := [] |} in
  forallb (plain_file (fs s)) (found (fs s) "data" "csv") = true
  /\ MySQL.lookup "orders" (MySQL.tables (mysql s)) = Some t
  /\ exists t',
       MySQL.lookup "orders"
         (MySQL.tables
            (mysql (final (main "src/store_data.py" "data"
                             None None None None s))))
       = Some t'
       /\ MySQL.t_columns t' = MySQL.t_columns t
       /\ exists more, MySQL.t_rows t' = MySQL.t_rows t ++ more.
Proof.
  intros loader s t.
  assert (P : forallb (plain_file (fs s)) (found (fs s) "data" "csv") = true)
    by (vm_compute; reflexivity).
  assert (L : MySQL.lookup "orders" (MySQL.tables (mysql s)) = Some t)
    by (vm_compute; reflexivity).
  split; [exact P|]. split; [exact L|].
  exact (main_loses_nothing "src/store_data.py" "data" None None None None
           s "orders" t P L).
Defined.

(** C4, amended, on a batch of three files, the second of which is
    unparseable. *)
Lemma failure_isolation_witness :
  let e := Exn.Build Exn.ParserError "Error tokenizing data. C error" in
  let orders := "data/orders__202401.csv" in
  let broken := "data/broken__202401.csv" in
  let users := "data/users__202401.csv" in
  let batch :=
    CSVToMySQLLoader.load_csv_to_db
      {| CSVToMySQLLoader.db_manager := open_manager;
         CSVToMySQLLoader.csv_files := [orders; broken; users] |}
      batch_env in
  let others :=
    CSVToMySQLLoader.load_csv_to_db
      {| CSVToMySQLLoader.db_manager := open_manager;
         CSVToMySQLLoader.csv_files := [orders; users] |} batch_env in
  read_csv (fs batch_env) broken = Raise e
  /\ Forall (good_file batch_env) [orders; users]
  /\ result batch = Ret tt
  /\ final batch = final others
  /\ logged batch
     = load_entries orders ++ parse_error_entry broken :: load_entries users
  /\ MySQL.lookup "orders" (MySQL.tables (mysql (final batch)))
     = Some {| MySQL.t_columns := text_columns ["id"; "amount"];
               MySQL.t_rows := [["1.0"; "10.5"]; ["2.0"; "20.0"]];
               MySQL.t_staged := [] |}
  /\ MySQL.lookup "users" (MySQL.tables (mysql (final batch)))
     = Some {| MySQL.t_columns := text_columns ["name"];
               MySQL.t_rows := [["ann"]];
               MySQL.t_staged := [] |}.
Proof.
  intros e orders broken users.
  assert (R : read_csv (fs batch_env) broken = Raise e)
    by (vm_compute; reflexivity).
  assert (Ro : read_csv (fs batch_env) orders = Ret orders_df)
    by (vm_compute; reflexivity).
  assert (Ru : read_csv (fs batch_env) users
               = Ret {| columns := ["name"]; iterrows := [[SStr "ann"]] |})
    by (vm_compute; reflexivity).
  assert (G : Forall (good_file batch_env) [orders; users]).
  { repeat constructor.
    - exists orders_df. split; [exact Ro|].
      split; [vm_compute; reflexivity | exact I].
    - eexists. split; [exact Ru|].
      split; [vm_compute; reflexivity | exact I]. }
  destruct (failure_isolation open_manager [orders] [users] broken e
              batch_env)
    as (Rb & Fb & _ & _ & Healthy).
  - discriminate.
  - exact connected_server_db_errors_only.
  - intros f [<- | [<- | []]]; vm_compute; exact I.
  - exact R.
  - reflexivity.
  - destruct Healthy as (Lg & T).
    + split; [reflexivity | intros k; reflexivity].
    + exact G.
    + repeat constructor; simpl; intuition discriminate.
    + split; [exact R|]. split; [exact G|]. split; [exact Rb|].
      split; [exact Fb|]. split; [exact Lg|]. split.
      * exact (T orders orders_df (or_introl eq_refl) Ro).
      * exact (T users _ (or_intror (or_introl eq_refl)) Ru).
Defined.
